(** * AgentMind: reasoning-chain execution and answer reconciliation

    A shallow embedding of the core of the AgentMind backend
    ([backend/agents/reasoner.py], [backend/agents/self_corrector.py],
    [backend/agents/verifier.py], [backend/agents/planner.py],
    [backend/reasoning_system.py], [backend/tools/enhanced_solvers.py])
    together with the properties of the specification that concern it.

    Conventions of the embedding.
    - Python [str] is [string]; the text functions ([lower], [strip],
      [split], [in]) are modelled on ASCII text.
    - A finite Python [float] is the rational it denotes ([Q]); a float
      that travels as a solver output is a [pyfloat], which also carries
      what [str()] prints for it. [Binary64] is the arithmetic of the
      interpreter: every operation rounds to the nearest binary64 number.
      The validation of answers and [VerifierAgent64] compute with it;
      the properties that depend on a rounded value are stated over
      them. The other modules compute confidences without rounding: what
      is stated over them (the outcome of a clamp, the equality of two
      runs, counts, lengths, texts) does not depend on the rounding.
    - A Python exception raised by a handler is an explicit outcome of the
      handler ([Raised]); a loop with an early [return] is a search for the
      first element that triggers the [return]. *)

From Stdlib Require Import List String Ascii Bool Arith ZArith QArith Qabs Qround Lia Lqa.
From Stdlib Require Import Numbers.DecimalString.
Import ListNotations.

Set Implicit Arguments.

(** ** Python text primitives *)

Module Py.

Definition code (c : ascii) : nat := nat_of_ascii c.

Definition isupper (c : ascii) : bool := (65 <=? code c)%nat && (code c <=? 90)%nat.
Definition islower (c : ascii) : bool := (97 <=? code c)%nat && (code c <=? 122)%nat.
Definition isdigit (c : ascii) : bool := (48 <=? code c)%nat && (code c <=? 57)%nat.
Definition isalpha (c : ascii) : bool := isupper c || islower c.

(** [str.isspace] on ASCII: tab, line feed, vertical tab, form feed,
    carriage return, the four separators 28..31 and the space. *)
Definition isspace (c : ascii) : bool :=
  ((9 <=? code c)%nat && (code c <=? 13)%nat)
  || ((28 <=? code c)%nat && (code c <=? 32)%nat).

Definition lower_char (c : ascii) : ascii :=
  if isupper c then ascii_of_nat (code c + 32) else c.

(** [s.lower()] *)
Fixpoint lower (s : string) : string :=
  match s with
  | EmptyString => EmptyString
  | String c t => String (lower_char c) (lower t)
  end.

Fixpoint rev_onto (s acc : string) : string :=
  match s with
  | EmptyString => acc
  | String c t => rev_onto t (String c acc)
  end.

Definition reverse (s : string) : string := rev_onto s EmptyString.

Fixpoint lstrip (s : string) : string :=
  match s with
  | EmptyString => EmptyString
  | String c t => if isspace c then lstrip t else s
  end.

Definition rstrip (s : string) : string := reverse (lstrip (reverse s)).

(** [s.strip()] *)
Definition strip (s : string) : string := rstrip (lstrip s).

(** [needle in hay] *)
Fixpoint contains (needle hay : string) : bool :=
  String.prefix needle hay
  || match hay with
     | EmptyString => false
     | String _ t => contains needle t
     end.

(** [s.startswith(p)] *)
Definition startswith (s p : string) : bool := String.prefix p s.

(** [not s] for a string, and its truth value *)
Definition is_empty (s : string) : bool :=
  match s with EmptyString => true | _ => false end.

Definition truthy (s : string) : bool := negb (is_empty s).

Fixpoint split_from (cur s : string) : list string :=
  match s with
  | EmptyString => if is_empty cur then [] else [cur]
  | String c t =>
      if isspace c
      then (if is_empty cur then split_from EmptyString t
            else cur :: split_from EmptyString t)
      else split_from (cur ++ String c EmptyString) t
  end.

(** [s.split()] : the maximal runs of non-blank characters *)
Definition split (s : string) : list string := split_from EmptyString s.

(** [sep.join(l)] *)
Fixpoint join (sep : string) (l : list string) : string :=
  match l with
  | [] => EmptyString
  | [x] => x
  | x :: r => (x ++ sep ++ join sep r)%string
  end.

(** [s.replace(c, '')] for a one-character [c] *)
Fixpoint remove_char (c : ascii) (s : string) : string :=
  match s with
  | EmptyString => EmptyString
  | String d t => if Ascii.eqb c d then remove_char c t else String d (remove_char c t)
  end.

Fixpoint any_char (p : ascii -> bool) (s : string) : bool :=
  match s with
  | EmptyString => false
  | String c t => p c || any_char p t
  end.

(** [x in l] for a list of strings *)
Definition mem (x : string) (l : list string) : bool := existsb (String.eqb x) l.

(** [str(n)] for an [int] *)
Definition str_int (n : Z) : string := NilZero.string_of_int (Z.to_int n).

(** The longest run of digits at the head of [s], and what follows it. *)
Fixpoint span_digits (s : string) : string * string :=
  match s with
  | EmptyString => (EmptyString, EmptyString)
  | String c t =>
      if isdigit c
      then let (ds, r) := span_digits t in (String c ds, r)
      else (EmptyString, s)
  end.

Fixpoint skip_spaces (s : string) : nat * string :=
  match s with
  | EmptyString => (O, EmptyString)
  | String c t =>
      if isspace c
      then let (n, r) := skip_spaces t in (S n, r)
      else (O, s)
  end.

(** A match of the pattern [-?\d+\.?\d*] at the head of [s]. Every
    quantifier is greedy and no shorter choice can make the pattern succeed
    where the greedy one fails, so the greedy parse is the match. *)
Definition match_number (s : string) : option string :=
  let (sign, s1) :=
    match s with
    | String "-" t => ("-"%string, t)
    | _ => (EmptyString, s)
    end in
  let (ds, s2) := span_digits s1 in
  if is_empty ds then None
  else
    let (dot, s3) :=
      match s2 with
      | String "." t => ("."%string, t)
      | _ => (EmptyString, s2)
      end in
    let (fs, _) := span_digits s3 in
    Some (sign ++ ds ++ dot ++ fs)%string.

(** [re.findall(pattern, s)] for a pattern given by its matcher at the head
    of the text: [m] returns the reported text and the length of the whole
    match. The scan is leftmost and non-overlapping; [skip] counts the
    characters of the last match that are still to be passed over. *)
Fixpoint findall_from (m : string -> option (string * nat)) (skip : nat) (s : string)
  : list string :=
  match s with
  | EmptyString => []
  | String _ t =>
      match skip with
      | S k => findall_from m k t
      | O =>
          match m s with
          | Some (g, len) => g :: findall_from m (Nat.pred len) t
          | None => findall_from m O t
          end
      end
  end.

(** [re.findall(r'-?\d+\.?\d*', s)] *)
Definition findall_numbers (s : string) : list string :=
  findall_from (fun t => match match_number t with
                         | Some g => Some (g, String.length g)
                         | None => None
                         end) O s.

(** A match of [(\d+(?:\.\d+)?)\s*hour] at the head of [s]: the captured
    number and the length of the whole match. *)
Definition match_hours (s : string) : option (string * nat) :=
  let (ds, s1) := span_digits s in
  if is_empty ds then None
  else
    let (frac, s2) :=
      match s1 with
      | String "." t =>
          let (fs, r) := span_digits t in
          if is_empty fs then (EmptyString, s1) else (String "." fs, r)
      | _ => (EmptyString, s1)
      end in
    let (n, s3) := skip_spaces s2 in
    if String.prefix "hour" s3
    then Some ((ds ++ frac)%string, (String.length ds + String.length frac + n + 4)%nat)
    else None.

(** [re.findall(r'(\d+(?:\.\d+)?)\s*hour', s)] *)
Definition findall_hours (s : string) : list string := findall_from match_hours O s.

Definition digit_val (c : ascii) : Z := Z.of_nat (code c - 48).

Fixpoint digits_val (acc : Z) (s : string) : Z :=
  match s with
  | EmptyString => acc
  | String c t => digits_val (10 * acc + digit_val c) t
  end.

Fixpoint pow10 (n : nat) : positive :=
  match n with
  | O => 1%positive
  | S k => (10 * pow10 k)%positive
  end.

(** The number that a numeral denotes, for a text matched by one of the
    two patterns above: an optional sign, digits, and an optional point
    followed by digits. [float(s)] is this number rounded to binary64
    ([Binary64.parse] below). *)
Definition float_of_string (s : string) : Q :=
  let (neg, body) :=
    match s with
    | String "-" t => (true, t)
    | _ => (false, s)
    end in
  let (ip, r) := span_digits body in
  let fp := match r with String "." t => fst (span_digits t) | _ => EmptyString end in
  let num := digits_val (digits_val 0 ip) fp in
  let q := Qmake num (pow10 (String.length fp)) in
  if neg then Qopp q else q.

End Py.

(** ** Data model ([agents/planner.py], [agents/reasoner.py], [agents/verifier.py]) *)

(** A Python [float] as a solver output: a finite float is its exact value
    together with the text [str()] prints for it; the two special floats
    are kept apart because the verifier tests for them. *)
Inductive pyfloat : Type :=
| Fin (q : Q) (repr : string)
| NaN
| Inf (negative : bool).

(** What a step may record as [tool_output]: an [int], a [float] or a [str]. *)
Inductive value : Type :=
| VInt (n : Z)
| VFloat (f : pyfloat)
| VStr (s : string).

Module Value.

(** [x.is_integer()] *)
Definition is_integer (f : pyfloat) : bool :=
  match f with
  | Fin q _ => (Zpos (Qden (Qred q)) =? 1)%Z
  | _ => false
  end.

(** [int(x)] of a finite float: truncation towards zero *)
Definition trunc (q : Q) : Z := Z.quot (Qnum q) (Zpos (Qden q)).

(** [str(x)] *)
Definition str_float (f : pyfloat) : string :=
  match f with
  | Fin _ repr => repr
  | NaN => "nan"
  | Inf false => "inf"
  | Inf true => "-inf"
  end.

Definition str (v : value) : string :=
  match v with
  | VInt n => Py.str_int n
  | VFloat f => str_float f
  | VStr s => s
  end.

(** The truth value Python gives to a value in a condition. *)
Definition truthy (v : value) : bool :=
  match v with
  | VInt n => negb (n =? 0)%Z
  | VFloat (Fin q _) => negb (Qeq_bool q 0)
  | VFloat _ => true
  | VStr s => Py.truthy s
  end.

(** Truth value of an optional value: [None] is false. *)
Definition otruthy (o : option value) : bool :=
  match o with
  | Some v => truthy v
  | None => false
  end.

End Value.

(** ** Binary64 arithmetic

    A finite Python [float] is a binary64 number: a rational [m * 2^e]
    with [|m| < 2^53] and [-1074 <= e <= 971]. Such a number is
    represented by the rational it is; an operation on floats is the
    exact operation followed by rounding to the nearest binary64 number,
    the one with the even significand when two are equally near. *)

Module Binary64.

(** [b ^ k] for an integer [k] *)
Definition power (b : positive) (k : Z) : Q :=
  if (0 <=? k)%Z then inject_Z (Zpos b ^ k) else 1 # Z.to_pos (Zpos b ^ (- k)).

(** The binary exponent of [a > 0]: the [e] with [2^e <= a < 2^(e+1)]. *)
Definition exponent (a : Q) : Z :=
  let e := (Z.log2 (Qnum a) - Z.log2 (Zpos (Qden a)))%Z in
  if Qle_bool (power 2 e) a then e else (e - 1)%Z.

(** The integer nearest to [a >= 0]; of two that are equally near, the
    even one. *)
Definition round_half_even (a : Q) : Z :=
  let f := Qfloor a in
  match Qcompare (a - inject_Z f) (1 # 2) with
  | Lt => f
  | Gt => (f + 1)%Z
  | Eq => if Z.even f then f else (f + 1)%Z
  end.

(** The binary64 number nearest to [q]: 53 significant bits above the
    exponent -1022, multiples of [2^-1074] below it. [None] when the
    rounded magnitude reaches [2^1024], where the float is infinite. *)
Definition nearest (q : Q) : option Q :=
  if Qeq_bool q 0 then Some 0
  else
    let a := Qabs q in
    let ulp := power 2 (Z.max (exponent a) (-1022) - 52) in
    let r := inject_Z (round_half_even (a / ulp)) * ulp in
    if Qle_bool (power 2 1024) r then None
    else Some (Qred (if Qle_bool 0 q then r else - r)).

(** The decimal exponent of [a > 0]: the [k] with [10^(k-1) <= a < 10^k]. *)
Fixpoint above (fuel : nat) (a : Q) (k : Z) : Z :=
  match fuel with
  | O => k
  | S f => if Qle_bool (power 10 k) a then above f a (k + 1) else k
  end.

Fixpoint below (fuel : nat) (a : Q) (k : Z) : Z :=
  match fuel with
  | O => k
  | S f => if Qle_bool (power 10 (k - 1)) a then k else below f a (k - 1)
  end.

Definition decimal_exponent (a : Q) : Z :=
  below 4 a (above 4 a (exponent a * 30103 / 100000 + 1)).

(** [float(c) == a] for a decimal [c] *)
Definition reads_back (a c : Q) : bool :=
  match nearest c with
  | Some r => Qeq_bool r a
  | None => false
  end.

(** The significand [m] of [n] digits for which [m * 10^(k-n)] reads back
    as [a], the nearer one to [a] if there are two. *)
Definition candidate (a : Q) (k n : Z) : option Z :=
  let scaled := a / power 10 (k - n) in
  let lo := Qfloor scaled in
  let hi := (lo + 1)%Z in
  match reads_back a (inject_Z lo * power 10 (k - n)),
        reads_back a (inject_Z hi * power 10 (k - n)) with
  | true, true => Some (round_half_even scaled)
  | true, false => Some lo
  | false, true => Some hi
  | false, false => None
  end.

(** The shortest significand that reads back as [a]. Seventeen digits
    always do. *)
Fixpoint shortest (fuel : nat) (a : Q) (k n : Z) : Z * Z :=
  match fuel with
  | O => (round_half_even (a / power 10 (k - n)), n)
  | S f =>
      match candidate a k n with
      | Some m => (m, n)
      | None => shortest f a k (n + 1)
      end
  end.

Fixpoint zeros (n : nat) : string :=
  match n with
  | O => EmptyString
  | S k => String "0" (zeros k)
  end.

Fixpoint drop_zeros (s : string) : string :=
  match s with
  | String "0" t => drop_zeros t
  | _ => s
  end.

(** [repr(x)], which is also [str(x)], for a binary64 number [x]: the
    shortest digits that read back as [x], in positional notation when
    the decimal exponent is between -3 and 16 and with an exponent
    otherwise. *)
Definition repr (x : Q) : string :=
  if Qeq_bool x 0 then "0.0"%string
  else
    let a := Qabs x in
    let k := decimal_exponent a in
    let (m, n) := shortest 16 a k 1 in
    let all_digits := Py.str_int m in
    let k := (k + (Z.of_nat (String.length all_digits) - n))%Z in
    let digits := Py.reverse (drop_zeros (Py.reverse all_digits)) in
    let len := String.length digits in
    let body :=
      if (k <=? -4)%Z || (16 <? k)%Z then
        let e := (k - 1)%Z in
        (substring 0 1 digits
         ++ (if (1 <? len)%nat then "." ++ substring 1 (len - 1) digits else "")
         ++ "e" ++ (if (e <? 0)%Z then "-" else "+")
         ++ (if (Z.abs e <? 10)%Z then "0" else "") ++ Py.str_int (Z.abs e))%string
      else if (k <=? 0)%Z then ("0." ++ zeros (Z.to_nat (- k)) ++ digits)%string
      else if (len <=? Z.to_nat k)%nat
           then (digits ++ zeros (Z.to_nat k - len) ++ ".0")%string
           else (substring 0 (Z.to_nat k) digits ++ "."
                 ++ substring (Z.to_nat k) (len - Z.to_nat k) digits)%string in
    if Qle_bool 0 x then body else ("-" ++ body)%string.

(** [float(s)] for a numeral [s]: an optional sign, digits, and an
    optional point followed by digits. *)
Definition parse (s : string) : pyfloat :=
  let negative := match s with String "-" _ => true | _ => false end in
  match nearest (Py.float_of_string s) with
  | Some r => Fin r (if negative && Qeq_bool r 0 then "-0.0" else repr r)
  | None => Inf negative
  end.

(** [abs(x)] *)
Definition abs (f : pyfloat) : pyfloat :=
  match f with
  | Fin q r => Fin (Qabs q) (match r with String "-" t => t | _ => r end)
  | NaN => NaN
  | Inf _ => Inf false
  end.

(** [x > k] for a float [x] and an [int] [k]: Python compares the two
    numbers as they are, without converting the integer. *)
Definition gt_int (f : pyfloat) (k : Z) : bool :=
  match f with
  | Fin q _ => negb (Qle_bool q (inject_Z k))
  | NaN => false
  | Inf negative => negb negative
  end.

(** A float literal of the source, and the operations on finite floats
    whose results are finite. *)
Definition literal (q : Q) : Q :=
  match nearest q with
  | Some r => r
  | None => 0
  end.

Definition add (x y : Q) : Q := literal (x + y).
Definition sub (x y : Q) : Q := literal (x - y).
Definition mul (x y : Q) : Q := literal (x * y).
Definition div (x y : Q) : Q := literal (x / y).

(** [float(n)] for the length of a list *)
Definition of_nat (n : nat) : Q := literal (inject_Z (Z.of_nat n)).

(** [sum(l)] as the interpreters before Python 3.12 compute it: the
    additions are made from left to right, starting from the integer 0. *)
Definition sum_left (l : list Q) : Q := fold_left add l 0.

End Binary64.

(** Truth value of an optional string ([None] and [''] are false). *)
Definition struthy (o : option string) : bool :=
  match o with
  | Some s => Py.truthy s
  | None => false
  end.

Inductive ProblemType : Type :=
| SPATIAL_REASONING | MATHEMATICAL | LOGICAL | SEQUENCE
| OPTIMIZATION | LATERAL_THINKING | CLASSIC_RIDDLE.

Inductive ReasoningStrategy : Type :=
| DIRECT_CALCULATION | STEP_BY_STEP_LOGIC | PATTERN_RECOGNITION
| CONSTRAINT_SATISFACTION | SPATIAL_VISUALIZATION | CREATIVE_THINKING.

Record ReasoningPlan : Type := mkPlan {
  problem_type : ProblemType;
  strategy : ReasoningStrategy;
  sub_problems : list string;
  required_tools : list string;
  constraints : list string;
  expected_answer_format : string;
  confidence_threshold : Q
}.

(** [ReasoningStep]. The fields [tool_input] and [timestamp] are written
    but never read by the code embedded here and are left out. *)
Record ReasoningStep : Type := mkStep {
  step_number : nat;
  action : string;
  thought : string;
  tool_used : option string;
  tool_output : option value;
  result : option string;
  verified : bool;
  confidence : Q
}.

Record ReasoningChain : Type := mkChain {
  problem : string;
  plan : ReasoningPlan;
  steps : list ReasoningStep;
  final_answer : option string;
  overall_confidence : Q
}.

Record VerificationResult : Type := mkVerification {
  is_valid : bool;
  v_confidence : Q;
  issues : list string;
  suggestions : list string
}.

Record SolutionResult : Type := mkSolution {
  s_problem : string;
  answer : string;
  reasoning_chain : ReasoningChain;
  verification : VerificationResult;
  s_confidence : Q;
  execution_time : Q
}.

(** Field updates, as the assignments [step.f = v] of the source. *)
Definition set_thought (t : string) (s : ReasoningStep) : ReasoningStep :=
  mkStep (step_number s) (action s) t (tool_used s) (tool_output s) (result s)
         (verified s) (confidence s).
Definition set_tool_used (t : string) (s : ReasoningStep) : ReasoningStep :=
  mkStep (step_number s) (action s) (thought s) (Some t) (tool_output s) (result s)
         (verified s) (confidence s).
Definition set_tool_output (v : value) (s : ReasoningStep) : ReasoningStep :=
  mkStep (step_number s) (action s) (thought s) (tool_used s) (Some v) (result s)
         (verified s) (confidence s).
Definition set_result (r : string) (s : ReasoningStep) : ReasoningStep :=
  mkStep (step_number s) (action s) (thought s) (tool_used s) (tool_output s) (Some r)
         (verified s) (confidence s).
Definition set_verified (b : bool) (s : ReasoningStep) : ReasoningStep :=
  mkStep (step_number s) (action s) (thought s) (tool_used s) (tool_output s) (result s)
         b (confidence s).
Definition set_confidence (c : Q) (s : ReasoningStep) : ReasoningStep :=
  mkStep (step_number s) (action s) (thought s) (tool_used s) (tool_output s) (result s)
         (verified s) c.

(** [ReasoningChain.add_step] *)
Definition add_step (st : ReasoningStep) (c : ReasoningChain) : ReasoningChain :=
  mkChain (problem c) (plan c) (steps c ++ [st]) (final_answer c) (overall_confidence c).

(** ** The planner ([agents/planner.py]) *)

Module Planner.

Definition all_types : list ProblemType :=
  [SPATIAL_REASONING; MATHEMATICAL; LOGICAL; SEQUENCE;
   OPTIMIZATION; LATERAL_THINKING; CLASSIC_RIDDLE].

(** [ptype.value] *)
Definition type_value (t : ProblemType) : string :=
  match t with
  | SPATIAL_REASONING => "spatial_reasoning"
  | MATHEMATICAL => "mathematical"
  | LOGICAL => "logical"
  | SEQUENCE => "sequence"
  | OPTIMIZATION => "optimization"
  | LATERAL_THINKING => "lateral_thinking"
  | CLASSIC_RIDDLE => "classic_riddle"
  end.

Definition problem_keywords (t : ProblemType) : list string :=
  match t with
  | SPATIAL_REASONING =>
      ["cube"; "3d"; "surface"; "volume"; "faces"; "edges";
       "corner"; "diagonal"; "geometry"; "shape"; "rotate"; "painted"]
  | MATHEMATICAL =>
      ["calculate"; "equation"; "sum"; "multiply"; "divide";
       "percentage"; "ratio"; "average"; "total"; "machines"]
  | LOGICAL =>
      ["if"; "then"; "true"; "false"; "statement"; "consistent";
       "contradiction"; "must be"; "cannot be"; "machine"; "button"]
  | SEQUENCE =>
      ["sequence"; "pattern"; "next number"; "series"; "follows";
       "continue"; "missing"; "dots"]
  | OPTIMIZATION =>
      ["minimize"; "maximize"; "optimal"; "best"; "schedule";
       "efficiency"; "shortest"; "longest"; "most"; "least";
       "planning"; "days"; "hours"; "tasks"]
  | LATERAL_THINKING =>
      ["how can"; "possible"; "unexpected"; "strange";
       "shoots"; "underwater"; "hangs"; "dies"; "survived"]
  | CLASSIC_RIDDLE =>
      ["riddle"; "what am i"; "puzzle"; "classic"; "race";
       "overtake"; "position"; "gold coins"; "will"; "divide"]
  end%string.

(** [s.replace(" ", "_")] *)
Fixpoint spaces_to_underscores (s : string) : string :=
  match s with
  | EmptyString => EmptyString
  | String c t =>
      String (if Ascii.eqb c " " then "_"%char else c) (spaces_to_underscores t)
  end.

Definition score (problem_lower : string) (t : ProblemType) : nat :=
  List.length (filter (fun k => Py.contains k problem_lower) (problem_keywords t)).

(** [max(scores, key=scores.get)]: the first type, in the order of the
    dictionary, whose score is the largest. *)
Fixpoint argmax_first (f : ProblemType -> nat) (best : ProblemType) (l : list ProblemType)
  : ProblemType :=
  match l with
  | [] => best
  | t :: r => argmax_first f (if (f best <? f t)%nat then t else best) r
  end.

Definition classify_problem (problem : string) (topic : option string) : ProblemType :=
  let problem_lower := Py.lower problem in
  let hinted :=
    match topic with
    | Some tp =>
        if Py.truthy tp
        then
          let topic_lower := spaces_to_underscores (Py.lower tp) in
          find (fun t => Py.contains (type_value t) topic_lower
                         || Py.contains topic_lower (type_value t)) all_types
        else None
    | None => None
    end in
  match hinted with
  | Some t => t
  | None =>
      let best := argmax_first (score problem_lower) SPATIAL_REASONING
                               (tl all_types) in
      if (0 <? score problem_lower best)%nat then best else LOGICAL
  end.

Definition select_strategy (t : ProblemType) : ReasoningStrategy :=
  match t with
  | SPATIAL_REASONING => SPATIAL_VISUALIZATION
  | MATHEMATICAL => DIRECT_CALCULATION
  | LOGICAL => STEP_BY_STEP_LOGIC
  | SEQUENCE => PATTERN_RECOGNITION
  | OPTIMIZATION => CONSTRAINT_SATISFACTION
  | LATERAL_THINKING => CREATIVE_THINKING
  | CLASSIC_RIDDLE => CREATIVE_THINKING
  end.

Definition decompose_problem (t : ProblemType) : list string :=
  match t with
  | SPATIAL_REASONING =>
      ["Identify the geometric shape/structure";
       "Determine relevant dimensions";
       "Apply spatial formulas or logic";
       "Calculate the answer"]
  | MATHEMATICAL =>
      ["Extract numerical values and relationships";
       "Set up equations or formulas";
       "Perform calculations";
       "Verify answer against constraints"]
  | SEQUENCE =>
      ["Identify the given sequence";
       "Analyze differences or ratios";
       "Determine the pattern rule";
       "Apply rule to find next term"]
  | OPTIMIZATION =>
      ["Identify constraints and objectives";
       "List all possible approaches";
       "Evaluate each option";
       "Select optimal solution"]
  | LOGICAL =>
      ["Identify given facts and conditions";
       "Determine what needs to be proven";
       "Apply logical rules step by step";
       "Reach conclusion"]
  | _ =>
      ["Identify literal interpretation";
       "Consider alternative meanings";
       "Apply creative thinking";
       "Find unconventional solution"]
  end%string.

Definition identify_tools (t : ProblemType) (problem : string) : list string :=
  List.concat
    [ ["reasoning_engine"];
      match t with
      | MATHEMATICAL | SPATIAL_REASONING => ["calculator"; "symbolic_solver"]
      | _ => []
      end;
      match t with SEQUENCE => ["pattern_analyzer"; "calculator"] | _ => [] end;
      match t with OPTIMIZATION => ["constraint_solver"; "calculator"] | _ => [] end;
      if Py.contains "code" (Py.lower problem) || Py.contains "program" (Py.lower problem)
      then ["code_executor"] else [];
      ["verifier"] ]%string.

Fixpoint split_on_from (sep : ascii) (cur s : string) : list string :=
  match s with
  | EmptyString => [cur]
  | String c t =>
      if Ascii.eqb c sep then cur :: split_on_from sep EmptyString t
      else split_on_from sep (cur ++ String c EmptyString) t
  end.

(** [s.split('.')] *)
Definition split_on (sep : ascii) (s : string) : list string :=
  split_on_from sep EmptyString s.

Definition constraint_indicators : list string :=
  ["must"; "cannot"; "only"; "exactly"; "at least"; "at most";
   "without"; "given that"; "assuming"; "if"; "provided that"]%string.

Definition extract_constraints (problem : string) : list string :=
  map Py.strip
      (filter (fun sentence =>
                 existsb (fun ind => Py.contains ind (Py.lower sentence))
                         constraint_indicators)
              (split_on "." problem)).

Definition determine_answer_format (problem : string) : string :=
  let problem_lower := Py.lower problem in
  if Py.contains "how many" problem_lower then "integer"
  else if Py.contains "what is the" problem_lower then
    if Py.contains "percentage" problem_lower || Py.contains "%" problem then "percentage"
    else if Py.contains "ratio" problem_lower then "ratio"
    else "value"
  else if Py.contains "which" problem_lower || Py.contains "what" problem_lower
       then "categorical"
  else if Py.contains "true or false" problem_lower then "boolean"
  else "text".

Definition create_plan (problem : string) (topic : option string) : ReasoningPlan :=
  let t := classify_problem problem topic in
  mkPlan t (select_strategy t) (decompose_problem t) (identify_tools t problem)
         (extract_constraints problem) (determine_answer_format problem) (7 # 10).

End Planner.

(** ** Shared helpers *)

(** [options] is [Optional[List[str]]]; a test [if options:] fails for both
    [None] and the empty list, and every loop over the options then runs
    over nothing. *)
Definition olist (options : option (list string)) : list string :=
  match options with
  | Some l => l
  | None => []
  end.

(** A loop whose body either returns or goes on to the next element. *)
Fixpoint first_some {A B : Type} (f : A -> option B) (l : list A) : option B :=
  match l with
  | [] => None
  | x :: r =>
      match f x with
      | Some y => Some y
      | None => first_some f r
      end
  end.

(** The text behind an optional string that a test has found true. *)
Definition text_of (o : option string) : string :=
  match o with
  | Some r => r
  | None => EmptyString
  end.

Definition Qgtb (x y : Q) : bool := negb (Qle_bool x y).
Definition Qltb (x y : Q) : bool := negb (Qle_bool y x).

(** [min(a, b)] and [max(a, b)] of Python: the first argument is kept
    unless the second is strictly smaller (larger). *)
Definition py_min (a b : Q) : Q := if Qltb b a then b else a.
Definition py_max (a b : Q) : Q := if Qgtb b a then b else a.

Fixpoint Qsum (l : list Q) : Q :=
  match l with
  | [] => 0
  | x :: r => x + Qsum r
  end.

Definition Qlen {A : Type} (l : list A) : Q := inject_Z (Z.of_nat (List.length l)).

(** Readers of fields whose names the source also uses for parameters. *)
Definition confidence_of (st : ReasoningStep) : Q := confidence st.
Definition result_of (st : ReasoningStep) : option string := result st.
Definition problem_of (c : ReasoningChain) : string := problem c.
Definition plan_of (c : ReasoningChain) : ReasoningPlan := plan c.

(** ** The self-corrector ([agents/self_corrector.py]) *)

Module SelfCorrector.

Definition status_strings : list string :=
  ["processed"; "calculated"; "verified"; "identified";
   "optimal_solution"; "conclusion_reached"; "equation_ready";
   "options_evaluated"; "pattern_identified"]%string.

Definition exact_match (result opt : string) : bool :=
  String.eqb (Py.strip result) (Py.strip opt).

Definition partial_match (result opt : string) : bool :=
  Py.contains (Py.lower result) (Py.lower opt)
  || Py.contains (Py.lower opt) (Py.lower result).

Definition mentions_percentage (problem : string) : bool :=
  Py.contains "percentage" (Py.lower problem) || Py.contains "%" problem.

Definition validate_result (result problem : string) (options : option (list string))
  : bool * option string :=
  if Py.is_empty result then (false, Some "Empty result"%string)
  else if Py.mem (Py.strip (Py.lower result)) status_strings
  then (false, Some ("Status string '" ++ result ++ "' is not a valid answer")%string)
  else
    match find (exact_match result) (olist options) with
    | Some _ => (true, None)
    | None =>
        match find (partial_match result) (olist options) with
        | Some opt => (true, Some ("Consider using full option: '" ++ opt ++ "'")%string)
        | None =>
            match Py.findall_numbers result with
            | n :: _ =>
                let num := Binary64.parse n in
                if Binary64.gt_int (Binary64.abs num) 1000000
                then (false, Some ("Unreasonably large number: "
                                   ++ Value.str_float num)%string)
                else if mentions_percentage problem && Binary64.gt_int num 100
                then (false, Some ("Percentage > 100%: " ++ Value.str_float num)%string)
                else (true, None)
            | [] => (true, None)
            end
        end
    end.

(** First loop of [suggest_correction]: a step is used when its output is
    true in a condition and is not one of three status strings. *)
Definition usable_output (st : ReasoningStep) : bool :=
  match tool_output st with
  | Some v =>
      Value.truthy v
      && match v with
         | VStr s => negb (Py.mem (Py.lower s) ["processed"; "calculated"; "verified"]%string)
         | _ => true
         end
  | None => false
  end.

(** Second loop: a step is used when it has a result that is not one of
    four status strings. *)
Definition usable_result (st : ReasoningStep) : bool :=
  match result_of st with
  | Some r =>
      Py.truthy r
      && negb (Py.mem (Py.lower r)
                      ["processed"; "calculated"; "verified"; "identified"]%string)
  | None => false
  end.

Definition suggest_correction (result problem : string) (reasoning_steps : list ReasoningStep)
           (options : option (list string)) : option string :=
  match find usable_output (rev reasoning_steps) with
  | Some st =>
      let tool_output_str := match tool_output st with
                             | Some v => Value.str v
                             | None => EmptyString
                             end in
      match find (partial_match tool_output_str) (olist options) with
      | Some opt => Some opt
      | None => Some tool_output_str
      end
  | None =>
      match find usable_result (rev reasoning_steps) with
      | Some st =>
          let r := match result_of st with Some r => r | None => EmptyString end in
          match find (fun opt => Py.contains r opt || Py.contains opt r) (olist options) with
          | Some opt => Some opt
          | None => Some r
          end
      | None =>
          match olist options with
          | opt :: _ => Some opt
          | [] => None
          end
      end
  end.

Definition reliable_tools : list string :=
  ["calculator"; "symbolic_solver"; "geometry_calculator";
   "constraint_solver"; "pattern_analyzer"]%string.

(** [len(tools_used & set(reliable_tools))]: the reliable tools that some
    step names in [tool_used]. *)
Definition reliable_tools_used (reasoning_steps : list ReasoningStep) : nat :=
  List.length
    (filter (fun t => existsb (fun st => match tool_used st with
                                         | Some u => Py.truthy u && String.eqb u t
                                         | None => false
                                         end) reasoning_steps)
            reliable_tools).

(** [verification_result and verification_result.get('is_valid')] for an
    optional dictionary: [Some None] is a dictionary without the key. *)
Definition verification_passed (verification_result : option (option bool)) : bool :=
  match verification_result with
  | Some (Some b) => b
  | _ => false
  end.

Definition calculate_confidence (result problem : string)
           (reasoning_steps : list ReasoningStep)
           (verification_result : option (option bool)) : Q :=
  let confidence : Q := 5 # 10 in
  let confidence :=
    if fst (validate_result result problem None)
    then confidence + (2 # 10) else confidence - (1 # 10) in
  let confidence :=
    confidence + (1 # 10) * inject_Z (Z.of_nat (reliable_tools_used reasoning_steps)) in
  let confidence :=
    if verification_passed verification_result then confidence + (2 # 10) else confidence in
  let step_confidences :=
    filter (fun c => Qgtb c 0) (map confidence_of reasoning_steps) in
  let confidence :=
    match step_confidences with
    | [] => confidence
    | _ => (confidence + Qsum step_confidences / Qlen step_confidences) / 2
    end in
  py_max (1 # 10) (py_min (95 # 100) confidence).

Definition self_correct (preliminary_answer problem : string)
           (reasoning_steps : list ReasoningStep) (options : option (list string))
  : string * string * Q :=
  let (is_valid, validation_msg) := validate_result preliminary_answer problem options in
  let msg := match validation_msg with Some m => m | None => "None"%string end in
  let (final_answer, correction_reason) :=
    if is_valid then (preliminary_answer, EmptyString)
    else
      match suggest_correction preliminary_answer problem reasoning_steps options with
      | Some suggested =>
          if Py.truthy suggested && negb (String.eqb suggested preliminary_answer)
          then (suggested, ("Corrected: " ++ msg ++ " â†’ Using " ++ suggested)%string)
          else (preliminary_answer, ("Warning: " ++ msg)%string)
      | None => (preliminary_answer, ("Warning: " ++ msg)%string)
      end in
  (final_answer, correction_reason,
   calculate_confidence final_answer problem reasoning_steps None).

End SelfCorrector.

(** ** Solvers ([tools/enhanced_solvers.py], [tools/constraint_solver.py]) *)

(** The result of a call that may raise a Python [Exception]. *)
Inductive attempt (A : Type) : Type :=
| Returns (a : A)
| Throws (msg : string).

Arguments Returns {A} a.
Arguments Throws {A} msg.

Module EnhancedSolvers.

Definition format_duration (hours minutes : Z) : string :=
  if (minutes =? 0)%Z then (Py.str_int hours ++ " hours")%string
  else if (hours =? 0)%Z then (Py.str_int minutes ++ " minutes")%string
  else (Py.str_int hours ++ " hours and " ++ Py.str_int minutes ++ " minutes")%string.

(** [solve_work_rate_problem]. A time of zero raises [ZeroDivisionError],
    which the function catches and answers with [None]. *)
Definition solve_work_rate_problem (problem : string) : option string :=
  let problem_lower := Py.lower problem in
  if negb (existsb (fun word => Py.contains word problem_lower)
                   ["hour"; "together"; "work"; "complete"]%string)
  then None
  else
    let times := map Py.float_of_string (Py.findall_hours problem_lower) in
    if (2 <=? List.length times)%nat then
      if existsb (fun t => Qeq_bool t 0) times then None
      else
        let combined_rate := Qsum (map Qinv times) in
        if Qeq_bool combined_rate 0 then None
        else
          let combined_time := / combined_rate in
          let hours := Value.trunc combined_time in
          let minutes := Value.trunc ((combined_time - inject_Z hours) * 60) in
          Some (format_duration hours minutes)
    else None.

Definition solve_switch_machine_problem (problem : string) : option string :=
  let problem_lower := Py.lower problem in
  if negb (forallb (fun word => Py.contains word problem_lower) ["switch"; "machine"]%string)
  then None
  else if Py.contains "enter" problem_lower && Py.contains "room" problem_lower
          && Py.contains "three" problem_lower
  then Some "Flip Switch 1, wait, flip it back, flip Switch 2, and then enter the room."%string
  else None.

End EnhancedSolvers.

Module ConstraintSolver.

Definition calculate_worst_case_presses (problem : string) : option Z :=
  let problem_lower := Py.lower problem in
  if negb (Py.contains "button" problem_lower) || negb (Py.contains "machine" problem_lower)
  then None
  else if Py.contains "three" problem_lower && Py.contains "random" problem_lower
  then Some 6%Z
  else if Py.contains "two" problem_lower then Some 3%Z
  else None.

End ConstraintSolver.

(** The solvers whose text analysis is not embedded, and the calculator
    (which evaluates through SymPy), enter as functions that return a
    result, return [None], or raise. *)
Record SolverPool : Type := mkPool {
  calculator_evaluate : string -> attempt value;
  solve_machine_production_problem : string -> attempt (option string);
  solve_machine_time_combined : string -> attempt (option pyfloat);
  solve_pipeline_scheduling : string -> attempt (option string);
  solve_gear_rotations : string -> attempt (option string);
  solve_constraints : string -> option (list string) -> attempt (option value)
}.

(** The advisory oracle ([tools/mistral_tool.py]): [interpret_answer_options]
    is represented by the ['analysis'] entry of the dictionary it returns
    (the empty text when the entry is absent). *)
Record Oracle : Type := mkOracle {
  enhance_thought : string -> string -> attempt string;
  interpret_answer_options : string -> list string -> attempt string
}.

(** ** The reasoner ([agents/reasoner.py]) *)

(** How a handler ends: it returns, or it raises with the step as it has
    been mutated so far. *)
Inductive outcome : Type :=
| Completed (st : ReasoningStep)
| Raised (st : ReasoningStep) (msg : string).

(** A handler reads the steps recorded so far ([self.reasoning_chain.steps]),
    the step under construction, the problem, the sub-problem and the
    options. *)
Definition handler : Type :=
  list ReasoningStep -> ReasoningStep -> string -> string -> option (list string) -> outcome.

(** A reasoner: its oracle (when [use_mistral] holds), its solver pool, and
    the handlers of the problem types whose solvers are not embedded; these
    are arbitrary, and every theorem holds whatever they do. *)
Record Reasoner : Type := mkReasoner {
  oracle : option Oracle;
  pool : SolverPool;
  handle_sequence_step : handler;
  handle_spatial_step : handler;
  handle_optimization_step : handler;
  handle_logical_step : handler
}.

Module ReasonerAgent.

(** [repr] of a list of numerals, as an f-string prints it. *)
Definition repr_list (l : list string) : string :=
  ("[" ++ Py.join ", " (map (fun n => "'" ++ n ++ "'") l) ++ "]")%string.

(** [len(set(a.split()) & set(b.split()))] *)
Definition word_overlap (a b : string) : nat :=
  List.length (nodup string_dec
                     (filter (fun w => Py.mem w (Py.split b)) (Py.split a))).

(** [enumerate(options, 1)] *)
Fixpoint enumerate_from (i : Z) (l : list string) : list (Z * string) :=
  match l with
  | [] => []
  | x :: r => (i, x) :: enumerate_from (i + 1) r
  end.

Notation "'attempting' x 'from' e 'on' st 'in' k" :=
  (match e with
   | Throws msg => Raised st msg
   | Returns x => k
   end) (at level 10, x name, e at level 9, st at level 9, k at level 200).

(** The end of a cascade entry: the step records the solver's answer. *)
Definition solved (st : ReasoningStep) (output : value) (res thought_text tool : string)
  : outcome :=
  Completed (set_tool_used tool (set_thought thought_text
              (set_result res (set_tool_output output st)))).

Definition handle_mathematical_step (ag : Reasoner) (step : ReasoningStep)
           (problem sub_problem : string) : outcome :=
  let sub := Py.lower sub_problem in
  if Py.contains "extract" sub then
    let numbers := Py.findall_numbers problem in
    Completed (set_result (Py.join "," numbers)
                (set_thought ("Extracted values: " ++ repr_list numbers)%string step))
  else if Py.contains "equation" sub || Py.contains "identify" sub then
    let work_rate_result := EnhancedSolvers.solve_work_rate_problem problem in
    if struthy work_rate_result then
      let r := text_of work_rate_result in
      solved step (VStr r) r ("Enhanced work rate calculation: " ++ r)%string
             "enhanced_work_rate"
    else
    attempting production_result
      from (solve_machine_production_problem (pool ag) problem) on step in
    if struthy production_result then
      let r := text_of production_result in
      solved step (VStr r) r ("Machine production optimization: " ++ r)%string
             "production_optimizer"
    else
    let switch_result := EnhancedSolvers.solve_switch_machine_problem problem in
    if struthy switch_result then
      let r := text_of switch_result in
      solved step (VStr r) r ("Switch-machine identification: " ++ r)%string
             "switch_identifier"
    else
    attempting combined from (solve_machine_time_combined (pool ag) problem) on step in
    if Value.otruthy (option_map VFloat combined) then
      match combined with
      | Some (Fin combined_time repr) =>
          let hours := Value.trunc combined_time in
          let minutes := Value.trunc ((combined_time - inject_Z hours) * 60) in
          let result_str :=
            (if (0 <? minutes)%Z
             then Py.str_int hours ++ " hours and " ++ Py.str_int minutes ++ " minutes"
             else repr ++ " hours")%string in
          solved step (VFloat (Fin combined_time repr)) result_str
                 ("Combined work rate: " ++ result_str)%string "work_rate_calculator"
      | Some NaN => Raised step "cannot convert float NaN to integer"
      | _ => Raised step "cannot convert float infinity to integer"
      end
    else
    attempting pipeline_order from (solve_pipeline_scheduling (pool ag) problem) on step in
    if struthy pipeline_order then
      let r := text_of pipeline_order in
      solved step (VStr r) r
             ("Pipeline scheduling: Natural process order is " ++ r)%string
             "pipeline_scheduler"
    else
    attempting gear_result from (solve_gear_rotations (pool ag) problem) on step in
    if struthy gear_result then
      let r := text_of gear_result in
      solved step (VStr r) r ("Gear calculation: " ++ r)%string "gear_calculator"
    else
    (* [if presses and options:] names [options], which this function does
       not have: reading it raises [NameError] once [presses] is true. *)
    if Value.otruthy (option_map VInt (ConstraintSolver.calculate_worst_case_presses problem))
    then Raised step "name 'options' is not defined"
    else
    attempting solution from (solve_constraints (pool ag) problem None) on step in
    if Value.otruthy solution then
      let v := match solution with Some v => v | None => VStr EmptyString end in
      solved step v (Value.str v) ("Constraint analysis: " ++ Value.str v)%string
             "constraint_solver"
    else
      let numbers := Py.findall_numbers problem in
      let step :=
        if (2 <=? List.length numbers)%nat then
          match calculator_evaluate (pool ag) (Py.join "+" (firstn 2 numbers)) with
          | Returns v => set_result (Value.str v) (set_tool_output v step)
          | Throws _ => step
          end
        else step in
      let step := set_thought "Set up mathematical equation" step in
      Completed (if struthy (result_of step) then step else set_result "equation_ready" step)
  else if Py.contains "calculate" sub || Py.contains "perform" sub then
    let numbers := Py.findall_numbers problem in
    let unevaluated :=
      Completed (set_result "calculated"
                  (set_tool_used "calculator" (set_thought "Performing calculations" step))) in
    if (2 <=? List.length numbers)%nat then
      match calculator_evaluate (pool ag) (Py.join "*" (firstn 2 numbers)) with
      | Returns v =>
          Completed (set_tool_used "calculator"
                      (set_thought ("Calculated: " ++ Value.str v)%string
                        (set_result (Value.str v) (set_tool_output v step))))
      | Throws _ => unevaluated
      end
    else unevaluated
  else if Py.contains "verify" sub then
    Completed (set_result "verified"
                (set_verified true
                  (set_thought "Verifying answer against constraints" step)))
  else Completed step.

(** [_handle_general_step], for lateral-thinking problems and riddles. *)
Definition handle_general_step (ag : Reasoner) (step : ReasoningStep)
           (problem sub_problem : string) (options : option (list string)) : outcome :=
  let opts := olist options in
  let defaulted (st : ReasoningStep) : outcome :=
    let st := set_thought ("Processing: " ++ sub_problem)%string st in
    match opts with
    | opt :: _ => Completed (set_tool_output (VStr opt) (set_result opt st))
    | [] => Completed (set_result "processed" st)
    end in
  match opts, oracle ag with
  | _ :: _, Some o =>
      match interpret_answer_options o problem opts with
      | Throws msg =>
          defaulted (set_thought ("Mistral analysis failed: " ++ substring 0 100 msg)%string
                                 step)
      | Returns analysis =>
          let step := set_thought ("Mistral analysis: " ++ substring 0 200 analysis)%string
                                  step in
          let best :=
            fold_left (fun (acc : option string * nat) opt =>
                         let overlap := word_overlap (Py.lower opt) (Py.lower analysis) in
                         if (snd acc <? overlap)%nat then (Some opt, overlap) else acc)
                      opts (None, O) in
          if struthy (fst best) && (0 <? snd best)%nat then
            let r := text_of (fst best) in
            Completed (set_tool_output (VStr r) (set_result r step))
          else
            match find (fun io : Z * string =>
                          Py.contains ("option " ++ Py.str_int (fst io))%string
                                      (Py.lower analysis)
                          || Py.contains (Py.lower (substring 0 20 (snd io)))
                                         (Py.lower analysis))
                       (enumerate_from 1 opts) with
            | Some (_, opt) => Completed (set_tool_output (VStr opt) (set_result opt step))
            | None => defaulted step
            end
      end
  | _, _ => defaulted step
  end.

(** [_determine_final_answer]: the answer synthesizer. *)
Definition status_strings : list string :=
  ["processed"; "calculated"; "verified"; "optimal_solution";
   "conclusion_reached"; "equation_ready"; "pattern_identified";
   "facts_extracted"; "goal_identified"; "logic_applied";
   "constraints_identified"; "approaches_listed"; "evaluated";
   "facts"; "proven"; "3d_shape"; "cube"; "sphere"; "cylinder"]%string.

Definition unable : string := "Unable to determine answer".

(** The text of a numeric output: a float with an integer value is printed
    as that integer. *)
Definition numeric_text (v : value) : string :=
  match v with
  | VFloat (Fin q repr) =>
      if Value.is_integer (Fin q repr) then Py.str_int (Value.trunc q) else repr
  | _ => Value.str v
  end.

Definition numeric_option (answer_str opt : string) : bool :=
  String.eqb answer_str opt || Py.contains answer_str opt || Py.startswith opt answer_str.

Definition text_option (output opt : string) : bool :=
  Py.contains (Py.lower output) (Py.lower opt)
  || Py.contains (Py.lower opt) (Py.lower output).

(** The option preferred for a candidate, or the candidate itself. *)
Definition prefer_option (matches : string -> string -> bool) (candidate : string)
           (options : option (list string)) : string :=
  match find (matches candidate) (olist options) with
  | Some opt => opt
  | None => candidate
  end.

(** Body of the first loop: what a step makes the function return, if
    anything. *)
Definition answer_from_output (options : option (list string)) (st : ReasoningStep)
  : option string :=
  match tool_output st with
  | None => None
  | Some (VStr s) =>
      if Py.mem s status_strings then None
      else Some (prefer_option text_option s options)
  | Some v => Some (prefer_option numeric_option (numeric_text v) options)
  end.

Definition dimension_list (r : string) : bool :=
  Py.contains "," r && negb (Py.any_char Py.isalpha (Py.remove_char "," r)).

Definition result_option (r opt : string) : bool :=
  Py.contains (Py.strip (Py.lower r)) (Py.lower opt)
  || Py.contains (Py.lower opt) (Py.strip (Py.lower r)).

(** Body of the second loop. *)
Definition answer_from_result (options : option (list string)) (st : ReasoningStep)
  : option string :=
  match result_of st with
  | Some r =>
      if Py.truthy r && negb (Py.mem r status_strings) then
        if dimension_list r then None
        else
          match find (result_option r) (olist options) with
          | Some opt => Some opt
          | None =>
              if (2 <? String.length r)%nat && negb (Py.mem r status_strings)
              then Some r else None
          end
      else None
  | None => None
  end.

(** Third priority: the oracle's pick among the options. *)
Definition answer_from_oracle (ag : Reasoner) (problem : string)
           (options : option (list string)) : option string :=
  match olist options, oracle ag with
  | _ :: _, Some o =>
      match interpret_answer_options o problem (olist options) with
      | Returns analysis =>
          option_map snd
            (find (fun io : Z * string =>
                     Py.contains ("option " ++ Py.str_int (fst io))%string (Py.lower analysis)
                     || Py.contains (Py.lower (snd io)) (Py.lower analysis))
                  (enumerate_from 1 (olist options)))
      | Throws _ => None
      end
  | _, _ => None
  end.

Definition determine_final_answer (ag : Reasoner) (chain : ReasoningChain)
           (options : option (list string)) : string :=
  match first_some (answer_from_output options) (rev (steps chain)) with
  | Some a => a
  | None =>
      match first_some (answer_from_result options) (rev (steps chain)) with
      | Some a => a
      | None =>
          match answer_from_oracle ag (problem_of chain) options with
          | Some a => a
          | None =>
              match olist options with
              | opt :: _ => opt
              | [] => unable
              end
          end
      end
  end.

(** [_execute_sub_problem] *)
Definition dispatch (ag : Reasoner) (recorded : list ReasoningStep) (step : ReasoningStep)
           (full_problem sub_problem : string) (plan : ReasoningPlan)
           (options : option (list string)) : outcome :=
  match problem_type plan with
  | SEQUENCE => handle_sequence_step ag recorded step full_problem sub_problem options
  | SPATIAL_REASONING => handle_spatial_step ag recorded step full_problem sub_problem options
  | MATHEMATICAL => handle_mathematical_step ag step full_problem sub_problem
  | OPTIMIZATION => handle_optimization_step ag recorded step full_problem sub_problem options
  | LOGICAL => handle_logical_step ag recorded step full_problem sub_problem options
  | _ => handle_general_step ag step full_problem sub_problem options
  end.

(** The thought the oracle proposes for a step: the empty text when there
    is no oracle or when the oracle raises. *)
Definition enhanced_thought (ag : Reasoner) (sub_problem full_problem : string)
           (plan : ReasoningPlan) : string :=
  match oracle ag with
  | Some o =>
      let context := ("Problem: " ++ substring 0 200 full_problem ++ "... Type: "
                      ++ Planner.type_value (problem_type plan))%string in
      match enhance_thought o sub_problem context with
      | Returns t => t
      | Throws _ => EmptyString
      end
  | None => EmptyString
  end.

(** The step as it stands when its handler is called. *)
Definition initial_step (ag : Reasoner) (number : nat) (sub_problem full_problem : string)
           (plan : ReasoningPlan) : ReasoningStep :=
  mkStep number sub_problem (enhanced_thought ag sub_problem full_problem plan)
         None None None false 0.

Definition execute_sub_problem (ag : Reasoner) (recorded : list ReasoningStep)
           (number : nat) (sub_problem full_problem : string) (plan : ReasoningPlan)
           (options : option (list string)) : ReasoningStep :=
  let step := initial_step ag number sub_problem full_problem plan in
  match dispatch ag recorded step full_problem sub_problem plan options with
  | Completed st => set_confidence (8 # 10) st
  | Raised st msg =>
      set_confidence (1 # 10) (set_thought ("Error executing step: " ++ msg)%string st)
  end.

(** The loop of [execute_plan] over the sub-problems that remain. *)
Fixpoint run_sub_problems (ag : Reasoner) (full_problem : string) (plan : ReasoningPlan)
         (options : option (list string)) (remaining : list string)
         (chain : ReasoningChain) (number : nat) : ReasoningChain :=
  match remaining with
  | [] => chain
  | sub_problem :: rest =>
      let step := execute_sub_problem ag (steps chain) number sub_problem
                                      full_problem plan options in
      run_sub_problems ag full_problem plan options rest (add_step step chain) (S number)
  end.

(** The end of [execute_plan]: synthesis, self-correction, and the writes
    to [final_answer] and [overall_confidence]. *)
Definition conclude (ag : Reasoner) (full_problem : string) (chain : ReasoningChain)
           (options : option (list string)) : ReasoningChain :=
  let preliminary_answer := determine_final_answer ag chain options in
  let '(corrected_answer, correction_reason, conf) :=
    SelfCorrector.self_correct preliminary_answer full_problem (steps chain) options in
  let chain :=
    if String.eqb corrected_answer preliminary_answer then chain
    else add_step (mkStep (List.length (steps chain) + 1) "Self-correction"
                          correction_reason (Some "self_corrector"%string) None
                          (Some corrected_answer) true conf)
                  chain in
  mkChain (problem_of chain) (plan_of chain) (steps chain) (Some corrected_answer) conf.

Definition execute_plan (ag : Reasoner) (full_problem : string) (plan : ReasoningPlan)
           (options : option (list string)) : ReasoningChain :=
  let chain := mkChain full_problem plan [] None 0 in
  let chain := run_sub_problems ag full_problem plan options (sub_problems plan) chain 1 in
  conclude ag full_problem chain options.

End ReasonerAgent.

(** ** The verifier ([agents/verifier.py]) *)

Module VerifierAgent.

Definition is_special_float (o : option value) : bool :=
  match o with
  | Some (VFloat NaN) | Some (VFloat (Inf _)) => true
  | _ => false
  end.

Definition verify_step (step : ReasoningStep) : VerificationResult :=
  let no_result := negb (struthy (result_of step)) && negb (Value.otruthy (tool_output step)) in
  let uncalculated :=
    Py.contains "calculate" (Py.lower (action step)) && negb (struthy (tool_used step)) in
  let special := Value.otruthy (tool_output step) && is_special_float (tool_output step) in
  let terse := Py.is_empty (thought step) || (String.length (thought step) <? 10)%nat in
  let conf : Q := if no_result then 3 # 10 else 8 # 10 in
  let conf := if uncalculated then conf - (1 # 10) else conf in
  let conf := if special then 2 # 10 else conf in
  let conf := if terse then conf - (1 # 10) else conf in
  let found_issues :=
    List.app (if no_result then ["Step produced no result"%string] else [])
             (if special then ["Tool output is NaN or infinite"%string] else []) in
  let found_suggestions :=
    List.app (if uncalculated
              then ["Consider using calculator tool for calculations"%string] else [])
             (if terse then ["Add more detailed reasoning"%string] else []) in
  mkVerification (Nat.eqb (List.length found_issues) 0 && Qgtb conf (5 # 10))
                 (py_max 0 (py_min 1 conf)) found_issues found_suggestions.

(** [_steps_connected] *)
Definition steps_connected (step1 step2 : ReasoningStep) : bool :=
  if struthy (result_of step1) && Py.truthy (thought step2)
  then Py.contains (text_of (result_of step1)) (Py.lower (thought step2))
  else true.

(** The loop over adjacent steps: the suggestions for the pairs, numbered
    from [i], that are not connected. *)
Fixpoint weak_links (i : Z) (l : list ReasoningStep) : list string :=
  match l with
  | a :: ((b :: _) as r) =>
      List.app
        (if steps_connected a b then []
         else [("Steps " ++ Py.str_int i ++ " and " ++ Py.str_int (i + 1)
                ++ " may not be well connected")%string])
        (weak_links (i + 1) r)
  | _ => []
  end.

(** The test on the final answer: none, empty, or the sentinel. *)
Definition no_final_answer (chain : ReasoningChain) : bool :=
  negb (struthy (final_answer chain))
  || String.eqb (text_of (final_answer chain)) "Unable to determine answer".

Definition incomplete (chain : ReasoningChain) : bool :=
  (List.length (steps chain) <? List.length (sub_problems (plan_of chain)))%nat.

(** The writes [step.verified = ...; step.confidence = ...] of the loop. *)
Definition mark (step : ReasoningStep) : ReasoningStep :=
  let r := verify_step step in
  set_confidence (v_confidence r) (set_verified (is_valid r) step).

(** [verify_chain]: the verdict, and the chain whose steps the pass has
    marked. *)
Definition verify_chain (chain : ReasoningChain) : VerificationResult * ReasoningChain :=
  let results := map verify_step (steps chain) in
  let all_issues :=
    List.app (List.concat (map issues results))
      (List.app (if incomplete chain then ["Not all sub-problems were addressed"%string] else [])
                (if no_final_answer chain
                 then ["No valid final answer determined"%string] else [])) in
  let all_suggestions :=
    List.app (List.concat (map suggestions results)) (weak_links 1 (steps chain)) in
  let step_confidences :=
    List.app (map v_confidence results) (if no_final_answer chain then [0] else []) in
  let overall : Q :=
    match step_confidences with
    | [] => 5 # 10
    | _ => Qsum step_confidences / Qlen step_confidences
    end in
  let overall := match all_issues with [] => overall | _ => overall * (7 # 10) end in
  (mkVerification (Nat.eqb (List.length all_issues) 0 && Qgtb overall (6 # 10))
                  overall all_issues all_suggestions,
   mkChain (problem_of chain) (plan_of chain) (map mark (steps chain))
           (final_answer chain) (overall_confidence chain)).

Definition calculate_confidence_score (chain : ReasoningChain)
           (verification : VerificationResult) : Q :=
  let planned := sub_problems (plan_of chain) in
  let plan_completion : Q :=
    match planned with
    | [] => 1
    | _ => Qlen (steps chain) / Qlen planned
    end in
  let steps_with_tools := filter (fun s => struthy (tool_used s)) (steps chain) in
  let expected_tools :=
    filter (fun t => negb (String.eqb t "reasoning_engine"))
           (required_tools (plan_of chain)) in
  let tool_usage : Q :=
    match expected_tools with
    | [] => 8 # 10
    | _ => Qlen steps_with_tools / Qlen expected_tools
    end in
  let critical_issues :=
    filter (fun issue => Py.contains "error" (Py.lower issue)) (issues verification) in
  let factors :=
    [v_confidence verification; py_min 1 plan_completion; py_min 1 tool_usage;
     match critical_issues with [] => 1 | _ => 3 # 10 end] in
  let weights := [4 # 10; 2 # 10; 2 # 10; 2 # 10] in
  py_max 0 (py_min 1 (Qsum (map (fun fw : Q * Q => fst fw * snd fw)
                                (combine factors weights)))).

End VerifierAgent.

(** ** The verifier in binary64 arithmetic

    [VerifierAgent] above computes with the decimals the source writes.
    The verdicts of the verifier compare confidences with 0.5 and 0.6,
    and [0.8 - 0.1 - 0.1] is not 0.6 in binary64: this module follows
    the source with the arithmetic of the interpreter. What a step or a
    chain is tested for is as above; the numbers are binary64 numbers.
    The built-in [sum] is a parameter: the interpreters before Python 3.12
    add from left to right ([Binary64.sum_left]), the later ones
    compensate the rounding errors of the additions. *)

Module VerifierAgent64.

Definition verify_step (step : ReasoningStep) : VerificationResult :=
  let no_result := negb (struthy (result_of step)) && negb (Value.otruthy (tool_output step)) in
  let uncalculated :=
    Py.contains "calculate" (Py.lower (action step)) && negb (struthy (tool_used step)) in
  let special :=
    Value.otruthy (tool_output step)
    && VerifierAgent.is_special_float (tool_output step) in
  let terse := Py.is_empty (thought step) || (String.length (thought step) <? 10)%nat in
  let conf : Q :=
    if no_result then Binary64.literal (3 # 10) else Binary64.literal (8 # 10) in
  let conf := if uncalculated then Binary64.sub conf (Binary64.literal (1 # 10)) else conf in
  let conf := if special then Binary64.literal (2 # 10) else conf in
  let conf := if terse then Binary64.sub conf (Binary64.literal (1 # 10)) else conf in
  let found_issues :=
    List.app (if no_result then ["Step produced no result"%string] else [])
             (if special then ["Tool output is NaN or infinite"%string] else []) in
  let found_suggestions :=
    List.app (if uncalculated
              then ["Consider using calculator tool for calculations"%string] else [])
             (if terse then ["Add more detailed reasoning"%string] else []) in
  mkVerification (Nat.eqb (List.length found_issues) 0
                  && Qgtb conf (Binary64.literal (5 # 10)))
                 (py_max 0 (py_min 1 conf)) found_issues found_suggestions.

(** The writes [step.verified = ...; step.confidence = ...] of the loop. *)
Definition mark (step : ReasoningStep) : ReasoningStep :=
  let r := verify_step step in
  set_confidence (v_confidence r) (set_verified (is_valid r) step).

Section Interpreter.

(** [sum(l)] for a list of floats *)
Variable py_sum : list Q -> Q.

(** [verify_chain]: the verdict, and the chain whose steps the pass has
    marked. *)
Definition verify_chain (chain : ReasoningChain) : VerificationResult * ReasoningChain :=
  let results := map verify_step (steps chain) in
  let all_issues :=
    List.app (List.concat (map issues results))
      (List.app (if VerifierAgent.incomplete chain
                 then ["Not all sub-problems were addressed"%string] else [])
                (if VerifierAgent.no_final_answer chain
                 then ["No valid final answer determined"%string] else [])) in
  let all_suggestions :=
    List.app (List.concat (map suggestions results))
             (VerifierAgent.weak_links 1 (steps chain)) in
  let step_confidences :=
    List.app (map v_confidence results)
             (if VerifierAgent.no_final_answer chain then [0] else []) in
  let overall : Q :=
    match step_confidences with
    | [] => Binary64.literal (5 # 10)
    | _ => Binary64.div (py_sum step_confidences)
                        (Binary64.of_nat (List.length step_confidences))
    end in
  let overall :=
    match all_issues with
    | [] => overall
    | _ => Binary64.mul overall (Binary64.literal (7 # 10))
    end in
  (mkVerification (Nat.eqb (List.length all_issues) 0
                   && Qgtb overall (Binary64.literal (6 # 10)))
                  overall all_issues all_suggestions,
   mkChain (problem_of chain) (plan_of chain) (map mark (steps chain))
           (final_answer chain) (overall_confidence chain)).

End Interpreter.

End VerifierAgent64.

(** ** The orchestrator ([reasoning_system.py]) *)

Module AgenticReasoningSystem.

Definition status_strings : list string :=
  ["processed"; "calculated"; "verified"; "Another answer"]%string.

Definition same_text (p opt : string) : bool :=
  String.eqb (Py.strip (Py.lower p)) (Py.strip (Py.lower opt)).

Definition inside_option (p opt : string) : bool := Py.contains (Py.lower p) (Py.lower opt).

Definition option_inside (p opt : string) : bool := Py.contains (Py.lower opt) (Py.lower p).

(** [set(opt.lower().split()) & set(p.lower().split())] is not empty. *)
Definition shares_word (p opt : string) : bool :=
  existsb (fun w => Py.mem w (Py.split (Py.lower p))) (Py.split (Py.lower opt)).

Definition clearly_invalid (p : string) : bool :=
  Py.mem p status_strings || Py.is_empty p || String.eqb p "Unable to determine answer".

(** [_refine_answer]; the verification result is passed but never read. *)
Definition refine_answer (preliminary_answer : string) (options : option (list string))
  : string :=
  let opts := olist options in
  match find (same_text preliminary_answer) opts with
  | Some opt => opt
  | None =>
  match find (inside_option preliminary_answer) opts with
  | Some opt => opt
  | None =>
  match find (option_inside preliminary_answer) opts with
  | Some opt => opt
  | None =>
  match (if Py.mem preliminary_answer status_strings then None
         else find (shares_word preliminary_answer) opts) with
  | Some opt => opt
  | None =>
      if clearly_invalid preliminary_answer && Py.mem "Another answer" opts
      then "Another answer"%string
      else preliminary_answer
  end end end end.

(** The system: the reasoner, the attribute [reasoner.reasoning_chain] left
    by the last call, and the cache, a dictionary in insertion order. *)
Record System : Type := mkSystem {
  reasoner : Reasoner;
  last_chain : option ReasoningChain;
  solution_cache : list (string * SolutionResult)
}.

(** [cache[key] = r]: the entry of an existing key is overwritten in place,
    a new key is added at the end. *)
Fixpoint cache_store (key : string) (r : SolutionResult)
         (cache : list (string * SolutionResult)) : list (string * SolutionResult) :=
  match cache with
  | [] => [(key, r)]
  | (k, old) :: rest =>
      if String.eqb k key then (k, r) :: rest else (k, old) :: cache_store key r rest
  end.

Fixpoint cache_lookup (key : string) (cache : list (string * SolutionResult))
  : option SolutionResult :=
  match cache with
  | [] => None
  | (k, r) :: rest => if String.eqb k key then Some r else cache_lookup key rest
  end.

(** [solve]. The two readings of the clock enter as their difference
    [elapsed]; printing is left out. *)
Definition solve (sys : System) (problem : string) (topic : option string)
           (options : option (list string)) (elapsed : Q) : SolutionResult * System :=
  let plan := Planner.create_plan problem topic in
  let reasoning_chain := ReasonerAgent.execute_plan (reasoner sys) problem plan options in
  let (verification, reasoning_chain) := VerifierAgent.verify_chain reasoning_chain in
  let final_confidence :=
    VerifierAgent.calculate_confidence_score reasoning_chain verification in
  let final_answer' := refine_answer (text_of (final_answer reasoning_chain)) options in
  let result := mkSolution problem final_answer' reasoning_chain verification
                           final_confidence elapsed in
  (result, mkSystem (reasoner sys) (Some reasoning_chain)
                    (cache_store problem result (solution_cache sys))).

End AgenticReasoningSystem.

(** The chain as the loop of [execute_plan] leaves it, before synthesis. *)
Definition executed_chain (ag : Reasoner) (full_problem : string) (the_plan : ReasoningPlan)
           (options : option (list string)) : ReasoningChain :=
  ReasonerAgent.run_sub_problems ag full_problem the_plan options (sub_problems the_plan)
                                 (mkChain full_problem the_plan [] None 0) 1.


(** * Further parts of the backend *)

(** ** Constraint check of the self-corrector ([agents/self_corrector.py]) *)

Module AnswerConstraints.

(** A match of [\d+] at the head of [s]. *)
Definition match_digits (s : string) : option (string * nat) :=
  let (ds, _) := Py.span_digits s in
  if Py.is_empty ds then None else Some (ds, String.length ds).

(** [re.findall(r'\d+', s)] *)
Definition findall_digits (s : string) : list string := Py.findall_from match_digits O s.

(** What follows the literal [lit] at the head of [s], when [s] starts
    with it. *)
Fixpoint after_literal (lit s : string) : option string :=
  match lit, s with
  | EmptyString, _ => Some s
  | String a lit', String b s' => if Ascii.eqb a b then after_literal lit' s' else None
  | String _ _, EmptyString => None
  end.

(** A match of the literal [lit] followed by [(\d+)] at the head of [s]. *)
Definition match_bound (lit s : string) : option (string * nat) :=
  match after_literal lit s with
  | Some r =>
      let (ds, _) := Py.span_digits r in
      if Py.is_empty ds then None
      else Some (ds, (String.length lit + String.length ds)%nat)
  | None => None
  end.

(** [re.findall(r'at least (\d+)', s)] and [re.findall(r'at most (\d+)', s)] *)
Definition findall_at_least (s : string) : list string :=
  Py.findall_from (match_bound "at least ") O s.
Definition findall_at_most (s : string) : list string :=
  Py.findall_from (match_bound "at most ") O s.

(** [int(s)] for a text of digits *)
Definition int_of_digits (s : string) : Z := Py.digits_val 0 s.

(** The dictionary that [verify_against_constraints] returns. *)
Record report : Type := mkReport {
  satisfies_constraints : bool;
  violations : list string
}.

Definition violate (msg : string) (r : report) : report :=
  mkReport false (violations r ++ [msg]).

Definition verify_against_constraints (answer_text problem_text : string) : report :=
  let r := mkReport true [] in
  let problem_lower := Py.lower problem_text in
  let r :=
    if Py.contains "at least" problem_lower then
      match findall_at_least problem_lower, findall_digits answer_text with
      | m :: _, a :: _ =>
          let constraint := int_of_digits m in
          let v := int_of_digits a in
          if (v <? constraint)%Z
          then violate ("Value " ++ Py.str_int v ++ " < required minimum "
                        ++ Py.str_int constraint)%string r
          else r
      | _, _ => r
      end
    else r in
  if Py.contains "at most" problem_lower then
    match findall_at_most problem_lower, findall_digits answer_text with
    | m :: _, a :: _ =>
        let constraint := int_of_digits m in
        let v := int_of_digits a in
        if (constraint <? v)%Z
        then violate ("Value " ++ Py.str_int v ++ " > allowed maximum "
                      ++ Py.str_int constraint)%string r
        else r
    | _, _ => r
    end
  else r.

End AnswerConstraints.

(** ** Constraint validation of the verifier ([agents/verifier.py]) *)

Module ConstraintCheck.

(** A match, at the head of [s], of the alternation of the literals
    [pats]: what follows the first literal of the list that [s] starts
    with. *)
Fixpoint match_any (pats : list string) (s : string) : option string :=
  match pats with
  | [] => None
  | p :: r =>
      match AnswerConstraints.after_literal p s with
      | Some rest => Some rest
      | None => match_any r s
      end
  end.

(** The text of [s] before the leftmost match of the alternation, and what
    follows that match, if there is one. *)
Fixpoint upto_match (pats : list string) (s : string) : string * option string :=
  match match_any pats s with
  | Some rest => (EmptyString, Some rest)
  | None =>
      match s with
      | EmptyString => (EmptyString, None)
      | String c t => let (before, rest) := upto_match pats t in (String c before, rest)
      end
  end.

(** [re.split(pattern, s)[1]] for an alternation of literals that are not
    empty: the text between the first match and the second, or the end.
    [None] when [len(parts) > 1] fails. *)
Definition second_part (pats : list string) (s : string) : option string :=
  match snd (upto_match pats s) with
  | Some rest => Some (fst (upto_match pats rest))
  | None => None
  end.

Definition check_constraint (answer_text constraint : string) : bool :=
  let constraint_lower := Py.lower constraint in
  let answer_lower := Py.lower answer_text in
  let negative_fails :=
    (Py.contains "cannot" constraint_lower || Py.contains "must not" constraint_lower)
    && match second_part ["cannot"; "must not"]%string constraint_lower with
       | Some part => Py.contains (Py.strip part) answer_lower
       | None => false
       end in
  if negative_fails then false
  else
    let positive_fails :=
      Py.contains "must" constraint_lower
      && match second_part ["must"]%string constraint_lower with
         | Some part => negb (Py.contains (Py.strip part) answer_lower)
         | None => false
         end in
    if positive_fails then false else true.

Definition validate_against_constraints (answer_text : string) (constraints : list string)
  : bool * list string :=
  let violations :=
    map (fun constraint => ("Violates constraint: " ++ constraint)%string)
        (filter (fun constraint => negb (check_constraint answer_text constraint))
                constraints) in
  (match violations with [] => true | _ => false end, violations).

End ConstraintCheck.

(** ** Route optimization ([tools/enhanced_solvers.py]) *)

Module TravelSolver.

(** A match of [(\d+)\s*mile] at the head of [s]. *)
Definition match_miles (s : string) : option (string * nat) :=
  let (ds, s1) := Py.span_digits s in
  if Py.is_empty ds then None
  else
    let (n, s2) := Py.skip_spaces s1 in
    if String.prefix "mile" s2
    then Some (ds, (String.length ds + n + 4)%nat)
    else None.

(** [re.findall(r'(\d+)\s*mile', s)] *)
Definition findall_miles (s : string) : list string := Py.findall_from match_miles O s.

Definition solve_travel_optimization (problem_text : string) : option string :=
  let problem_lower := Py.lower problem_text in
  if negb (existsb (fun word => Py.contains word problem_lower)
                   ["travel"; "route"; "distance"; "mile"]%string)
  then None
  else
    let distances := map AnswerConstraints.int_of_digits (findall_miles problem_lower) in
    match distances with
    | [d0; d1; d2] =>
        let route1 := (d0 + d1 + d2)%Z in
        let route2 := (d2 + d1 + d0)%Z in
        if (route1 <=? route2)%Z then Some "A-B-C-A"%string else Some "A-C-B-A"%string
    | _ => None
    end.

End TravelSolver.

(** ** Sequence analysis ([tools/tool_engine.py], [agents/reasoner.py]) *)

Module PatternAnalyzer.

(** [[s[i+1] - s[i] for i in range(len(s) - 1)]] *)
Fixpoint differences (s : list Q) : list Q :=
  match s with
  | a :: ((b :: _) as r) => (b - a) :: differences r
  | _ => []
  end.

(** [[s[i+1] / s[i] for i in range(len(s) - 1)]] *)
Fixpoint ratios (s : list Q) : list Q :=
  match s with
  | a :: ((b :: _) as r) => (b / a) :: ratios r
  | _ => []
  end.

(** [len(set(l)) == 1]: the list is not empty and its elements are equal. *)
Definition single_valued (l : list Q) : bool :=
  match l with
  | [] => false
  | x :: r => forallb (fun y => Qeq_bool y x) r
  end.

(** [all(abs(x - l[0]) < eps for x in l)] *)
Definition all_near (eps : Q) (l : list Q) : bool :=
  match l with
  | [] => true
  | x :: _ => forallb (fun y => Qltb (Qabs (y - x)) eps) l
  end.

(** [s[:-1]] *)
Definition but_last (s : list Q) : list Q := removelast s.

(** [s[-1]], for a list that is not empty *)
Definition last_of (s : list Q) : Q := last s 0.

Definition find_arithmetic_pattern (sequence : list Q) : option Q :=
  if (List.length sequence <? 2)%nat then None
  else if single_valued (differences sequence) then Some (hd 0 (differences sequence))
  else None.

Definition find_geometric_pattern (sequence : list Q) : option Q :=
  if (List.length sequence <? 2)%nat || existsb (fun x => Qeq_bool x 0) (but_last sequence)
  then None
  else if all_near (1 # 1000000) (ratios sequence) then Some (hd 0 (ratios sequence))
  else None.

Definition predict_next (sequence : list Q) : option Q :=
  match find_arithmetic_pattern sequence with
  | Some diff => Some (last_of sequence + diff)
  | None =>
      match find_geometric_pattern sequence with
      | Some ratio => Some (last_of sequence * ratio)
      | None =>
          if (3 <=? List.length sequence)%nat then
            let diff1 := differences sequence in
            let diff2 := differences diff1 in
            if single_valued diff2
            then Some (last_of sequence + (last_of diff1 + hd 0 diff2))
            else None
          else None
      end
  end.

End PatternAnalyzer.

Module SequenceHandler.

(** [sum(s[i-n:i])] for [i >= n]: the sum of the [n] elements before
    position [i]. *)
Definition window_sum (n i : nat) (s : list Q) : Q := Qsum (firstn n (skipn (i - n) s)).

(** [all(abs(s[i] - sum(s[i-n:i])) < 0.001 for i in range(n, len(s)))] *)
Definition sums_of_previous (n : nat) (s : list Q) : bool :=
  forallb (fun i => Qltb (Qabs (nth i s 0 - window_sum n i s)) (1 # 1000))
          (seq n (List.length s - n)).

(** [sum(s[-n:])], for [0 < n] *)
Definition tail_sum (n : nat) (s : list Q) : Q :=
  Qsum (skipn (List.length s - n) s).

(** The rules of the "apply" branch, in their order: the name of the rule
    that fires, the number its thought reports, and the next term. *)
Inductive rule : Type :=
| Arithmetic (difference : Q)
| Quadratic (second_difference : Q)
| Geometric (ratio : Q)
| SumOfPrevious (n : nat)
| Analyzer.

Definition next_term (sequence : list Q) : option (rule * Q) :=
  if (3 <=? List.length sequence)%nat then
    let diffs := PatternAnalyzer.differences sequence in
    if PatternAnalyzer.all_near (1 # 1000) diffs
    then Some (Arithmetic (hd 0 diffs), PatternAnalyzer.last_of sequence + hd 0 diffs)
    else
    let diff2 := PatternAnalyzer.differences diffs in
    if (2 <=? List.length diffs)%nat && PatternAnalyzer.all_near (1 # 1000) diff2
    then Some (Quadratic (hd 0 diff2),
               PatternAnalyzer.last_of sequence
               + (PatternAnalyzer.last_of diffs + hd 0 diff2))
    else
    let rs := PatternAnalyzer.ratios sequence in
    if forallb (fun s => negb (Qeq_bool s 0)) (PatternAnalyzer.but_last sequence)
       && PatternAnalyzer.all_near (1 # 1000) rs
    then Some (Geometric (hd 0 rs), PatternAnalyzer.last_of sequence * hd 0 rs)
    else
    match find (fun n => (n + 2 <=? List.length sequence)%nat && sums_of_previous n sequence)
               [2; 3; 4]%nat with
    | Some n => Some (SumOfPrevious n, tail_sum n sequence)
    | None =>
        match PatternAnalyzer.predict_next sequence with
        | Some next_val => Some (Analyzer, next_val)
        | None => None
        end
    end
  else None.

Section Printing.

(** What [str()] prints for a float; the printing routine is the
    interpreter's. *)
Variable float_str : Q -> string.

(** [str(sequence)] for a list of floats *)
Definition str_floats (l : list Q) : string :=
  ("[" ++ Py.join ", " (map float_str l) ++ "]")%string.

(** [str(int(x) if x == int(x) else x)] *)
Definition str_term (x : Q) : string :=
  if Qeq_bool x (inject_Z (Value.trunc x)) then Py.str_int (Value.trunc x) else float_str x.

Definition rule_thought (r : rule) (next_val : Q) : string :=
  match r with
  | Arithmetic d => ("Arithmetic: constant difference " ++ float_str d)%string
  | Quadratic d => ("Quadratic: 2nd difference = " ++ float_str d)%string
  | Geometric q => ("Geometric: constant ratio " ++ float_str q)%string
  | SumOfPrevious n =>
      ("Sum of previous " ++ Py.str_int (Z.of_nat n) ++ " numbers")%string
  | Analyzer => ("Pattern analyzer: " ++ float_str next_val)%string
  end.

(** [_handle_sequence_step]. The branch for "analyze" reads [step_number],
    a name the method does not have, before anything else. *)
Definition handle_sequence_step (step : ReasoningStep) (problem_text sub_problem : string)
  : outcome :=
  let sub := Py.lower sub_problem in
  let sequence := map Py.float_of_string
                      (filter Py.truthy (Py.findall_numbers problem_text)) in
  if Py.contains "identify" sub then
    Completed (set_tool_used "pattern_analyzer"
                (set_result (str_floats sequence)
                  (set_thought ("Identified sequence: " ++ str_floats sequence)%string step)))
  else if Py.contains "analyze" sub || Py.contains "differences" sub then
    Raised step "name 'step_number' is not defined"
  else if Py.contains "determine" sub || Py.contains "pattern rule" sub then
    Completed (set_result "pattern_identified"
                (set_thought "Pattern rule determined from analysis" step))
  else if Py.contains "apply" sub || Py.contains "find next" sub then
    match next_term sequence with
    | Some (r, next_val) =>
        Completed (set_tool_used "pattern_analyzer"
                    (set_tool_output (VFloat (Fin next_val (float_str next_val)))
                      (set_result (str_term next_val)
                        (set_thought (rule_thought r next_val) step))))
    | None => Completed (set_thought "Could not determine pattern algorithmically" step)
    end
  else Completed step.

(** A reasoner whose sequence handler is the one above. *)
Definition with_sequence_handler (ag : Reasoner) : Reasoner :=
  mkReasoner (oracle ag) (pool ag)
             (fun _ step problem_text sub_problem _ =>
                handle_sequence_step step problem_text sub_problem)
             (handle_spatial_step ag) (handle_optimization_step ag)
             (handle_logical_step ag).

End Printing.

End SequenceHandler.

(** ** Batches and statistics ([reasoning_system.py]) *)

Module Batch.

(** One entry of a batch: a dictionary that may lack any of its keys. *)
Record problem_data : Type := mkProblemData {
  pd_problem : option string;
  pd_topic : option string;
  pd_options : option (list string)
}.

(** [solve_batch]; the [i]-th call takes [elapsed i] on the clock. *)
Fixpoint solve_batch_from (i : nat) (elapsed : nat -> Q)
         (sys : AgenticReasoningSystem.System) (problems : list problem_data)
  : list SolutionResult * AgenticReasoningSystem.System :=
  match problems with
  | [] => ([], sys)
  | prob_data :: rest =>
      let (r, sys') :=
        AgenticReasoningSystem.solve sys (text_of (pd_problem prob_data))
                                     (pd_topic prob_data) (pd_options prob_data)
                                     (elapsed i) in
      let (results, sys'') := solve_batch_from (S i) elapsed sys' rest in
      (r :: results, sys'')
  end.

Definition solve_batch (elapsed : nat -> Q) (sys : AgenticReasoningSystem.System)
           (problems : list problem_data)
  : list SolutionResult * AgenticReasoningSystem.System :=
  solve_batch_from O elapsed sys problems.

Record statistics : Type := mkStatistics {
  total_problems : nat;
  average_confidence : Q;
  average_execution_time : Q;
  high_confidence_count : nat;
  medium_confidence_count : nat;
  low_confidence_count : nat
}.

Definition count_if (f : SolutionResult -> bool) (l : list SolutionResult) : nat :=
  List.length (filter f l).

(** [get_statistics]: [None] stands for the empty dictionary. *)
Definition get_statistics (sys : AgenticReasoningSystem.System) : option statistics :=
  match AgenticReasoningSystem.solution_cache sys with
  | [] => None
  | cache =>
      let results := map snd cache in
      Some (mkStatistics
              (List.length results)
              (Qsum (map s_confidence results) / Qlen results)
              (Qsum (map execution_time results) / Qlen results)
              (count_if (fun r => Qgtb (s_confidence r) (8 # 10)) results)
              (count_if (fun r => Qle_bool (6 # 10) (s_confidence r)
                                  && Qle_bool (s_confidence r) (8 # 10)) results)
              (count_if (fun r => Qltb (s_confidence r) (6 # 10)) results))
  end.

End Batch.

(** The position of a problem type in the order of the enumeration, which
    is also the order of the keyword dictionary. *)
Definition type_index (t : ProblemType) : nat :=
  match t with
  | SPATIAL_REASONING => 0
  | MATHEMATICAL => 1
  | LOGICAL => 2
  | SEQUENCE => 3
  | OPTIMIZATION => 4
  | LATERAL_THINKING => 5
  | CLASSIC_RIDDLE => 6
  end.
(** * The properties in the words of the specification *)

Module Spec.

(** ** Answer synthesis *)

Definition is_numeric (v : value) : bool :=
  match v with
  | VStr _ => false
  | _ => true
  end.

Definition numeric_output (st : ReasoningStep) : option value :=
  match tool_output st with
  | Some v => if is_numeric v then Some v else None
  | None => None
  end.

(** The numeric output of the most recent step that has one. *)
Definition last_numeric (l : list ReasoningStep) : option value :=
  first_some numeric_output (rev l).

(** Rule 1: the text of the number, or the first option that equals it,
    contains it or starts with it. *)
Definition rule1 (v : value) (options : option (list string)) : string :=
  ReasonerAgent.prefer_option ReasonerAgent.numeric_option
                              (ReasonerAgent.numeric_text v) options.

(** Rule 2: the text, or the first option that contains it or that it
    contains, letter case apart. *)
Definition rule2 (s : string) (options : option (list string)) : string :=
  ReasonerAgent.prefer_option ReasonerAgent.text_option s options.

(** A step decides the answer when its output is a number or a text that is
    not in the synthesizer's status list. *)
Definition decisive (st : ReasoningStep) : bool :=
  match tool_output st with
  | Some (VStr s) => negb (Py.mem s ReasonerAgent.status_strings)
  | Some _ => true
  | None => false
  end.

(** ** Status texts *)

(** The texts that one of the three components (synthesis,
    self-correction, reconciliation) keeps in a status list. *)
Definition status_texts : list string :=
  (ReasonerAgent.status_strings ++ SelfCorrector.status_strings
   ++ AgenticReasoningSystem.status_strings)%list.

(** A text is a sentinel when it is a status text, as it stands, in lower
    case, or in lower case without the blanks around it. *)
Definition sentinel (s : string) : bool :=
  Py.mem s status_texts || Py.mem (Py.lower s) status_texts
  || Py.mem (Py.strip (Py.lower s)) status_texts.

(** A recorded output is genuine when neither of its texts is a sentinel
    and, for a text, when it is not empty. *)
Definition genuine (v : value) : bool :=
  negb (sentinel (ReasonerAgent.numeric_text v)) && negb (sentinel (Value.str v))
  && match v with
     | VStr s => Py.truthy s
     | _ => true
     end.

Definition has_output (st : ReasoningStep) : bool :=
  match tool_output st with
  | Some _ => true
  | None => false
  end.

(** Every output that the steps record is genuine. *)
Definition genuine_outputs (l : list ReasoningStep) : bool :=
  forallb (fun st => match tool_output st with
                     | Some v => genuine v
                     | None => true
                     end) l.

(** The answer is one of the options, or one of the two texts of the
    output: the text the synthesizer gives it, or [str()] of it. *)
Definition from_output_or_options (v : value) (options : option (list string))
           (a : string) : Prop :=
  In a (olist options) \/ a = ReasonerAgent.numeric_text v \/ a = Value.str v.

(** ** Validation *)

Definition matches_an_option (answer_text : string) (options : option (list string)) : Prop :=
  exists opt, In opt (olist options)
              /\ (SelfCorrector.exact_match answer_text opt = true
                  \/ SelfCorrector.partial_match answer_text opt = true).

(** The numbers an answer contains, in the order of the text, each read
    as [float()] reads it: rounded to the nearest binary64 number. *)
Definition numbers_of (answer_text : string) : list pyfloat :=
  map Binary64.parse (Py.findall_numbers answer_text).

(** [x <= k] and [abs(x) <= k] for a float [x] and an integer [k] *)
Definition at_most (x : pyfloat) (k : Z) : Prop :=
  match x with
  | Fin q _ => q <= inject_Z k
  | NaN => False
  | Inf negative => negative = true
  end.

Definition magnitude_at_most (x : pyfloat) (k : Z) : Prop :=
  match x with
  | Fin q _ => Qabs q <= inject_Z k
  | _ => False
  end.

Definition leading_number_in_range (answer_text problem_text : string) : Prop :=
  match numbers_of answer_text with
  | num :: _ =>
      magnitude_at_most num 1000000
      /\ (SelfCorrector.mentions_percentage problem_text = true -> at_most num 100)
  | [] => True
  end.

(** ** Chain verification *)

(** The mean as the interpreter computes it, [sum(l) / len(l)] in
    binary64, which a list without elements does not have. It is the
    arithmetic mean up to the rounding of the sum and of the division. *)
Definition float_mean (py_sum : list Q -> Q) (l : list Q) : option Q :=
  match l with
  | [] => None
  | _ => Some (Binary64.div (py_sum l) (Binary64.of_nat (List.length l)))
  end.

(** The per-step verification confidences, with one sample 0 more when the
    final answer is absent or is the sentinel. *)
Definition samples (chain : ReasoningChain) : list Q :=
  (map (fun st => v_confidence (VerifierAgent64.verify_step st)) (steps chain)
   ++ (if VerifierAgent.no_final_answer chain then [0] else []))%list.

Definition step_issues (chain : ReasoningChain) : list string :=
  List.concat (map (fun st => issues (VerifierAgent64.verify_step st)) (steps chain)).

Definition step_suggestions (chain : ReasoningChain) : list string :=
  List.concat (map (fun st => suggestions (VerifierAgent64.verify_step st)) (steps chain)).

(** ** Final reconciliation *)

(** [r] is the first of the options that satisfies [f]. *)
Definition first_with (f : string -> bool) (opts : list string) (r : string) : Prop :=
  exists before after,
    opts = (before ++ r :: after)%list
    /\ f r = true
    /\ forall o, In o before -> f o = false.

Definition none_with (f : string -> bool) (opts : list string) : Prop :=
  forall o, In o opts -> f o = false.

(** The number of distinct words an option shares with the answer, letter
    case apart. *)
Definition overlap (p opt : string) : nat :=
  ReasonerAgent.word_overlap (Py.lower opt) (Py.lower p).

(** Rule 4 as the specification words it: an option whose overlap with
    the answer is the largest, and not zero. *)
Definition largest_overlap (p : string) (opts : list string) (r : string) : Prop :=
  In r opts /\ (0 < overlap p r)%nat /\ forall o, In o opts -> (overlap p o <= overlap p r)%nat.

(** Rule 4 as the code has it: the first option that shares a word. *)
Definition first_overlap (p : string) (opts : list string) (r : string) : Prop :=
  first_with (AgenticReasoningSystem.shares_word p) opts r.

(** The cascade, for a way [rule4] of choosing by word overlap. The first
    rule that applies gives the answer. *)
Inductive reconciled (rule4 : string -> list string -> string -> Prop)
          (p : string) (opts : list string) : string -> Prop :=
| by_equality r :
    first_with (AgenticReasoningSystem.same_text p) opts r ->
    reconciled rule4 p opts r
| by_inclusion r :
    none_with (AgenticReasoningSystem.same_text p) opts ->
    first_with (AgenticReasoningSystem.inside_option p) opts r ->
    reconciled rule4 p opts r
| by_containment r :
    none_with (AgenticReasoningSystem.same_text p) opts ->
    none_with (AgenticReasoningSystem.inside_option p) opts ->
    first_with (AgenticReasoningSystem.option_inside p) opts r ->
    reconciled rule4 p opts r
| by_overlap r :
    none_with (AgenticReasoningSystem.same_text p) opts ->
    none_with (AgenticReasoningSystem.inside_option p) opts ->
    none_with (AgenticReasoningSystem.option_inside p) opts ->
    Py.mem p AgenticReasoningSystem.status_strings = false ->
    rule4 p opts r ->
    reconciled rule4 p opts r
| by_default r :
    none_with (AgenticReasoningSystem.same_text p) opts ->
    none_with (AgenticReasoningSystem.inside_option p) opts ->
    none_with (AgenticReasoningSystem.option_inside p) opts ->
    (Py.mem p AgenticReasoningSystem.status_strings = true
     \/ none_with (AgenticReasoningSystem.shares_word p) opts) ->
    r = (if AgenticReasoningSystem.clearly_invalid p && Py.mem "Another answer" opts
         then "Another answer"%string else p) ->
    reconciled rule4 p opts r.

End Spec.

(** ** Concrete problems, chains and reasoners used in the checks *)

Definition two_machines : string :=
  "Machine A takes 12 hours and Machine B takes 6 hours to finish the same job. How long do the two machines take working together?".

Definition buttons : string :=
  "Each of two machines has a button. How many presses tell the machines apart?".

Definition float_of_Z (z : Z) : value :=
  VFloat (Fin (inject_Z z) (Py.str_int z ++ ".0")).

(** A calculator for the checks: the sum or the product of two unsigned
    integer numerals, evaluated to a float as SymPy does; any other
    expression raises. *)
Definition integer_calculator (expression : string) : attempt value :=
  let (a, r) := Py.span_digits expression in
  match r with
  | String op b =>
      let (b', rest) := Py.span_digits b in
      if negb (Py.is_empty a) && negb (Py.is_empty b') && Py.is_empty rest then
        if Ascii.eqb op "*"
        then Returns (float_of_Z (Py.digits_val 0 a * Py.digits_val 0 b'))
        else if Ascii.eqb op "+"
        then Returns (float_of_Z (Py.digits_val 0 a + Py.digits_val 0 b'))
        else Throws "Calculator error"
      else Throws "Calculator error"
  | EmptyString => Throws "Calculator error"
  end.

(** A pool in which only the calculator answers. *)
Definition silent_pool : SolverPool :=
  mkPool integer_calculator
         (fun _ => Returns None) (fun _ => Returns None) (fun _ => Returns None)
         (fun _ => Returns None) (fun _ _ => Returns None).

Definition idle_handler : handler := fun _ st _ _ _ => Completed st.

(** A reasoner without oracle. *)
Definition plain_reasoner : Reasoner :=
  mkReasoner None silent_pool idle_handler idle_handler idle_handler idle_handler.

Definition two_machines_plan : ReasoningPlan :=
  Eval vm_compute in Planner.create_plan two_machines None.

(** The four steps the reasoner records for [two_machines]. *)
Definition two_machines_steps_expected : list ReasoningStep :=
  [mkStep 1 "Extract numerical values and relationships" "Extracted values: ['12', '6']"
          None None (Some "12,6"%string) false (8 # 10);
   mkStep 2 "Set up equations or formulas" "Enhanced work rate calculation: 4 hours"
          (Some "enhanced_work_rate"%string) (Some (VStr "4 hours"))
          (Some "4 hours"%string) false (8 # 10);
   mkStep 3 "Perform calculations" "Calculated: 72.0"
          (Some "calculator"%string) (Some (VFloat (Fin 72 "72.0")))
          (Some "72.0"%string) false (8 # 10);
   mkStep 4 "Verify answer against constraints" "Verifying answer against constraints"
          None None (Some "verified"%string) true (8 # 10)].

(** A chain in which a number is recorded before a text. *)
Definition text_after_number : ReasoningChain :=
  mkChain two_machines two_machines_plan
          [mkStep 1 "Perform calculations" "Calculated: 72.0"
                  (Some "calculator"%string) (Some (VFloat (Fin 72 "72.0")))
                  (Some "72.0"%string) false (8 # 10);
           mkStep 2 "Set up equations or formulas" "Enhanced work rate calculation: 4 hours"
                  (Some "enhanced_work_rate"%string) (Some (VStr "4 hours"))
                  (Some "4 hours"%string) false (8 # 10)]
          None 0.

(** A chain without steps, for a plan without sub-problems, that has an
    answer. *)
Definition answered_without_steps : ReasoningChain :=
  mkChain "Which one?"
          (mkPlan LOGICAL STEP_BY_STEP_LOGIC [] ["reasoning_engine"; "verifier"]%string []
                  "categorical" (7 # 10))
          [] (Some "First"%string) (7 # 10).

Definition colour_options : list string := ["red bike"; "car big"]%string.

(** A sum, and options of which the first is a text of the synthesizer's
    status list. *)
Definition small_sum : string := "Calculate the sum of 1 and 3".

Definition shape_options : list string := ["3d_shape"; "sphere"]%string.
(** * Checks of the embedding on concrete inputs *)

Unset Implicit Arguments.

Example lower_mixed : Py.lower "Another Answer" = "another answer"%string.
Proof. reflexivity. Qed.

Example strip_blanks : Py.strip "  4 hours  " = "4 hours"%string.
Proof. reflexivity. Qed.

Example split_words : Py.split " red  big car " = ["red"; "big"; "car"]%string.
Proof. reflexivity. Qed.

Example numbers_found :
  Py.findall_numbers "takes 12 hours, then -3.5 and 6." = ["12"; "-3.5"; "6."]%string.
Proof. reflexivity. Qed.

Example hours_found :
  Py.findall_hours "1.5.2 hours and 12hours or 7 days" = ["5.2"; "12"]%string.
Proof. reflexivity. Qed.

Example float_parsed : Qeq (Py.float_of_string "-3.50") (-7 # 2).
Proof. reflexivity. Qed.

Example str_int_negative : Py.str_int (-42) = "-42"%string /\ Py.str_int 0 = "0"%string.
Proof. split; reflexivity. Qed.

Example two_machines_is_mathematical :
  Planner.classify_problem two_machines None = MATHEMATICAL.
Proof. vm_compute. reflexivity. Qed.

Example riddle_topic_hint :
  Planner.classify_problem "anything" (Some "Classic riddles"%string) = CLASSIC_RIDDLE.
Proof. vm_compute. reflexivity. Qed.

Example work_rate_two_machines :
  EnhancedSolvers.solve_work_rate_problem two_machines = Some "4 hours"%string.
Proof. vm_compute. reflexivity. Qed.

Example work_rate_minutes :
  EnhancedSolvers.solve_work_rate_problem "A needs 1 hour, B needs 1 hour, together?"
  = Some "30 minutes"%string.
Proof. vm_compute. reflexivity. Qed.


Example miles_found :
  TravelSolver.findall_miles "from a to b is 12 miles, b to c 7mile, back 30  miles"
  = ["12"; "7"; "30"]%string.
Proof. vm_compute. reflexivity. Qed.

Example bound_found :
  AnswerConstraints.findall_at_least "pick at least 10 boxes and at least 3 lids"
  = ["10"; "3"]%string.
Proof. vm_compute. reflexivity. Qed.

Example minimum_violated :
  AnswerConstraints.verify_against_constraints "7 boxes" "Pick at least 10 boxes."
  = AnswerConstraints.mkReport false ["Value 7 < required minimum 10"%string].
Proof. vm_compute. reflexivity. Qed.

Example fibonacci_continued :
  SequenceHandler.next_term [1; 1; 2; 3; 5] = Some (SequenceHandler.SumOfPrevious 2, 3 + 5).
Proof. vm_compute. reflexivity. Qed.

Example squares_continued :
  match SequenceHandler.next_term [1; 4; 9; 16] with
  | Some (SequenceHandler.Quadratic d, next_val) => d == 2 /\ next_val == 25
  | _ => False
  end.
Proof. vm_compute. split; reflexivity. Qed.

Example split_at_must :
  ConstraintCheck.second_part ["cannot"; "must not"]%string "it cannot be red or it must not be blue"
  = Some " be red or it "%string.
Proof. vm_compute. reflexivity. Qed.

Example positive_constraint_met :
  ConstraintCheck.check_constraint "It is an even number" "The answer must be an even number"
  = false
  /\ ConstraintCheck.check_constraint "It must be an even number, 4" "The answer must be an even number"
     = true.
Proof. vm_compute. split; reflexivity. Qed.

(** Binary64 arithmetic, as the interpreter prints it. *)

Example subtraction_is_rounded :
  let c := Binary64.literal in
  Binary64.repr (Binary64.sub (Binary64.sub (c (8 # 10)) (c (1 # 10))) (c (1 # 10)))
  = "0.6000000000000001"%string
  /\ Binary64.repr (Binary64.sub (Binary64.sub (c (3 # 10)) (c (1 # 10))) (c (1 # 10)))
     = "0.09999999999999998"%string
  /\ Binary64.repr (Binary64.sub (c (2 # 10)) (c (1 # 10))) = "0.1"%string.
Proof. vm_compute. repeat split; reflexivity. Qed.

Example mean_is_rounded :
  let c := Binary64.literal in
  Binary64.repr (Binary64.div (Binary64.sum_left [c (8 # 10); c (8 # 10); c (8 # 10)])
                              (Binary64.of_nat 3))
  = "0.8000000000000002"%string.
Proof. vm_compute. reflexivity. Qed.

Example numeral_is_rounded :
  Binary64.parse "1000000.0000000000001" = Fin 1000000 "1000000.0"
  /\ Binary64.parse "-2000001" = Fin (-2000001) "-2000001.0"
  /\ Binary64.parse "0.1" = Fin (3602879701896397 # 36028797018963968) "0.1"
  /\ Binary64.parse "9007199254740993" = Fin 9007199254740992 "9007199254740992.0".
Proof. vm_compute. repeat split; reflexivity. Qed.

Example validation_reads_a_float :
  SelfCorrector.validate_result "1000000.0000000000001" "How many?" None = (true, None)
  /\ SelfCorrector.validate_result "2000001 units" "How many?" None
     = (false, Some "Unreasonably large number: 2000001.0"%string)
  /\ SelfCorrector.validate_result "150" "What percentage is it?" None
     = (false, Some "Percentage > 100%: 150.0"%string)
  /\ SelfCorrector.validate_result "-150" "What percentage is it?" None = (true, None).
Proof. vm_compute. repeat split; reflexivity. Qed.

(** A chain of one step with a result, whose action asks to calculate
    without a tool and whose thought is short: its confidence is
    0.6000000000000001, which exceeds 0.6. *)
Example rounded_chain_is_valid :
  let chain :=
    mkChain "What is it?"
            (mkPlan LOGICAL STEP_BY_STEP_LOGIC ["calculate it"]%string
                    ["reasoning_engine"]%string [] "categorical" (7 # 10))
            [mkStep 1 "calculate it" "short" None None (Some "nine"%string) false (8 # 10)]
            (Some "nine"%string) (7 # 10) in
  let verdict := fst (VerifierAgent64.verify_chain Binary64.sum_left chain) in
  is_valid verdict = true
  /\ issues verdict = []
  /\ Binary64.repr (v_confidence verdict) = "0.6000000000000001"%string.
Proof. vm_compute. repeat split; reflexivity. Qed.
(** * Lemmas on texts and lists *)

Lemma mem_In (x : string) (l : list string) : Py.mem x l = true -> In x l.
Proof.
  unfold Py.mem. intros H. apply existsb_exists in H.
  destruct H as (y & Hy & E). apply String.eqb_eq in E. now subst.
Qed.

Lemma append_assoc (a b c : string) : ((a ++ b) ++ c = a ++ (b ++ c))%string.
Proof. induction a as [|x a IH]; cbn; [reflexivity|now rewrite IH]. Qed.

Lemma append_nil_r (a : string) : (a ++ EmptyString)%string = a.
Proof. induction a as [|x a IH]; cbn; [reflexivity|now rewrite IH]. Qed.

Lemma prefix_nil (s : string) : String.prefix EmptyString s = true.
Proof. now destruct s. Qed.

Lemma prefix_app_r (p h s : string) :
  String.prefix p h = true -> String.prefix p (h ++ s) = true.
Proof.
  revert h. induction p as [|a p IH]; intros h; [intros _; apply prefix_nil|].
  destruct h as [|b h]; cbn; [discriminate|].
  destruct (ascii_dec a b); [apply IH|discriminate].
Qed.

Lemma prefix_decompose (p h : string) :
  String.prefix p h = true <-> exists s, h = (p ++ s)%string.
Proof.
  revert h. induction p as [|a p IH]; intros h.
  - rewrite prefix_nil. split; [intros _; now exists h|reflexivity].
  - destruct h as [|b h]; cbn.
    + split; [discriminate|]. intros [s Hs]. discriminate.
    + destruct (ascii_dec a b) as [->|Hne].
      * rewrite IH. split; intros [s Hs]; exists s; [now rewrite Hs|now injection Hs].
      * split; [discriminate|]. intros [s Hs]. injection Hs as Hab _. congruence.
Qed.

(** [needle in hay] holds exactly when [hay] is some text, the needle,
    and some text. *)
Lemma contains_decompose (needle hay : string) :
  Py.contains needle hay = true <-> exists a b, hay = (a ++ needle ++ b)%string.
Proof.
  induction hay as [|c hay IH].
  - cbn [Py.contains]. rewrite orb_false_r, prefix_decompose. split.
    + intros [s Hs]. exists EmptyString, s. exact Hs.
    + intros (a & b & H). destruct a as [|x a]; [now exists b|discriminate].
  - cbn [Py.contains]. rewrite orb_true_iff, prefix_decompose, IH. split.
    + intros [[s Hs]|(a & b & H)].
      * exists EmptyString, s. exact Hs.
      * exists (String c a), b. cbn. now rewrite H.
    + intros (a & b & H). destruct a as [|x a].
      * left. now exists b.
      * right. cbn in H. injection H as _ H. now exists a, b.
Qed.

Lemma contains_inside (needle a hay b text : string) :
  hay = (a ++ needle ++ b)%string ->
  Py.contains hay text = true -> Py.contains needle text = true.
Proof.
  intros -> H. apply contains_decompose in H. destruct H as (x & y & ->).
  apply contains_decompose. exists (x ++ a)%string, (b ++ y)%string.
  now rewrite !append_assoc.
Qed.

Lemma rev_onto_app (s acc : string) :
  Py.rev_onto s acc = (Py.reverse s ++ acc)%string.
Proof.
  unfold Py.reverse. revert acc. induction s as [|c s IH]; intros acc; [reflexivity|].
  cbn [Py.rev_onto]. rewrite IH, (IH (String c EmptyString)), append_assoc. reflexivity.
Qed.

Lemma reverse_app (a b : string) :
  Py.reverse (a ++ b) = (Py.reverse b ++ Py.reverse a)%string.
Proof.
  induction a as [|c a IH].
  - cbn. now rewrite append_nil_r.
  - cbn [append]. unfold Py.reverse at 1 3. cbn [Py.rev_onto].
    rewrite !rev_onto_app, IH, append_assoc. reflexivity.
Qed.

Lemma reverse_involutive (s : string) : Py.reverse (Py.reverse s) = s.
Proof.
  induction s as [|c s IH]; [reflexivity|].
  unfold Py.reverse at 2. cbn [Py.rev_onto]. rewrite rev_onto_app, reverse_app, IH.
  reflexivity.
Qed.

(** [lstrip] removes a prefix. *)
Lemma lstrip_suffix (s : string) : exists w, s = (w ++ Py.lstrip s)%string.
Proof.
  induction s as [|c s [w IH]]; [now exists EmptyString|].
  cbn [Py.lstrip]. destruct (Py.isspace c).
  - exists (String c w). cbn. now rewrite <- IH.
  - now exists EmptyString.
Qed.

(** [rstrip] removes a suffix. *)
Lemma rstrip_prefix (s : string) : exists w, s = (Py.rstrip s ++ w)%string.
Proof.
  unfold Py.rstrip. destruct (lstrip_suffix (Py.reverse s)) as [w Hw].
  exists (Py.reverse w).
  rewrite <- reverse_app, <- Hw, reverse_involutive. reflexivity.
Qed.

Lemma lstrip_app (a b : string) :
  Py.lstrip a <> EmptyString -> Py.lstrip (a ++ b) = (Py.lstrip a ++ b)%string.
Proof.
  induction a as [|c a IH]; cbn [Py.lstrip append]; [congruence|].
  destruct (Py.isspace c); [exact IH|reflexivity].
Qed.

Lemma rstrip_app (a b : string) :
  Py.rstrip b <> EmptyString -> Py.rstrip (a ++ b) = (a ++ Py.rstrip b)%string.
Proof.
  unfold Py.rstrip. intros H. rewrite reverse_app, lstrip_app.
  - rewrite reverse_app, reverse_involutive. reflexivity.
  - intros E. rewrite E in H. now apply H.
Qed.

(** * Properties *)

(** ** Comparisons and clamping *)

Lemma Qgtb_true (x y : Q) : Qgtb x y = true -> y < x.
Proof.
  unfold Qgtb. intros H. apply negb_true_iff in H.
  apply Qnot_le_lt. intros Hle. apply Qle_bool_iff in Hle. congruence.
Qed.

Lemma Qgtb_false (x y : Q) : Qgtb x y = false -> x <= y.
Proof.
  unfold Qgtb. intros H. apply negb_false_iff in H. now apply Qle_bool_iff.
Qed.

Lemma Qltb_true (x y : Q) : Qltb x y = true -> x < y.
Proof. unfold Qltb. intros H. now apply (Qgtb_true y x). Qed.

Lemma Qltb_false (x y : Q) : Qltb x y = false -> y <= x.
Proof. unfold Qltb. intros H. now apply (Qgtb_false y x). Qed.

(** [max(lo, min(hi, c))] lies between [lo] and [hi], whatever [c] is. *)
Lemma clamp_range (lo hi c : Q) :
  lo <= hi -> lo <= py_max lo (py_min hi c) <= hi.
Proof.
  intros Hlh. unfold py_max, py_min.
  destruct (Qltb c hi) eqn:Hc.
  - apply Qltb_true in Hc.
    destruct (Qgtb c lo) eqn:Hl.
    + apply Qgtb_true in Hl. split; apply Qlt_le_weak; assumption.
    + split; [apply Qle_refl | assumption].
  - destruct (Qgtb hi lo) eqn:Hl.
    + split; [assumption | apply Qle_refl].
    + split; [apply Qle_refl | assumption].
Qed.

(** ** What [execute_plan] leaves in the chain *)

Section ExecutePlan.

Variable ag : Reasoner.
Variable full_problem : string.
Variable the_plan : ReasoningPlan.
Variable options : option (list string).

Let run := ReasonerAgent.run_sub_problems ag full_problem the_plan options.
Let exec := fun recorded number sub_problem =>
  ReasonerAgent.execute_sub_problem ag recorded number sub_problem
                                    full_problem the_plan options.

(** The loop appends exactly one step per sub-problem, each computed from
    the steps recorded before it. *)
Lemma run_sub_problems_steps :
  forall remaining chain number,
    exists produced,
      steps (run remaining chain number) = (steps chain ++ produced)%list
      /\ List.length produced = List.length remaining
      /\ forall i sub_problem,
           nth_error remaining i = Some sub_problem ->
           nth_error produced i
           = Some (exec (steps chain ++ firstn i produced)%list (number + i)%nat sub_problem).
Proof.
  unfold run, exec.
  induction remaining as [|sp rest IH]; intros chain number.
  - exists []. simpl. rewrite app_nil_r. repeat split; trivial.
    intros [|i] s H; discriminate.
  - simpl ReasonerAgent.run_sub_problems.
    set (st := ReasonerAgent.execute_sub_problem ag (steps chain) number sp
                 full_problem the_plan options).
    destruct (IH (add_step st chain) (S number)) as (produced & Hsteps & Hlen & Hnth).
    exists (st :: produced). repeat split.
    + rewrite Hsteps. simpl. now rewrite <- app_assoc.
    + simpl. now rewrite Hlen.
    + intros [|i] s H; simpl in H.
      * injection H as <-. simpl. rewrite app_nil_r, Nat.add_0_r. reflexivity.
      * simpl. rewrite (Hnth i s H). simpl steps.
        rewrite <- app_assoc. simpl. now rewrite Nat.add_succ_r.
Qed.

Lemma run_sub_problems_frame :
  forall remaining chain number,
    run remaining chain number
    = mkChain (problem chain) (plan chain) (steps (run remaining chain number))
              (final_answer chain) (overall_confidence chain).
Proof.
  unfold run.
  induction remaining as [|sp rest IH]; intros chain number; simpl.
  - now destruct chain.
  - match goal with
    | |- context [add_step ?st chain] => exact (IH (add_step st chain) (S number))
    end.
Qed.

(** The closing phase keeps the recorded steps and adds at most the
    self-correction step. *)
Lemma conclude_steps (chain : ReasoningChain) :
  let preliminary := ReasonerAgent.determine_final_answer ag chain options in
  let corrected :=
    fst (fst (SelfCorrector.self_correct preliminary full_problem (steps chain) options)) in
  let final := ReasonerAgent.conclude ag full_problem chain options in
  final_answer final = Some corrected
  /\ exists extra,
       steps final = (steps chain ++ extra)%list
       /\ List.length extra = (if String.eqb corrected preliminary then 0 else 1)%nat.
Proof.
  cbv zeta. unfold ReasonerAgent.conclude.
  destruct (SelfCorrector.self_correct _ _ _ _) as [[corrected reason] conf]. simpl fst.
  split; [reflexivity|].
  destruct (String.eqb corrected _).
  - exists []. simpl. now rewrite app_nil_r.
  - eexists [_]. simpl. split; reflexivity.
Qed.

End ExecutePlan.

Lemma executed_chain_steps ag full_problem the_plan options :
  List.length (steps (executed_chain ag full_problem the_plan options))
  = List.length (sub_problems the_plan)
  /\ forall i sub_problem,
       nth_error (sub_problems the_plan) i = Some sub_problem ->
       nth_error (steps (executed_chain ag full_problem the_plan options)) i
       = Some (ReasonerAgent.execute_sub_problem ag
                 (firstn i (steps (executed_chain ag full_problem the_plan options)))
                 (S i) sub_problem full_problem the_plan options).
Proof.
  unfold executed_chain.
  destruct (run_sub_problems_steps ag full_problem the_plan options (sub_problems the_plan)
              (mkChain full_problem the_plan [] None 0) 1)
    as (produced & Hsteps & Hlen & Hnth).
  simpl in Hsteps, Hnth. rewrite Hsteps. split; [exact Hlen|].
  intros i sp H. exact (Hnth i sp H).
Qed.

Lemma executed_chain_frame ag full_problem the_plan options :
  executed_chain ag full_problem the_plan options
  = mkChain full_problem the_plan
            (steps (executed_chain ag full_problem the_plan options)) None 0.
Proof.
  unfold executed_chain at 1.
  now rewrite run_sub_problems_frame.
Qed.

(** C5. The self-corrector's confidence lies in [0.1, 0.95] for every
    answer, problem, list of steps and optional verification result; and
    [execute_plan] stores such a value in [overall_confidence], which is
    therefore in [0, 1]. *)
Theorem confidence_is_clamped :
  (forall (answer_text problem_text : string) (reasoning_steps : list ReasoningStep)
          (verification_result : option (option bool)),
      1 # 10 <= SelfCorrector.calculate_confidence answer_text problem_text reasoning_steps
                                                   verification_result <= 95 # 100)
  /\ (forall (ag : Reasoner) (full_problem : string) (the_plan : ReasoningPlan)
             (options : option (list string)),
         let chain := ReasonerAgent.execute_plan ag full_problem the_plan options in
         (exists answer_text,
             final_answer chain = Some answer_text
             /\ overall_confidence chain
                = SelfCorrector.calculate_confidence
                    answer_text full_problem
                    (steps (executed_chain ag full_problem the_plan options)) None)
         /\ 1 # 10 <= overall_confidence chain <= 95 # 100
         /\ 0 <= overall_confidence chain <= 1).
Proof.
  assert (Hcalc : forall a p s v,
             1 # 10 <= SelfCorrector.calculate_confidence a p s v <= 95 # 100).
  { intros a p s v. unfold SelfCorrector.calculate_confidence.
    apply clamp_range. discriminate. }
  split; [exact Hcalc|].
  intros ag full_problem the_plan options chain.
  assert (Hex : exists answer_text,
             final_answer chain = Some answer_text
             /\ overall_confidence chain
                = SelfCorrector.calculate_confidence
                    answer_text full_problem
                    (steps (executed_chain ag full_problem the_plan options)) None).
  { subst chain. unfold ReasonerAgent.execute_plan, ReasonerAgent.conclude.
    fold (executed_chain ag full_problem the_plan options).
    unfold SelfCorrector.self_correct.
    destruct (SelfCorrector.validate_result _ _ _) as [valid msg].
    destruct valid.
    - eexists. simpl. split; reflexivity.
    - destruct (SelfCorrector.suggest_correction _ _ _ _) as [suggested|].
      + destruct (Py.truthy suggested && negb (String.eqb suggested _));
          eexists; simpl; split; reflexivity.
      + eexists. simpl. split; reflexivity. }
  split; [exact Hex|].
  destruct Hex as (a & _ & ->).
  destruct (Hcalc a full_problem
              (steps (executed_chain ag full_problem the_plan options)) None) as [Hlo Hhi].
  repeat split; try assumption.
  - eapply Qle_trans; [|exact Hlo]. discriminate.
  - eapply Qle_trans; [exact Hhi|]. discriminate.
Qed.

(** The steps of the finished chain: those of the loop, then the
    self-correction step when the answer was corrected. *)
Lemma execute_plan_steps (ag : Reasoner) (full_problem : string)
      (the_plan : ReasoningPlan) (options : option (list string)) :
  let executed := executed_chain ag full_problem the_plan options in
  let preliminary := ReasonerAgent.determine_final_answer ag executed options in
  let correction :=
    SelfCorrector.self_correct preliminary full_problem (steps executed) options in
  steps (ReasonerAgent.execute_plan ag full_problem the_plan options)
  = (steps executed
     ++ (if String.eqb (fst (fst correction)) preliminary then []
         else [mkStep (List.length (sub_problems the_plan) + 1) "Self-correction"
                      (snd (fst correction)) (Some "self_corrector"%string) None
                      (Some (fst (fst correction))) true (snd correction)]))%list.
Proof.
  cbv zeta.
  destruct (executed_chain_steps ag full_problem the_plan options) as [Hlen _].
  unfold ReasonerAgent.execute_plan, ReasonerAgent.conclude.
  fold (executed_chain ag full_problem the_plan options).
  destruct (SelfCorrector.self_correct _ _ _ _) as [[corrected reason] conf].
  simpl fst. simpl snd.
  destruct (String.eqb corrected _); simpl.
  - now rewrite app_nil_r.
  - now rewrite Hlen.
Qed.

(** C8. After [execute_plan] the chain holds one step per sub-problem of
    the plan, followed by the synthetic self-correction step exactly when
    the corrected answer differs from the preliminary one: its length is
    the number of sub-problems, or that number plus one. *)
Theorem chain_completeness (ag : Reasoner) (full_problem : string)
        (the_plan : ReasoningPlan) (options : option (list string)) :
  let executed := executed_chain ag full_problem the_plan options in
  let preliminary := ReasonerAgent.determine_final_answer ag executed options in
  let correction :=
    SelfCorrector.self_correct preliminary full_problem (steps executed) options in
  let corrected := fst (fst correction) in
  let chain := ReasonerAgent.execute_plan ag full_problem the_plan options in
  let n := List.length (sub_problems the_plan) in
  List.length (steps executed) = n
  /\ steps chain
     = (steps executed
        ++ (if String.eqb corrected preliminary then []
            else [mkStep (n + 1) "Self-correction" (snd (fst correction))
                         (Some "self_corrector"%string) None (Some corrected)
                         true (snd correction)]))%list
  /\ List.length (steps chain) = (n + (if String.eqb corrected preliminary then 0 else 1))%nat
  /\ (n <= List.length (steps chain))%nat
  /\ (List.length (steps chain) = n \/ List.length (steps chain) = S n).
Proof.
  cbv zeta.
  destruct (executed_chain_steps ag full_problem the_plan options) as [Hlen _].
  pose proof (execute_plan_steps ag full_problem the_plan options) as Hsteps.
  cbv zeta in Hsteps.
  split; [exact Hlen|]. split; [exact Hsteps|].
  rewrite Hsteps, length_app, Hlen.
  destruct (String.eqb _ _); simpl; repeat split; try lia.
Qed.

(** C7. Every sub-problem of the plan yields its step, computed from the
    steps recorded before it; when its handler raises, the step carries
    confidence 0.1 and the thought "Error executing step: ..." with the
    message of the exception, and the loop goes on: the chain never has
    fewer steps than the plan has sub-problems. *)
Theorem step_failure_is_local (ag : Reasoner) (full_problem : string)
        (the_plan : ReasoningPlan) (options : option (list string))
        (i : nat) (sub_problem : string) :
  let chain := ReasonerAgent.execute_plan ag full_problem the_plan options in
  nth_error (sub_problems the_plan) i = Some sub_problem ->
  (List.length (sub_problems the_plan) <= List.length (steps chain))%nat
  /\ exists step,
       nth_error (steps chain) i = Some step
       /\ step = ReasonerAgent.execute_sub_problem ag (firstn i (steps chain)) (S i)
                   sub_problem full_problem the_plan options
       /\ forall st msg,
            ReasonerAgent.dispatch ag (firstn i (steps chain))
              (ReasonerAgent.initial_step ag (S i) sub_problem full_problem the_plan)
              full_problem sub_problem the_plan options = Raised st msg ->
            confidence step = 1 # 10
            /\ thought step = ("Error executing step: " ++ msg)%string.
Proof.
  intros chain Hsub.
  pose proof (execute_plan_steps ag full_problem the_plan options) as Hsteps.
  cbv zeta in Hsteps.
  destruct (executed_chain_steps ag full_problem the_plan options) as [Hlen Hnth].
  assert (Hle : (List.length (sub_problems the_plan) <= List.length (steps chain))%nat).
  { subst chain. rewrite Hsteps, length_app, Hlen. lia. }
  assert (Hi : (i < List.length (steps (executed_chain ag full_problem the_plan options)))%nat).
  { rewrite Hlen. apply nth_error_Some. congruence. }
  assert (Hpre : firstn i (steps chain)
                 = firstn i (steps (executed_chain ag full_problem the_plan options))).
  { subst chain. rewrite Hsteps, firstn_app.
    replace (i - List.length (steps (executed_chain ag full_problem the_plan options)))%nat
      with O by lia.
    simpl. now rewrite app_nil_r. }
  split; [exact Hle|].
  eexists. split; [|split; [reflexivity|]].
  - subst chain. rewrite Hpre, Hsteps.
    rewrite nth_error_app1 by exact Hi.
    exact (Hnth i sub_problem Hsub).
  - intros st msg Hraise. unfold ReasonerAgent.execute_sub_problem.
    rewrite Hraise. split; reflexivity.
Qed.

Lemma step_failure_is_local_witness :
  exists step,
    nth_error (steps (ReasonerAgent.execute_plan plain_reasoner buttons
                        (Planner.create_plan buttons (Some "mathematical"%string)) None)) 1
    = Some step
    /\ confidence step = 1 # 10
    /\ thought step = "Error executing step: name 'options' is not defined"%string.
Proof.
  destruct (step_failure_is_local plain_reasoner buttons
              (Planner.create_plan buttons (Some "mathematical"%string)) None
              1 "Set up equations or formulas"%string eq_refl)
    as (_ & step & Hnth & _ & Hraised).
  exists step. split; [exact Hnth|].
  apply (Hraised (mkStep 2 "Set up equations or formulas" EmptyString None None None false 0)).
  vm_compute. reflexivity.
Defined.

(** ** The cache *)

Lemma cache_lookup_store (key : string) (r : SolutionResult)
      (cache : list (string * SolutionResult)) :
  AgenticReasoningSystem.cache_lookup key (AgenticReasoningSystem.cache_store key r cache)
  = Some r.
Proof.
  induction cache as [|[k old] rest IH]; simpl.
  - now rewrite String.eqb_refl.
  - destruct (String.eqb k key) eqn:E; simpl; rewrite E; [reflexivity | exact IH].
Qed.

Lemma cache_store_keys (key : string) (r r' : SolutionResult)
      (cache : list (string * SolutionResult)) :
  map fst (AgenticReasoningSystem.cache_store key r'
             (AgenticReasoningSystem.cache_store key r cache))
  = map fst (AgenticReasoningSystem.cache_store key r cache).
Proof.
  induction cache as [|[k old] rest IH]; simpl.
  - now rewrite String.eqb_refl.
  - destruct (String.eqb k key) eqn:E; simpl; rewrite E; simpl; [reflexivity|].
    now rewrite IH.
Qed.

(** C10. Two consecutive calls of [solve] on the same system with the same
    problem, topic and options return the same answer and chains with the
    same number of steps. The result of a call does not depend on the
    cache or on the chain left by earlier calls: the cache is written,
    its entry for the problem overwritten in place, and never read. *)
Theorem solve_is_idempotent (sys : AgenticReasoningSystem.System)
        (problem_text : string) (topic : option string) (options : option (list string))
        (elapsed1 elapsed2 : Q) :
  let first := AgenticReasoningSystem.solve sys problem_text topic options elapsed1 in
  let second :=
    AgenticReasoningSystem.solve (snd first) problem_text topic options elapsed2 in
  answer (fst second) = answer (fst first)
  /\ List.length (steps (reasoning_chain (fst second)))
     = List.length (steps (reasoning_chain (fst first)))
  /\ reasoning_chain (fst second) = reasoning_chain (fst first)
  /\ (forall last cache,
         fst (AgenticReasoningSystem.solve
                (AgenticReasoningSystem.mkSystem (AgenticReasoningSystem.reasoner sys)
                                                 last cache)
                problem_text topic options elapsed2)
         = fst second)
  /\ AgenticReasoningSystem.cache_lookup
       problem_text (AgenticReasoningSystem.solution_cache (snd first)) = Some (fst first)
  /\ AgenticReasoningSystem.cache_lookup
       problem_text (AgenticReasoningSystem.solution_cache (snd second)) = Some (fst second)
  /\ map fst (AgenticReasoningSystem.solution_cache (snd second))
     = map fst (AgenticReasoningSystem.solution_cache (snd first)).
Proof.
  cbv zeta. unfold AgenticReasoningSystem.solve.
  unfold VerifierAgent.verify_chain. cbn [fst snd AgenticReasoningSystem.reasoner
                                           AgenticReasoningSystem.solution_cache
                                           answer reasoning_chain].
  split; [reflexivity|]. split; [reflexivity|]. split; [reflexivity|].
  split; [intros last cache; reflexivity|].
  split; [apply cache_lookup_store|].
  split; [apply cache_lookup_store | apply cache_store_keys].
Qed.


(** ** The two machines *)

Lemma two_machines_plan_eq :
  Planner.create_plan two_machines None = two_machines_plan.
Proof. vm_compute. reflexivity. Qed.

Section TwoMachines.

Variable ag : Reasoner.
Hypothesis calculated :
  calculator_evaluate (pool ag) "12*6" = Returns (VFloat (Fin 72 "72.0")).

Lemma two_machines_extract (step : ReasoningStep) :
  ReasonerAgent.handle_mathematical_step ag step two_machines
    "Extract numerical values and relationships"
  = Completed (set_result "12,6" (set_thought "Extracted values: ['12', '6']" step)).
Proof. vm_compute. reflexivity. Qed.

Lemma two_machines_equation (step : ReasoningStep) :
  ReasonerAgent.handle_mathematical_step ag step two_machines "Set up equations or formulas"
  = ReasonerAgent.solved step (VStr "4 hours") "4 hours"
      "Enhanced work rate calculation: 4 hours" "enhanced_work_rate".
Proof. vm_compute. reflexivity. Qed.

Lemma two_machines_perform (step : ReasoningStep) :
  ReasonerAgent.handle_mathematical_step ag step two_machines "Perform calculations"
  = Completed (set_tool_used "calculator"
                (set_thought "Calculated: 72.0"
                  (set_result "72.0" (set_tool_output (VFloat (Fin 72 "72.0")) step)))).
Proof.
  unfold ReasonerAgent.handle_mathematical_step.
  replace (Py.join "*" (firstn 2 (Py.findall_numbers two_machines))) with "12*6"%string
    by (vm_compute; reflexivity).
  rewrite calculated. vm_compute. reflexivity.
Qed.

Lemma two_machines_verify (step : ReasoningStep) :
  ReasonerAgent.handle_mathematical_step ag step two_machines
    "Verify answer against constraints"
  = Completed (set_result "verified"
                (set_verified true
                  (set_thought "Verifying answer against constraints" step))).
Proof. vm_compute. reflexivity. Qed.

Lemma two_machines_steps :
  steps (executed_chain ag two_machines two_machines_plan None) = two_machines_steps_expected.
Proof.
  unfold executed_chain, two_machines_plan.
  cbn [sub_problems ReasonerAgent.run_sub_problems].
  unfold ReasonerAgent.execute_sub_problem, ReasonerAgent.dispatch.
  cbn [problem_type].
  rewrite two_machines_extract, two_machines_equation, two_machines_perform,
    two_machines_verify.
  reflexivity.
Qed.

End TwoMachines.

(** C9. For the two machines that take 12 and 6 hours, the work-rate
    solver does answer "4 hours" in the second step, but once the
    calculator has evaluated the product of the first two numbers of the
    text in the third step, that product is the most recent output and
    the answer returned is "72". *)
Theorem two_machines_answer (sys : AgenticReasoningSystem.System) (elapsed : Q) :
  calculator_evaluate (pool (AgenticReasoningSystem.reasoner sys)) "12*6"
  = Returns (VFloat (Fin 72 "72.0")) ->
  let r := fst (AgenticReasoningSystem.solve sys two_machines None None elapsed) in
  problem_type (plan (reasoning_chain r)) = MATHEMATICAL
  /\ EnhancedSolvers.solve_work_rate_problem two_machines = Some "4 hours"%string
  /\ map tool_output (steps (reasoning_chain r))
     = [None; Some (VStr "4 hours"); Some (VFloat (Fin 72 "72.0")); None]
  /\ final_answer (reasoning_chain r) = Some "72"%string
  /\ answer r = "72"%string.
Proof.
  intros Hcalc. cbv zeta. unfold AgenticReasoningSystem.solve.
  rewrite two_machines_plan_eq. unfold ReasonerAgent.execute_plan.
  fold (executed_chain (AgenticReasoningSystem.reasoner sys) two_machines
                       two_machines_plan None).
  rewrite executed_chain_frame, (two_machines_steps _ Hcalc).
  generalize (AgenticReasoningSystem.reasoner sys) as ag. intros ag.
  vm_compute. repeat split; reflexivity.
Qed.

Lemma two_machines_answer_witness :
  answer (fst (AgenticReasoningSystem.solve
                 (AgenticReasoningSystem.mkSystem plain_reasoner None [])
                 two_machines None None 0)) = "72"%string.
Proof.
  apply (two_machines_answer (AgenticReasoningSystem.mkSystem plain_reasoner None []) 0).
  vm_compute. reflexivity.
Defined.

(** ** Searching the options *)

Lemma find_first_with (f : string -> bool) (opts : list string) (r : string) :
  find f opts = Some r <-> Spec.first_with f opts r.
Proof.
  split.
  - induction opts as [|o rest IH]; simpl; [discriminate|].
    destruct (f o) eqn:E.
    + intros [= <-]. exists [], rest. repeat split; trivial. intros ? [].
    + intros H. destruct (IH H) as (before & after & -> & Hr & Hb).
      exists (o :: before), after. repeat split; trivial.
      intros x [<-|Hx]; auto.
  - intros (before & after & -> & Hr & Hb).
    induction before as [|b rest IH]; simpl.
    + now rewrite Hr.
    + rewrite (Hb b (or_introl eq_refl)). apply IH.
      intros o Ho. apply Hb. now right.
Qed.

Lemma find_none_with (f : string -> bool) (opts : list string) :
  find f opts = None <-> Spec.none_with f opts.
Proof.
  split.
  - intros H o Ho. exact (find_none f opts H o Ho).
  - intros H. induction opts as [|o rest IH]; simpl; [reflexivity|].
    rewrite (H o (or_introl eq_refl)). apply IH.
    intros x Hx. apply H. now right.
Qed.

(** C2, as amended. Final reconciliation applies the cascade in order,
    the first rule that applies giving the answer: an option equal to the
    answer, letter case and surrounding blanks apart; an option that
    contains the answer; an option that the answer contains; when the
    answer is not in the status list, the first option that shares a word
    with it; otherwise "Another answer" when the answer is in the status
    list, empty or the sentinel and that option is offered, and the
    answer itself in every other case. *)
Theorem reconciliation_cascade (p : string) (options : option (list string)) (r : string) :
  Spec.reconciled Spec.first_overlap p (olist options) r
  <-> r = AgenticReasoningSystem.refine_answer p options.
Proof.
  unfold AgenticReasoningSystem.refine_answer. split.
  - intros H.
    inversion H; subst;
      repeat match goal with
        | F : Spec.first_overlap _ _ _ |- _ => unfold Spec.first_overlap in F
        | F : Spec.first_with _ _ _ |- _ => apply find_first_with in F; rewrite F
        | N : Spec.none_with _ _ |- _ => apply find_none_with in N; rewrite N
        | S : Py.mem p AgenticReasoningSystem.status_strings = _ |- _ => rewrite S
        end;
      try reflexivity.
    match goal with
    | D : _ \/ _ |- _ => destruct D as [Hstatus|Hnone]
    end.
    + now rewrite Hstatus.
    + apply find_none_with in Hnone. rewrite Hnone.
      now destruct (Py.mem p AgenticReasoningSystem.status_strings).
  - intros ->.
    destruct (find (AgenticReasoningSystem.same_text p) (olist options)) as [o|] eqn:E1.
    { apply Spec.by_equality. now apply find_first_with. }
    apply find_none_with in E1.
    destruct (find (AgenticReasoningSystem.inside_option p) (olist options)) as [o|] eqn:E2.
    { apply Spec.by_inclusion; [assumption | now apply find_first_with]. }
    apply find_none_with in E2.
    destruct (find (AgenticReasoningSystem.option_inside p) (olist options)) as [o|] eqn:E3.
    { apply Spec.by_containment; [assumption | assumption | now apply find_first_with]. }
    apply find_none_with in E3.
    destruct (Py.mem p AgenticReasoningSystem.status_strings) eqn:Es.
    { apply Spec.by_default; auto. }
    destruct (find (AgenticReasoningSystem.shares_word p) (olist options)) as [o|] eqn:E4.
    { apply Spec.by_overlap; auto. now apply find_first_with. }
    apply find_none_with in E4.
    apply Spec.by_default; auto.
Qed.

(** C2, as stated, fails: for the answer "red big car" and the options
    "red bike" and "car big", no rule before the fourth applies, "car big"
    shares two words with the answer and "red bike" one, and the code
    returns "red bike". *)
Lemma reconciliation_not_largest_overlap :
  AgenticReasoningSystem.refine_answer "red big car" (Some colour_options)
  = "red bike"%string
  /\ (Spec.overlap "red big car" "red bike" < Spec.overlap "red big car" "car big")%nat
  /\ ~ Spec.reconciled Spec.largest_overlap "red big car" colour_options
         (AgenticReasoningSystem.refine_answer "red big car" (Some colour_options)).
Proof.
  assert (E : AgenticReasoningSystem.refine_answer "red big car" (Some colour_options)
              = "red bike"%string) by (vm_compute; reflexivity).
  split; [exact E|]. split; [vm_compute; lia|].
  rewrite E. intros H.
  inversion H; subst;
    repeat match goal with
      | F : Spec.first_with _ _ _ |- _ =>
          apply find_first_with in F; vm_compute in F; discriminate F
      end.
  - match goal with
    | L : Spec.largest_overlap _ _ _ |- _ => destruct L as (_ & _ & Hmax)
    end.
    specialize (Hmax "car big"%string (or_intror (or_introl eq_refl))).
    vm_compute in Hmax. lia.
  - match goal with
    | D : _ \/ _ |- _ => destruct D as [Hstatus|Hnone]
    end.
    + vm_compute in Hstatus. discriminate.
    + specialize (Hnone "red bike"%string (or_introl eq_refl)).
      vm_compute in Hnone. discriminate.
Qed.

(** ** The synthesizer's scan over the outputs *)

Lemma first_some_app {A B : Type} (f : A -> option B) (l1 l2 : list A) :
  (forall x, In x l1 -> f x = None) ->
  first_some f (l1 ++ l2)%list = first_some f l2.
Proof.
  induction l1 as [|a l1 IH]; simpl; intros H; [reflexivity|].
  rewrite (H a (or_introl eq_refl)). apply IH. intros x Hx. apply H. now right.
Qed.

Lemma answer_from_output_decisive (options : option (list string)) (st : ReasoningStep) :
  Spec.decisive st = false -> ReasonerAgent.answer_from_output options st = None.
Proof.
  unfold Spec.decisive, ReasonerAgent.answer_from_output.
  destruct (tool_output st) as [[n|f|s]|]; try discriminate; try reflexivity.
  destruct (Py.mem s ReasonerAgent.status_strings); [reflexivity | discriminate].
Qed.

(** C3, as amended. The first rule of the synthesizer is one scan, most
    recent step first, that stops at the first output that is a number or
    a text outside the status list. When that output is a number the
    answer is its text (an integer without ".0") or the first option that
    equals, contains or starts with that text; when it is a text the
    answer comes from the text, whatever numbers earlier steps hold. *)
Theorem synthesis_follows_most_recent_output
        (ag : Reasoner) (chain : ReasoningChain) (options : option (list string))
        (earlier later : list ReasoningStep) (st : ReasoningStep) (v : value) :
  steps chain = (earlier ++ st :: later)%list ->
  (forall s, In s later -> Spec.decisive s = false) ->
  Spec.decisive st = true ->
  tool_output st = Some v ->
  ReasonerAgent.determine_final_answer ag chain options
  = (if Spec.is_numeric v then Spec.rule1 v options else Spec.rule2 (Value.str v) options).
Proof.
  intros Hsteps Hlater Hdec Hout.
  unfold ReasonerAgent.determine_final_answer.
  rewrite Hsteps, rev_app_distr. simpl rev. rewrite <- app_assoc.
  rewrite first_some_app.
  - cbn [first_some app].
    assert (Hst : ReasonerAgent.answer_from_output options st
                  = Some (if Spec.is_numeric v then Spec.rule1 v options
                          else Spec.rule2 (Value.str v) options)).
    { unfold ReasonerAgent.answer_from_output. unfold Spec.decisive in Hdec.
      rewrite Hout in *. destruct v as [n|f|s]; try reflexivity.
      apply negb_true_iff in Hdec. rewrite Hdec. reflexivity. }
    now rewrite Hst.
  - intros x Hx. apply answer_from_output_decisive. apply Hlater.
    now apply in_rev.
Qed.

Lemma synthesis_follows_most_recent_output_witness :
  ReasonerAgent.determine_final_answer plain_reasoner text_after_number None
  = "4 hours"%string.
Proof.
  apply (synthesis_follows_most_recent_output plain_reasoner text_after_number None
           [mkStep 1 "Perform calculations" "Calculated: 72.0"
                   (Some "calculator"%string) (Some (VFloat (Fin 72 "72.0")))
                   (Some "72.0"%string) false (8 # 10)]
           []
           (mkStep 2 "Set up equations or formulas" "Enhanced work rate calculation: 4 hours"
                   (Some "enhanced_work_rate"%string) (Some (VStr "4 hours"))
                   (Some "4 hours"%string) false (8 # 10))
           (VStr "4 hours")).
  - reflexivity.
  - intros s [].
  - reflexivity.
  - reflexivity.
Defined.

(** C3, as stated, fails: in [text_after_number] the first step holds the
    number 72 and the second, later step the text "4 hours"; the answer
    is "4 hours", not the "72" that rule 1 derives from the number. *)
Lemma numeric_output_does_not_take_priority :
  Spec.last_numeric (steps text_after_number) = Some (VFloat (Fin 72 "72.0"))
  /\ Spec.rule1 (VFloat (Fin 72 "72.0")) None = "72"%string
  /\ ReasonerAgent.determine_final_answer plain_reasoner text_after_number None
     = "4 hours"%string
  /\ ~ (forall (ag : Reasoner) (chain : ReasoningChain) (options : option (list string))
               (v : value),
           Spec.last_numeric (steps chain) = Some v ->
           ReasonerAgent.determine_final_answer ag chain options = Spec.rule1 v options).
Proof.
  split; [reflexivity|]. split; [vm_compute; reflexivity|].
  split; [vm_compute; reflexivity|].
  intros H.
  specialize (H plain_reasoner text_after_number None (VFloat (Fin 72 "72.0")) eq_refl).
  vm_compute in H. discriminate.
Qed.

(** ** Validation *)

Lemma is_empty_iff (s : string) : Py.is_empty s = true <-> s = EmptyString.
Proof. destruct s; simpl; split; congruence. Qed.

Lemma Qgtb_iff (x y : Q) : Qgtb x y = false <-> x <= y.
Proof.
  split; [apply Qgtb_false|].
  intros H. unfold Qgtb. apply negb_false_iff. now apply Qle_bool_iff.
Qed.

(** C4, as amended. Validation judges an answer valid exactly when it is
    not empty, is not one of the nine status texts, and either matches
    one of the supplied options (equal up to surrounding blanks, or one
    containing the other, letter case apart) or has a first number that,
    read as a float, has a magnitude of at most 1,000,000 and is at most
    100 when the problem mentions a percentage. The number is rounded to
    the nearest binary64 number before it is compared, so a numeral just
    above a bound may pass. An answer without a number passes the last
    test. *)
Theorem validation_verdict (answer_text problem_text : string)
        (options : option (list string)) :
  fst (SelfCorrector.validate_result answer_text problem_text options) = true
  <-> answer_text <> EmptyString
      /\ Py.mem (Py.strip (Py.lower answer_text)) SelfCorrector.status_strings = false
      /\ (Spec.matches_an_option answer_text options
          \/ Spec.leading_number_in_range answer_text problem_text).
Proof.
  unfold SelfCorrector.validate_result.
  destruct (Py.is_empty answer_text) eqn:Eempty.
  { apply is_empty_iff in Eempty. simpl. split; [discriminate | tauto]. }
  assert (Hne : answer_text <> EmptyString).
  { intros H. apply is_empty_iff in H. congruence. }
  destruct (Py.mem (Py.strip (Py.lower answer_text)) SelfCorrector.status_strings) eqn:Es.
  { simpl. split; [discriminate | intros (_ & H & _); discriminate]. }
  destruct (find (SelfCorrector.exact_match answer_text) (olist options)) as [opt|] eqn:Ee.
  { simpl. split; [|reflexivity]. intros _. repeat split; trivial.
    left. apply find_some in Ee. exists opt. tauto. }
  destruct (find (SelfCorrector.partial_match answer_text) (olist options)) as [opt|] eqn:Ep.
  { simpl. split; [|reflexivity]. intros _. repeat split; trivial.
    left. apply find_some in Ep. exists opt. tauto. }
  assert (Hno : ~ Spec.matches_an_option answer_text options).
  { intros (opt & Hin & [H|H]).
    - rewrite (find_none _ _ Ee opt Hin) in H. discriminate.
    - rewrite (find_none _ _ Ep opt Hin) in H. discriminate. }
  unfold Spec.leading_number_in_range, Spec.numbers_of.
  destruct (Py.findall_numbers answer_text) as [|n rest]; cbn [map].
  { simpl. tauto. }
  cbv zeta.
  destruct (Binary64.parse n) as [q r| |negative] eqn:Eparse.
  - cbn [Binary64.abs Binary64.gt_int Spec.magnitude_at_most Spec.at_most].
    destruct (Qle_bool (Qabs q) (inject_Z 1000000)) eqn:Ebig; cbn [negb].
    + apply Qle_bool_iff in Ebig.
      destruct (SelfCorrector.mentions_percentage problem_text) eqn:Epct; cbn [andb].
      * destruct (Qle_bool q (inject_Z 100)) eqn:Ehundred; cbn [negb fst].
        -- apply Qle_bool_iff in Ehundred. split; [|reflexivity].
           intros _. repeat split; trivial. right. split; trivial.
        -- split; [discriminate|].
           intros (_ & _ & [H|[_ H]]); [tauto|].
           specialize (H eq_refl). apply Qle_bool_iff in H. congruence.
      * cbn [fst]. split; [|reflexivity].
        intros _. repeat split; trivial. right. split; [trivial | discriminate].
    + cbn [fst]. split; [discriminate|].
      intros (_ & _ & [H|[H _]]); [tauto|].
      apply Qle_bool_iff in H. congruence.
  - unfold Binary64.parse in Eparse.
    destruct (Binary64.nearest (Py.float_of_string n)); discriminate.
  - cbn [Binary64.abs Binary64.gt_int negb fst Spec.magnitude_at_most].
    split; [discriminate|]. intros (_ & _ & [H|[[] _]]). tauto.
Qed.

(** C4, as stated, fails: the answer "2000000" is judged valid when
    "2000000" is one of the options, although its number exceeds
    1,000,000. *)
Lemma large_number_matching_option_is_valid :
  SelfCorrector.validate_result "2000000" "How many units are produced?"
                                (Some ["2000000"; "500"]%string)
  = (true, None)
  /\ Spec.numbers_of "2000000" = [Fin 2000000 "2000000.0"]
  /\ ~ (forall (answer_text problem_text : string) (options : option (list string)),
           fst (SelfCorrector.validate_result answer_text problem_text options) = true ->
           forall num, In num (Spec.numbers_of answer_text) ->
                       Spec.magnitude_at_most num 1000000).
Proof.
  split; [vm_compute; reflexivity|]. split; [vm_compute; reflexivity|].
  intros H.
  specialize (H "2000000"%string "How many units are produced?"%string
                (Some ["2000000"; "500"]%string) eq_refl (Fin 2000000 "2000000.0")).
  assert (Hin : In (Fin 2000000 "2000000.0") (Spec.numbers_of "2000000"))
    by (vm_compute; now left).
  specialize (H Hin). vm_compute in H. apply H. reflexivity.
Qed.

(** ** Chain verification *)

Lemma verify_chain_samples (chain : ReasoningChain) :
  (map v_confidence (map VerifierAgent64.verify_step (steps chain))
   ++ (if VerifierAgent.no_final_answer chain then [0] else []))%list
  = Spec.samples chain.
Proof. unfold Spec.samples. now rewrite map_map. Qed.

(** C6, as amended. The confidence of chain verification is the mean of
    the per-step verification confidences as the interpreter computes
    it, [sum(...) / len(...)] in binary64 for whatever summation the
    built-in [sum] uses, with one sample 0 more when the final answer is
    absent or is the sentinel, and 0.5 when there is no sample at all; it
    is multiplied by 0.7, in binary64, exactly when an issue was raised.
    The chain is valid exactly when no issue was raised and the
    confidence exceeds the float 0.6. The issues are those of the steps,
    the incompleteness of the chain and the missing answer; the findings
    on the connection of adjacent steps go to the suggestions only. *)
Theorem chain_verification_verdict (py_sum : list Q -> Q) (chain : ReasoningChain) :
  let verdict := fst (VerifierAgent64.verify_chain py_sum chain) in
  let overall := match Spec.float_mean py_sum (Spec.samples chain) with
                 | Some m => m
                 | None => Binary64.literal (5 # 10)
                 end in
  v_confidence verdict
  = match issues verdict with
    | [] => overall
    | _ => Binary64.mul overall (Binary64.literal (7 # 10))
    end
  /\ (is_valid verdict = true
      <-> issues verdict = [] /\ Binary64.literal (6 # 10) < v_confidence verdict)
  /\ issues verdict
     = (Spec.step_issues chain
        ++ (if VerifierAgent.incomplete chain
            then ["Not all sub-problems were addressed"%string] else [])
        ++ (if VerifierAgent.no_final_answer chain
            then ["No valid final answer determined"%string] else []))%list
  /\ suggestions verdict
     = (Spec.step_suggestions chain ++ VerifierAgent.weak_links 1 (steps chain))%list.
Proof.
  cbv zeta. unfold VerifierAgent64.verify_chain.
  cbn [fst v_confidence is_valid issues suggestions].
  rewrite verify_chain_samples.
  unfold Spec.step_issues, Spec.step_suggestions. rewrite !map_map.
  set (found := (List.concat (map (fun st => issues (VerifierAgent64.verify_step st))
                                  (steps chain))
                 ++ (if VerifierAgent.incomplete chain
                     then ["Not all sub-problems were addressed"%string] else [])
                 ++ (if VerifierAgent.no_final_answer chain
                     then ["No valid final answer determined"%string] else []))%list).
  set (overall := match Spec.samples chain with
                  | [] => Binary64.literal (5 # 10)
                  | _ :: _ => Binary64.div (py_sum (Spec.samples chain))
                                           (Binary64.of_nat (List.length (Spec.samples chain)))
                  end).
  assert (Hmean : overall
                  = match Spec.float_mean py_sum (Spec.samples chain) with
                    | Some m => m
                    | None => Binary64.literal (5 # 10)
                    end).
  { subst overall. unfold Spec.float_mean. now destruct (Spec.samples chain). }
  rewrite <- Hmean.
  split; [|split; [|split; reflexivity]].
  - now destruct found.
  - destruct found as [|issue rest]; cbn [List.length Nat.eqb andb].
    + split.
      * intros H. split; [reflexivity|]. now apply Qgtb_true.
      * intros [_ H]. unfold Qgtb. apply negb_true_iff.
        destruct (Qle_bool overall (Binary64.literal (6 # 10))) eqn:E; [|reflexivity].
        apply Qle_bool_iff in E. exfalso. exact (Qlt_not_le _ _ H E).
    + split; [discriminate | intros [H _]; discriminate].
Qed.

(** C6, as stated, fails on a chain without steps that has an answer:
    there is no sample, hence no mean, and the confidence is 0.5,
    whatever the built-in [sum] does. *)
Lemma confidence_without_samples :
  Spec.samples answered_without_steps = []
  /\ (forall py_sum : list Q -> Q,
         Spec.float_mean py_sum (Spec.samples answered_without_steps) = None
         /\ v_confidence (fst (VerifierAgent64.verify_chain py_sum answered_without_steps))
            = 1 # 2)
  /\ ~ (forall (py_sum : list Q -> Q) (chain : ReasoningChain),
           exists m,
             Spec.float_mean py_sum (Spec.samples chain) = Some m
             /\ v_confidence (fst (VerifierAgent64.verify_chain py_sum chain))
                = match issues (fst (VerifierAgent64.verify_chain py_sum chain)) with
                  | [] => m
                  | _ => Binary64.mul m (Binary64.literal (7 # 10))
                  end).
Proof.
  split; [reflexivity|]. split.
  - intros py_sum. split; [reflexivity|]. vm_compute. reflexivity.
  - intros H. destruct (H Binary64.sum_left answered_without_steps) as (m & Hm & _).
    discriminate Hm.
Qed.

(** ** The answer and the status texts *)

Lemma find_app_skip {A : Type} (f : A -> bool) (l1 l2 : list A) :
  (forall x, In x l1 -> f x = false) -> find f (l1 ++ l2)%list = find f l2.
Proof.
  induction l1 as [|a l1 IH]; simpl; intros H; [reflexivity|].
  rewrite (H a (or_introl eq_refl)). apply IH. intros x Hx. apply H. now right.
Qed.

(** The most recent step that has an output. *)
Lemma last_output (l : list ReasoningStep) :
  existsb Spec.has_output l = true ->
  exists before st after v,
    l = (before ++ st :: after)%list
    /\ tool_output st = Some v
    /\ forall s, In s after -> tool_output s = None.
Proof.
  induction l as [|x l IH] using rev_ind; [discriminate|].
  rewrite existsb_app. cbn [existsb]. rewrite orb_false_r.
  unfold Spec.has_output at 2. destruct (tool_output x) as [v|] eqn:E.
  - intros _. exists l, x, [], v. repeat split; trivial. intros s [].
  - rewrite orb_false_r. intros H.
    destruct (IH H) as (before & st & after & v & -> & Hv & Hafter).
    exists before, st, (after ++ [x])%list, v.
    rewrite <- app_assoc. repeat split; trivial.
    intros s Hs. apply in_app_or in Hs. destruct Hs as [Hs|[<-|[]]]; auto.
Qed.

Lemma lower_app (a b : string) : Py.lower (a ++ b) = (Py.lower a ++ Py.lower b)%string.
Proof. induction a as [|c a IH]; cbn; [reflexivity|now rewrite IH]. Qed.

Lemma lstrip_keeps (c : ascii) (a b : string) :
  Py.isspace c = false -> exists a', Py.lstrip (a ++ String c b) = (a' ++ String c b)%string.
Proof.
  intros Hc. induction a as [|x a [a' IH]]; cbn [append Py.lstrip].
  - rewrite Hc. now exists EmptyString.
  - destruct (Py.isspace x); [now exists a'|now exists (String x a)].
Qed.

Lemma reverse_cons (c : ascii) (s : string) :
  Py.reverse (String c s) = (Py.reverse s ++ String c EmptyString)%string.
Proof. exact (reverse_app (String c EmptyString) s). Qed.

Lemma rstrip_keeps (c : ascii) (a b : string) :
  Py.isspace c = false -> exists b', Py.rstrip (a ++ String c b) = (a ++ String c b')%string.
Proof.
  intros Hc. unfold Py.rstrip.
  rewrite reverse_app, reverse_cons, append_assoc. cbn [append].
  destruct (lstrip_keeps c (Py.reverse b) (Py.reverse a) Hc) as [b' ->].
  exists (Py.reverse b').
  rewrite reverse_app, reverse_cons, reverse_involutive, append_assoc. reflexivity.
Qed.

(** A zero in a text is still there in lower case and without the blanks
    around the text. *)
Lemma zero_kept (p : string) :
  Py.contains "0" p = true -> Py.contains "0" (Py.strip (Py.lower p)) = true.
Proof.
  intros H. apply contains_decompose in H. destruct H as (a & b & ->).
  rewrite lower_app. change (Py.lower ("0" ++ b)) with (String "0" (Py.lower b)).
  unfold Py.strip.
  destruct (lstrip_keeps "0" (Py.lower a) (Py.lower b) eq_refl) as [a' ->].
  destruct (rstrip_keeps "0" a' (Py.lower b) eq_refl) as [b' ->].
  apply contains_decompose. now exists a', b'.
Qed.

Lemma prefix_contains (n h : string) : String.prefix n h = true -> Py.contains n h = true.
Proof. intros H. destruct h; cbn [Py.contains]; now rewrite H. Qed.

Lemma zero_is_valid (problem_text : string) (options : option (list string)) :
  fst (SelfCorrector.validate_result "0" problem_text options) = true.
Proof.
  unfold SelfCorrector.validate_result. cbn [Py.is_empty].
  replace (Py.mem (Py.strip (Py.lower "0")) SelfCorrector.status_strings) with false
    by (vm_compute; reflexivity).
  destruct (find (SelfCorrector.exact_match "0") (olist options)); [reflexivity|].
  destruct (find (SelfCorrector.partial_match "0") (olist options)); [reflexivity|].
  replace (Py.findall_numbers "0") with ["0"%string] by (vm_compute; reflexivity).
  cbv zeta.
  replace (Binary64.parse "0") with (Fin 0 "0.0") by (vm_compute; reflexivity).
  cbn [Binary64.abs Binary64.gt_int].
  replace (Qle_bool (Qabs 0) (inject_Z 1000000)) with true by (vm_compute; reflexivity).
  replace (Qle_bool 0 (inject_Z 100)) with true by (vm_compute; reflexivity).
  cbn [negb]. now rewrite andb_false_r.
Qed.

(** An option that the text "0" selects is valid. *)
Lemma zero_option_is_valid (p problem_text : string) (options : option (list string)) :
  In p (olist options) ->
  ReasonerAgent.numeric_option "0" p = true ->
  fst (SelfCorrector.validate_result p problem_text options) = true.
Proof.
  intros Hin Hm.
  assert (Hz : Py.contains "0" p = true).
  { unfold ReasonerAgent.numeric_option, Py.startswith in Hm.
    apply orb_true_iff in Hm. destruct Hm as [Hm|Hm]; [|now apply prefix_contains].
    apply orb_true_iff in Hm. destruct Hm as [Hm|Hm]; [|exact Hm].
    apply String.eqb_eq in Hm. now subst p. }
  unfold SelfCorrector.validate_result.
  destruct (Py.is_empty p) eqn:Ee.
  { apply is_empty_iff in Ee. subst p. discriminate Hz. }
  destruct (Py.mem (Py.strip (Py.lower p)) SelfCorrector.status_strings) eqn:Es.
  { exfalso. apply zero_kept in Hz. apply mem_In in Es.
    cbn [In SelfCorrector.status_strings] in Es.
    repeat (destruct Es as [Es|Es];
            [rewrite <- Es in Hz; vm_compute in Hz; discriminate|]).
    exact Es. }
  destruct (find (SelfCorrector.exact_match p) (olist options)) eqn:Ef; [reflexivity|].
  exfalso. pose proof (find_none _ _ Ef p Hin) as H.
  unfold SelfCorrector.exact_match in H. now rewrite String.eqb_refl in H.
Qed.

(** A number that is false in a condition is printed as "0". *)
Lemma falsy_number_text (v : value) :
  Spec.is_numeric v = true -> Value.truthy v = false ->
  ReasonerAgent.numeric_text v = "0"%string.
Proof.
  destruct v as [n|[q r| |negative]|s]; try discriminate; intros _ H; cbn in H.
  - apply negb_false_iff, Z.eqb_eq in H. now subst n.
  - apply negb_false_iff, Qeq_bool_iff in H.
    unfold ReasonerAgent.numeric_text, Value.is_integer.
    rewrite (Qred_complete q 0 H). cbn [Qred Qden Qnum Z.ggcd snd fst Z.eqb Pos.eqb].
    unfold Value.trunc.
    assert (Hn : Qnum q = 0%Z).
    { unfold Qeq in H. cbn in H. lia. }
    rewrite Hn. reflexivity.
Qed.

Lemma prefer_option_cases (matches : string -> string -> bool) (candidate : string)
      (options : option (list string)) :
  (In (ReasonerAgent.prefer_option matches candidate options) (olist options)
   /\ matches candidate (ReasonerAgent.prefer_option matches candidate options) = true)
  \/ ReasonerAgent.prefer_option matches candidate options = candidate.
Proof.
  unfold ReasonerAgent.prefer_option.
  destruct (find (matches candidate) (olist options)) as [o|] eqn:E; [|now right].
  left. apply find_some in E. exact E.
Qed.

Lemma sentinel_parts (x : string) :
  Spec.sentinel x = false ->
  Py.mem x ReasonerAgent.status_strings = false
  /\ Py.mem (Py.lower x) ["processed"; "calculated"; "verified"]%string = false.
Proof.
  unfold Spec.sentinel, Spec.status_texts, Py.mem. rewrite !existsb_app.
  intros H. apply orb_false_iff in H. destruct H as [H _].
  apply orb_false_iff in H. destruct H as [H1 H2].
  apply orb_false_iff in H1. destruct H1 as [H1 _].
  apply orb_false_iff in H2. destruct H2 as [H2 _].
  split; [exact H1|].
  cbn [existsb ReasonerAgent.status_strings] in H2.
  apply orb_false_iff in H2. destruct H2 as [Ha H2].
  apply orb_false_iff in H2. destruct H2 as [Hb H2].
  apply orb_false_iff in H2. destruct H2 as [Hc _].
  cbn [existsb]. now rewrite Ha, Hb, Hc.
Qed.

Section Provenance.

Variable ag : Reasoner.
Variable problem_text : string.
Variable options : option (list string).
Variable chain : ReasoningChain.
Variables before after : list ReasoningStep.
Variable st : ReasoningStep.
Variable v : value.

Hypothesis Hsteps : steps chain = (before ++ st :: after)%list.
Hypothesis Hafter : forall s, In s after -> tool_output s = None.
Hypothesis Hout : tool_output st = Some v.
Hypothesis Hgenuine : Spec.genuine v = true.

Let genuine_parts :
  Spec.sentinel (ReasonerAgent.numeric_text v) = false
  /\ Spec.sentinel (Value.str v) = false
  /\ (Spec.is_numeric v = false -> Value.truthy v = true).
Proof.
  unfold Spec.genuine in Hgenuine.
  apply andb_true_iff in Hgenuine. destruct Hgenuine as [H Ht].
  apply andb_true_iff in H. destruct H as [H1 H2].
  apply negb_true_iff in H1, H2. repeat split; trivial.
  destruct v; try discriminate. intros _. exact Ht.
Qed.

(** The synthesizer answers from the most recent output. *)
Lemma synthesis_from_last_output :
  let p := ReasonerAgent.determine_final_answer ag chain options in
  (In p (olist options)
   /\ (Spec.is_numeric v = true ->
       ReasonerAgent.numeric_option (ReasonerAgent.numeric_text v) p = true))
  \/ p = ReasonerAgent.numeric_text v.
Proof.
  cbv zeta. unfold ReasonerAgent.determine_final_answer.
  rewrite Hsteps, rev_app_distr. cbn [rev]. rewrite <- app_assoc. cbn [List.app].
  rewrite first_some_app.
  2: { intros s Hs. apply in_rev in Hs. unfold ReasonerAgent.answer_from_output.
       now rewrite (Hafter s Hs). }
  cbn [first_some]. unfold ReasonerAgent.answer_from_output. rewrite Hout.
  destruct genuine_parts as (Hn & Hs & _).
  destruct v as [n|f|s].
  - destruct (prefer_option_cases ReasonerAgent.numeric_option
                (ReasonerAgent.numeric_text (VInt n)) options) as [[H1 H2]|H];
      [left; split; [exact H1|intros _; exact H2] | right; exact H].
  - destruct (prefer_option_cases ReasonerAgent.numeric_option
                (ReasonerAgent.numeric_text (VFloat f)) options) as [[H1 H2]|H];
      [left; split; [exact H1|intros _; exact H2] | right; exact H].
  - cbn [Value.str] in Hs. destruct (sentinel_parts s Hs) as [H19 _]. rewrite H19.
    destruct (prefer_option_cases ReasonerAgent.text_option s options) as [[H1 _]|H];
      [left; split; [exact H1|discriminate] | right; exact H].
Qed.

(** Self-correction answers from the same output. *)
Lemma correction_from_last_output :
  let p := ReasonerAgent.determine_final_answer ag chain options in
  Spec.from_output_or_options
    v options (fst (fst (SelfCorrector.self_correct p problem_text (steps chain) options))).
Proof.
  cbv zeta. pose proof synthesis_from_last_output as Hp. cbv zeta in Hp.
  set (p := ReasonerAgent.determine_final_answer ag chain options) in *.
  assert (Hin : Spec.from_output_or_options v options p).
  { destruct Hp as [[H _]|H]; [now left | right; now left]. }
  unfold SelfCorrector.self_correct.
  destruct (SelfCorrector.validate_result p problem_text options) as [valid msg] eqn:Ev.
  destruct valid; [exact Hin|].
  unfold SelfCorrector.suggest_correction.
  rewrite Hsteps, rev_app_distr. cbn [rev]. rewrite <- app_assoc. cbn [List.app].
  rewrite find_app_skip.
  2: { intros s Hs. apply in_rev in Hs. unfold SelfCorrector.usable_output.
       now rewrite (Hafter s Hs). }
  cbn [find].
  destruct genuine_parts as (Hn & Hs & Ht).
  destruct (SelfCorrector.usable_output st) eqn:Eu.
  - rewrite Hout.
    destruct (find (SelfCorrector.partial_match (Value.str v)) (olist options))
      as [opt|] eqn:Ef.
    + apply find_some in Ef.
      destruct (Py.truthy opt && negb (String.eqb opt p)); cbn [fst];
        [left; tauto | exact Hin].
    + destruct (Py.truthy (Value.str v) && negb (String.eqb (Value.str v) p)); cbn [fst];
        [right; now right | exact Hin].
  - exfalso. unfold SelfCorrector.usable_output in Eu. rewrite Hout in Eu.
    destruct (Spec.is_numeric v) eqn:Enum.
    + assert (Hf : Value.truthy v = false).
      { destruct v; try discriminate; now rewrite andb_true_r in Eu. }
      pose proof (falsy_number_text v Enum Hf) as Hzero.
      assert (Hvalid : fst (SelfCorrector.validate_result p problem_text options) = true).
      { destruct Hp as [[H1 H2]|H].
        - apply zero_option_is_valid; [exact H1|]. rewrite <- Hzero. now apply H2.
        - rewrite H, Hzero. apply zero_is_valid. }
      rewrite Ev in Hvalid. discriminate.
    + destruct v as [n|f|s]; try discriminate. cbn [Value.str] in Hs.
      destruct (sentinel_parts s Hs) as [_ H3].
      rewrite (Ht eq_refl), H3 in Eu. discriminate.
Qed.

End Provenance.

Lemma refine_answer_cases (p : string) (options : option (list string)) :
  In (AgenticReasoningSystem.refine_answer p options) (olist options)
  \/ AgenticReasoningSystem.refine_answer p options = p.
Proof.
  unfold AgenticReasoningSystem.refine_answer.
  destruct (find (AgenticReasoningSystem.same_text p) (olist options)) eqn:E1.
  { left. now apply find_some in E1. }
  destruct (find (AgenticReasoningSystem.inside_option p) (olist options)) eqn:E2.
  { left. now apply find_some in E2. }
  destruct (find (AgenticReasoningSystem.option_inside p) (olist options)) eqn:E3.
  { left. now apply find_some in E3. }
  destruct (if Py.mem p AgenticReasoningSystem.status_strings then None
            else find (AgenticReasoningSystem.shares_word p) (olist options)) eqn:E4.
  { left. destruct (Py.mem p AgenticReasoningSystem.status_strings); [discriminate|].
    now apply find_some in E4. }
  destruct (AgenticReasoningSystem.clearly_invalid p
            && Py.mem "Another answer" (olist options)) eqn:E5; [|now right].
  left. apply andb_true_iff in E5. now apply mem_In.
Qed.

(** What [solve] returns and stores, in terms of the chain before the
    closing phase. *)
Lemma solve_answer (sys : AgenticReasoningSystem.System) (problem_text : string)
      (topic : option string) (options : option (list string)) (elapsed : Q) :
  let ag := AgenticReasoningSystem.reasoner sys in
  let executed := executed_chain ag problem_text (Planner.create_plan problem_text topic)
                                 options in
  let corrected :=
    fst (fst (SelfCorrector.self_correct
                (ReasonerAgent.determine_final_answer ag executed options)
                problem_text (steps executed) options)) in
  let r := fst (AgenticReasoningSystem.solve sys problem_text topic options elapsed) in
  final_answer (reasoning_chain r) = Some corrected
  /\ answer r = AgenticReasoningSystem.refine_answer corrected options.
Proof.
  cbv zeta. unfold AgenticReasoningSystem.solve.
  destruct (conclude_steps (AgenticReasoningSystem.reasoner sys) problem_text options
              (executed_chain (AgenticReasoningSystem.reasoner sys) problem_text
                              (Planner.create_plan problem_text topic) options))
    as [Hfinal _].
  cbv zeta in Hfinal.
  unfold ReasonerAgent.execute_plan.
  fold (executed_chain (AgenticReasoningSystem.reasoner sys) problem_text
                       (Planner.create_plan problem_text topic) options).
  unfold VerifierAgent.verify_chain. cbn [fst snd reasoning_chain answer final_answer].
  rewrite Hfinal. split; reflexivity.
Qed.




(** * Further properties of the backend *)

(** ** Lists and searches *)

Lemma first_some_In {A B : Type} (f : A -> option B) (l : list A) (y : B) :
  first_some f l = Some y -> exists x, In x l /\ f x = Some y.
Proof.
  induction l as [|a l IH]; simpl; [discriminate|].
  destruct (f a) as [b|] eqn:E.
  - intros [= <-]. exists a. auto.
  - intros H. destruct (IH H) as (x & Hx & Hf). exists x. auto.
Qed.

Lemma first_some_none {A B : Type} (f : A -> option B) (l : list A) :
  (forall x, In x l -> f x = None) -> first_some f l = None.
Proof.
  intros H. rewrite <- (app_nil_r l). rewrite first_some_app by exact H. reflexivity.
Qed.

Lemma In_enumerate_from (l : list string) (k i : Z) (o : string) :
  In (i, o) (ReasonerAgent.enumerate_from k l) -> In o l.
Proof.
  revert k. induction l as [|x l IH]; simpl; intros k; [tauto|].
  intros [[= _ <-]|H]; [now left | right; eauto].
Qed.

(** ** Final reconciliation *)

(** Reconciliation never invents an answer: it returns one of the
    supplied options or the preliminary answer itself, and the latter
    whenever no option is supplied. *)
Theorem refine_answer_provenance (p : string) (options : option (list string)) :
  (In (AgenticReasoningSystem.refine_answer p options) (olist options)
   \/ AgenticReasoningSystem.refine_answer p options = p)
  /\ (olist options = [] -> AgenticReasoningSystem.refine_answer p options = p).
Proof.
  unfold AgenticReasoningSystem.refine_answer. split.
  - destruct (find (AgenticReasoningSystem.same_text p) (olist options)) eqn:E1.
    { left. now apply find_some in E1. }
    destruct (find (AgenticReasoningSystem.inside_option p) (olist options)) eqn:E2.
    { left. now apply find_some in E2. }
    destruct (find (AgenticReasoningSystem.option_inside p) (olist options)) eqn:E3.
    { left. now apply find_some in E3. }
    destruct (if Py.mem p AgenticReasoningSystem.status_strings then None
              else find (AgenticReasoningSystem.shares_word p) (olist options)) eqn:E4.
    { left. destruct (Py.mem p AgenticReasoningSystem.status_strings); [discriminate|].
      now apply find_some in E4. }
    destruct (AgenticReasoningSystem.clearly_invalid p
              && Py.mem "Another answer" (olist options)) eqn:E5; [|now right].
    left. apply andb_true_iff in E5. now apply mem_In.
  - intros ->. cbn [find Py.mem existsb].
    rewrite andb_false_r.
    now destruct (Py.mem p AgenticReasoningSystem.status_strings).
Qed.

(** ** Answer synthesis *)

(** The synthesizer never invents an answer: what it returns is one of
    the options, the text of some step's output, some step's result, or
    the sentinel "Unable to determine answer". *)
Theorem determine_final_answer_provenance
        (ag : Reasoner) (chain : ReasoningChain) (options : option (list string)) :
  let a := ReasonerAgent.determine_final_answer ag chain options in
  In a (olist options)
  \/ (exists st v, In st (steps chain) /\ tool_output st = Some v
                   /\ a = ReasonerAgent.numeric_text v)
  \/ (exists st, In st (steps chain) /\ result st = Some a)
  \/ a = ReasonerAgent.unable.
Proof.
  cbv zeta. unfold ReasonerAgent.determine_final_answer.
  destruct (first_some (ReasonerAgent.answer_from_output options) (rev (steps chain)))
    as [a|] eqn:E1.
  { apply first_some_In in E1. destruct E1 as (st & Hst & Ha).
    apply in_rev in Hst. unfold ReasonerAgent.answer_from_output in Ha.
    destruct (tool_output st) as [v|] eqn:Hv; [|discriminate].
    assert (Hpref : forall m c, In (ReasonerAgent.prefer_option m c options) (olist options)
                                \/ ReasonerAgent.prefer_option m c options = c).
    { intros m c. unfold ReasonerAgent.prefer_option.
      destruct (find (m c) (olist options)) eqn:F; [left; now apply find_some in F|now right]. }
    destruct v as [n|f|s].
    - injection Ha as <-. destruct (Hpref ReasonerAgent.numeric_option
                                          (ReasonerAgent.numeric_text (VInt n))) as [H|H].
      + now left.
      + right; left. exists st, (VInt n). repeat split; [assumption | assumption | exact H].
    - injection Ha as <-. destruct (Hpref ReasonerAgent.numeric_option
                                          (ReasonerAgent.numeric_text (VFloat f))) as [H|H].
      + now left.
      + right; left. exists st, (VFloat f). repeat split; [assumption | assumption | exact H].
    - destruct (Py.mem s ReasonerAgent.status_strings); [discriminate|].
      injection Ha as <-. destruct (Hpref ReasonerAgent.text_option s) as [H|H].
      + now left.
      + right; left. exists st, (VStr s). repeat split; [assumption | assumption | exact H]. }
  destruct (first_some (ReasonerAgent.answer_from_result options) (rev (steps chain)))
    as [a|] eqn:E2.
  { apply first_some_In in E2. destruct E2 as (st & Hst & Ha).
    apply in_rev in Hst. unfold ReasonerAgent.answer_from_result, result_of in Ha.
    destruct (result st) as [r|] eqn:Hr; [|discriminate].
    destruct (Py.truthy r && negb (Py.mem r ReasonerAgent.status_strings)); [|discriminate].
    destruct (ReasonerAgent.dimension_list r); [discriminate|].
    destruct (find (ReasonerAgent.result_option r) (olist options)) eqn:F.
    - injection Ha as <-. left. now apply find_some in F.
    - destruct ((2 <? String.length r)%nat
                && negb (Py.mem r ReasonerAgent.status_strings)); [|discriminate].
      injection Ha as <-. right; right; left. exists st. auto. }
  destruct (ReasonerAgent.answer_from_oracle ag (problem_of chain) options) as [a|] eqn:E3.
  { left. unfold ReasonerAgent.answer_from_oracle in E3.
    destruct (olist options) as [|o rest] eqn:Ho; [discriminate|].
    destruct (oracle ag) as [orc|]; [|discriminate].
    destruct (interpret_answer_options orc (problem_of chain) (o :: rest)); [|discriminate].
    destruct (find _ _) as [[i x]|] eqn:F; [|discriminate].
    injection E3 as <-. apply find_some in F. destruct F as [F _].
    now apply In_enumerate_from in F. }
  destruct (olist options) as [|o rest]; [now right; right; right | left; now left].
Qed.

(** When no step holds an output or a result and there is no oracle, the
    answer is the first option, or the sentinel when there are no
    options; this covers the chain without steps. *)
Theorem determine_final_answer_default
        (ag : Reasoner) (chain : ReasoningChain) (options : option (list string)) :
  (forall st, In st (steps chain) -> tool_output st = None /\ result st = None) ->
  oracle ag = None ->
  ReasonerAgent.determine_final_answer ag chain options
  = match olist options with
    | opt :: _ => opt
    | [] => "Unable to determine answer"%string
    end.
Proof.
  intros Hnone Horc. unfold ReasonerAgent.determine_final_answer.
  rewrite first_some_none.
  - rewrite first_some_none.
    + unfold ReasonerAgent.answer_from_oracle. rewrite Horc.
      now destruct (olist options).
    + intros st Hst. apply in_rev in Hst. destruct (Hnone st Hst) as [_ Hr].
      unfold ReasonerAgent.answer_from_result, result_of. now rewrite Hr.
  - intros st Hst. apply in_rev in Hst. destruct (Hnone st Hst) as [Ho _].
    unfold ReasonerAgent.answer_from_output. now rewrite Ho.
Qed.

Lemma determine_final_answer_default_witness :
  ReasonerAgent.determine_final_answer
    plain_reasoner
    (mkChain "Which one?" two_machines_plan
             [mkStep 1 "Apply spatial formulas or logic" EmptyString None None None
                     false (8 # 10)]
             None 0)
    None
  = "Unable to determine answer"%string.
Proof.
  apply (determine_final_answer_default plain_reasoner
           (mkChain "Which one?" two_machines_plan
                    [mkStep 1 "Apply spatial formulas or logic" EmptyString None None None
                            false (8 # 10)]
                    None 0) None).
  - intros st [<-|[]]. split; reflexivity.
  - reflexivity.
Defined.

(** ** Self-correction *)

(** A suggested correction is never invented: it is one of the options,
    the text of some step's output, or some step's result; and a
    suggestion is always made when options are supplied. *)
Theorem suggest_correction_provenance
        (answer_text problem_text : string) (reasoning_steps : list ReasoningStep)
        (options : option (list string)) :
  match SelfCorrector.suggest_correction answer_text problem_text reasoning_steps options with
  | Some s =>
      In s (olist options)
      \/ (exists st v, In st reasoning_steps /\ tool_output st = Some v
                       /\ Value.truthy v = true /\ s = Value.str v)
      \/ (exists st, In st reasoning_steps /\ result st = Some s /\ s <> EmptyString)
  | None => olist options = []
  end.
Proof.
  unfold SelfCorrector.suggest_correction.
  destruct (find SelfCorrector.usable_output (rev reasoning_steps)) as [st|] eqn:E1.
  { apply find_some in E1. destruct E1 as [Hst Hu]. apply in_rev in Hst.
    unfold SelfCorrector.usable_output in Hu.
    destruct (tool_output st) as [v|] eqn:Hv; [|discriminate].
    apply andb_true_iff in Hu. destruct Hu as [Ht _].
    destruct (find _ (olist options)) eqn:F.
    - left. now apply find_some in F.
    - right; left. exists st, v. auto. }
  destruct (find SelfCorrector.usable_result (rev reasoning_steps)) as [st|] eqn:E2.
  { apply find_some in E2. destruct E2 as [Hst Hu]. apply in_rev in Hst.
    unfold SelfCorrector.usable_result, result_of in *.
    destruct (result st) as [r|] eqn:Hr; [|discriminate].
    apply andb_true_iff in Hu. destruct Hu as [Ht _].
    destruct (find _ (olist options)) eqn:F.
    - left. now apply find_some in F.
    - right; right. exists st. repeat split; trivial.
      intros ->. discriminate. }
  destruct (olist options); [reflexivity | left; now left].
Qed.

(** Self-correction leaves an answer that passes validation as it is, with
    an empty reason. Otherwise the answer is kept, or replaced by a
    suggestion that is not empty and differs from it; the confidence is
    always the one computed for the answer returned. *)
Theorem self_correct_keeps_or_replaces
        (p problem_text : string) (reasoning_steps : list ReasoningStep)
        (options : option (list string)) :
  let out := SelfCorrector.self_correct p problem_text reasoning_steps options in
  let a := fst (fst out) in
  let valid := fst (SelfCorrector.validate_result p problem_text options) in
  (if valid then a = p /\ snd (fst out) = EmptyString
   else a = p
        \/ (a <> p /\ a <> EmptyString
            /\ SelfCorrector.suggest_correction p problem_text reasoning_steps options
               = Some a))
  /\ snd out = SelfCorrector.calculate_confidence a problem_text reasoning_steps None.
Proof.
  cbv zeta. unfold SelfCorrector.self_correct.
  destruct (SelfCorrector.validate_result p problem_text options) as [valid msg].
  cbn [fst]. destruct valid; cbn [fst snd]; [now repeat split|].
  destruct (SelfCorrector.suggest_correction p problem_text reasoning_steps options)
    as [s|]; cbn [fst snd]; [|split; [now left | reflexivity]].
  destruct (Py.truthy s && negb (String.eqb s p)) eqn:E; cbn [fst snd];
    [|split; [now left | reflexivity]].
  apply andb_true_iff in E. destruct E as [Ht Hne].
  apply negb_true_iff, String.eqb_neq in Hne.
  split; [|reflexivity]. right. repeat split; trivial.
  intros ->. discriminate.
Qed.

(** ** Step and chain verification *)

Lemma verify_step_issues (st : ReasoningStep) (issue : string) :
  In issue (issues (VerifierAgent.verify_step st)) ->
  issue = "Step produced no result"%string
  \/ issue = "Tool output is NaN or infinite"%string.
Proof.
  unfold VerifierAgent.verify_step. cbn [issues].
  destruct (negb (struthy (result_of st)) && negb (Value.otruthy (tool_output st)));
    destruct (Value.otruthy (tool_output st)
              && VerifierAgent.is_special_float (tool_output st));
    simpl; intuition congruence.
Qed.

(** Step verification in binary64 reports one of eight confidences, from
    0.09999999999999998, which is what [0.3 - 0.1 - 0.1] gives and is
    below 0.1, up to 0.8. A step it judges valid has no issue and a
    confidence of at least 0.6000000000000001, which is what
    [0.8 - 0.1 - 0.1] gives and is above 0.6; a step with neither a result
    nor an output is judged invalid, with a confidence of at most 0.3 and
    the issue "Step produced no result". *)
Theorem verify_step_verdict (st : ReasoningStep) :
  let r := VerifierAgent64.verify_step st in
  let c := Binary64.literal in
  let lowest := Binary64.sub (Binary64.sub (c (3 # 10)) (c (1 # 10))) (c (1 # 10)) in
  let passing := Binary64.sub (Binary64.sub (c (8 # 10)) (c (1 # 10))) (c (1 # 10)) in
  In (v_confidence r)
     [c (8 # 10); Binary64.sub (c (8 # 10)) (c (1 # 10)); passing;
      c (3 # 10); Binary64.sub (c (3 # 10)) (c (1 # 10)); lowest;
      c (2 # 10); Binary64.sub (c (2 # 10)) (c (1 # 10))]
  /\ lowest <= v_confidence r <= c (8 # 10)
  /\ lowest < 1 # 10
  /\ 6 # 10 < passing
  /\ (is_valid r = true -> issues r = [] /\ passing <= v_confidence r)
  /\ (struthy (result st) = false -> Value.otruthy (tool_output st) = false ->
      is_valid r = false /\ v_confidence r <= c (3 # 10)
      /\ issues r = ["Step produced no result"%string]).
Proof.
  cbv zeta. unfold VerifierAgent64.verify_step, result_of.
  destruct (struthy (result st)) eqn:Hr;
    destruct (Value.otruthy (tool_output st)) eqn:Ho;
    destruct (VerifierAgent.is_special_float (tool_output st));
    destruct (Py.contains "calculate" (Py.lower (action st)) && negb (struthy (tool_used st)));
    destruct (Py.is_empty (thought st) || (String.length (thought st) <? 10)%nat).
  all: clear; vm_compute.
  all: repeat split; try discriminate; try (intros; discriminate); tauto.
Qed.

Lemma verify_chain_issues (chain : ReasoningChain) (issue : string) :
  In issue (issues (fst (VerifierAgent.verify_chain chain))) ->
  In issue ["Step produced no result"; "Tool output is NaN or infinite";
            "Not all sub-problems were addressed";
            "No valid final answer determined"]%string.
Proof.
  unfold VerifierAgent.verify_chain. cbn [fst issues]. intros H.
  apply in_app_or in H. destruct H as [H|H].
  - apply in_concat in H. destruct H as (l & Hl & Hin).
    rewrite map_map in Hl. apply in_map_iff in Hl. destruct Hl as (st & <- & _).
    destruct (verify_step_issues st issue Hin) as [->| ->]; simpl; tauto.
  - apply in_app_or in H. destruct H as [H|H].
    + destruct (VerifierAgent.incomplete chain); [|destruct H].
      destruct H as [<-|[]]. simpl; tauto.
    + destruct (VerifierAgent.no_final_answer chain); [|destruct H].
      destruct H as [<-|[]]. simpl; tauto.
Qed.

(** A chain with fewer steps than its plan has sub-problems, or without a
    final answer (none, empty, or the sentinel), is never judged valid,
    whatever its steps are and whatever the built-in [sum] does: an issue
    is raised, and the confidence is the mean of the samples, or 0.5 when
    there is none, multiplied by 0.7 in binary64. A chain without a final
    answer always has a sample. *)
Theorem verify_chain_rejects (py_sum : list Q -> Q) (chain : ReasoningChain) :
  VerifierAgent.incomplete chain = true \/ VerifierAgent.no_final_answer chain = true ->
  let verdict := fst (VerifierAgent64.verify_chain py_sum chain) in
  let overall := match Spec.float_mean py_sum (Spec.samples chain) with
                 | Some m => m
                 | None => Binary64.literal (5 # 10)
                 end in
  is_valid verdict = false
  /\ issues verdict <> []
  /\ v_confidence verdict = Binary64.mul overall (Binary64.literal (7 # 10))
  /\ (VerifierAgent.no_final_answer chain = true -> Spec.samples chain <> []).
Proof.
  intros H. cbv zeta.
  assert (Hs : VerifierAgent.no_final_answer chain = true -> Spec.samples chain <> []).
  { intros Hn E. unfold Spec.samples in E. rewrite Hn in E.
    apply app_eq_nil in E. destruct E as [_ E]. discriminate E. }
  unfold VerifierAgent64.verify_chain. cbn [fst v_confidence is_valid issues].
  rewrite verify_chain_samples.
  match goal with
  | |- context [match ?found with [] => ?o | _ => _ end] =>
      assert (Hfound : found <> []);
      [|destruct found as [|issue rest]; [congruence|]]
  end.
  - destruct H as [H|H]; rewrite H; intros E;
      apply app_eq_nil in E; destruct E as [_ E];
      apply app_eq_nil in E; destruct E as [E1 E2];
      first [discriminate E1 | discriminate E2].
  - cbn [List.length Nat.eqb andb]. split; [reflexivity|]. split; [discriminate|].
    split; [|exact Hs].
    unfold Spec.float_mean. destruct (Spec.samples chain); reflexivity.
Qed.

Lemma verify_chain_rejects_witness :
  let chain := ReasonerAgent.execute_plan plain_reasoner buttons
                 (Planner.create_plan buttons None) None in
  let verdict := fst (VerifierAgent64.verify_chain Binary64.sum_left chain) in
  let overall := match Spec.float_mean Binary64.sum_left (Spec.samples chain) with
                 | Some m => m
                 | None => Binary64.literal (5 # 10)
                 end in
  is_valid verdict = false
  /\ issues verdict <> []
  /\ v_confidence verdict = Binary64.mul overall (Binary64.literal (7 # 10))
  /\ (VerifierAgent.no_final_answer chain = true -> Spec.samples chain <> []).
Proof.
  apply (verify_chain_rejects
           Binary64.sum_left
           (ReasonerAgent.execute_plan plain_reasoner buttons
              (Planner.create_plan buttons None) None)).
  right. vm_compute. reflexivity.
Defined.

Lemma verify_step_mark (st : ReasoningStep) :
  VerifierAgent.verify_step (VerifierAgent.mark st) = VerifierAgent.verify_step st.
Proof. destruct st. reflexivity. Qed.

Lemma mark_mark (st : ReasoningStep) :
  VerifierAgent.mark (VerifierAgent.mark st) = VerifierAgent.mark st.
Proof.
  unfold VerifierAgent.mark at 1. rewrite verify_step_mark. now destruct st.
Qed.

Lemma weak_links_mark (l : list ReasoningStep) (i : Z) :
  VerifierAgent.weak_links i (map VerifierAgent.mark l) = VerifierAgent.weak_links i l.
Proof.
  revert i. induction l as [|a [|b r] IH]; intros i; try reflexivity.
  change (map VerifierAgent.mark (a :: b :: r))
    with (VerifierAgent.mark a :: map VerifierAgent.mark (b :: r)).
  cbn [VerifierAgent.weak_links map] in *.
  rewrite <- (IH (i + 1)%Z). cbn [map].
  now destruct a, b.
Qed.

(** Verifying a chain that has already been verified changes nothing: the
    verdict is the same and the marks on the steps stay as they are. The
    verifier reads neither [verified] nor [confidence]. *)
Theorem reverification_is_idempotent (chain : ReasoningChain) :
  VerifierAgent.verify_chain (snd (VerifierAgent.verify_chain chain))
  = VerifierAgent.verify_chain chain.
Proof.
  unfold VerifierAgent.verify_chain at 1 3.
  unfold VerifierAgent.verify_chain, VerifierAgent.incomplete,
    VerifierAgent.no_final_answer, plan_of, problem_of.
  cbn [snd steps plan problem final_answer overall_confidence].
  rewrite weak_links_mark, length_map.
  assert (Hres : map VerifierAgent.verify_step (map VerifierAgent.mark (steps chain))
                 = map VerifierAgent.verify_step (steps chain)).
  { rewrite map_map. apply map_ext. apply verify_step_mark. }
  assert (Hmark : map VerifierAgent.mark (map VerifierAgent.mark (steps chain))
                  = map VerifierAgent.mark (steps chain)).
  { rewrite map_map. apply map_ext. apply mark_mark. }
  rewrite Hres, Hmark. reflexivity.
Qed.

(** ** The pipeline as a whole *)

Lemma create_plan_four (problem_text : string) (topic : option string) :
  List.length (sub_problems (Planner.create_plan problem_text topic)) = 4%nat.
Proof.
  unfold Planner.create_plan. cbn [sub_problems].
  now destruct (Planner.classify_problem problem_text topic).
Qed.

Lemma solve_chain (sys : AgenticReasoningSystem.System) (problem_text : string)
      (topic : option string) (options : option (list string)) (elapsed : Q) :
  reasoning_chain (fst (AgenticReasoningSystem.solve sys problem_text topic options elapsed))
  = snd (VerifierAgent.verify_chain
           (ReasonerAgent.execute_plan (AgenticReasoningSystem.reasoner sys) problem_text
              (Planner.create_plan problem_text topic) options))
  /\ verification (fst (AgenticReasoningSystem.solve sys problem_text topic options elapsed))
     = fst (VerifierAgent.verify_chain
              (ReasonerAgent.execute_plan (AgenticReasoningSystem.reasoner sys) problem_text
                 (Planner.create_plan problem_text topic) options)).
Proof.
  unfold AgenticReasoningSystem.solve.
  destruct (VerifierAgent.verify_chain _) as [v c]. split; reflexivity.
Qed.

Lemma execute_plan_plan (ag : Reasoner) (full_problem : string) (the_plan : ReasoningPlan)
      (options : option (list string)) :
  plan (ReasonerAgent.execute_plan ag full_problem the_plan options) = the_plan.
Proof.
  unfold ReasonerAgent.execute_plan, ReasonerAgent.conclude.
  fold (executed_chain ag full_problem the_plan options).
  rewrite executed_chain_frame.
  destruct (SelfCorrector.self_correct _ _ _ _) as [[a r] c].
  now destruct (String.eqb a _).
Qed.

Lemma execute_plan_length (ag : Reasoner) (full_problem : string) (the_plan : ReasoningPlan)
      (options : option (list string)) :
  let n := List.length (sub_problems the_plan) in
  let m := List.length (steps (ReasonerAgent.execute_plan ag full_problem the_plan options)) in
  m = n \/ m = S n.
Proof.
  cbv zeta.
  pose proof (execute_plan_steps ag full_problem the_plan options) as Hsteps.
  cbv zeta in Hsteps. rewrite Hsteps, length_app.
  destruct (executed_chain_steps ag full_problem the_plan options) as [-> _].
  destruct (String.eqb _ _); simpl; lia.
Qed.

(** Every call of [solve] works on a plan of exactly four sub-problems and
    returns a chain of four or five steps, which verification never finds
    incomplete. *)
Theorem solve_chain_is_complete (sys : AgenticReasoningSystem.System)
        (problem_text : string) (topic : option string) (options : option (list string))
        (elapsed : Q) :
  let r := fst (AgenticReasoningSystem.solve sys problem_text topic options elapsed) in
  List.length (sub_problems (plan (reasoning_chain r))) = 4%nat
  /\ (List.length (steps (reasoning_chain r)) = 4%nat
      \/ List.length (steps (reasoning_chain r)) = 5%nat)
  /\ ~ In "Not all sub-problems were addressed"%string (issues (verification r)).
Proof.
  cbv zeta.
  destruct (solve_chain sys problem_text topic options elapsed) as [-> ->].
  set (ag := AgenticReasoningSystem.reasoner sys).
  set (the_plan := Planner.create_plan problem_text topic).
  pose proof (execute_plan_length ag problem_text the_plan options) as Hlen.
  pose proof (execute_plan_plan ag problem_text the_plan options) as Hplan.
  pose proof (create_plan_four problem_text topic) as Hfour. fold the_plan in Hfour.
  cbv zeta in Hlen. rewrite Hfour in Hlen.
  unfold VerifierAgent.verify_chain.
  cbn [fst snd plan steps issues plan_of]. unfold plan_of. rewrite Hplan, length_map.
  split; [exact Hfour|]. split; [exact Hlen|].
  unfold VerifierAgent.incomplete, plan_of. rewrite Hplan, Hfour.
  replace (List.length (steps (ReasonerAgent.execute_plan ag problem_text the_plan options))
           <? 4)%nat with false
    by (symmetry; apply Nat.ltb_ge; lia).
  intros Hin. cbn [List.app] in Hin. apply in_app_or in Hin. destruct Hin as [Hin|Hin].
  - apply in_concat in Hin. destruct Hin as (l & Hl & Hin).
    rewrite map_map in Hl. apply in_map_iff in Hl. destruct Hl as (st & <- & _).
    destruct (verify_step_issues st _ Hin) as [E|E]; discriminate E.
  - destruct (VerifierAgent.no_final_answer _); [|destruct Hin].
    destruct Hin as [E|[]]. discriminate E.
Qed.

Lemma filter_nil {A : Type} (f : A -> bool) (l : list A) :
  (forall x, In x l -> f x = false) -> filter f l = [].
Proof.
  induction l as [|a l IH]; intros H; [reflexivity|]. simpl.
  rewrite (H a (or_introl eq_refl)). apply IH. intros x Hx. apply H. now right.
Qed.

Lemma verify_chain_issues_agree (py_sum : list Q -> Q) (chain : ReasoningChain) :
  issues (fst (VerifierAgent64.verify_chain py_sum chain))
  = issues (fst (VerifierAgent.verify_chain chain)).
Proof.
  unfold VerifierAgent64.verify_chain, VerifierAgent.verify_chain. cbn [fst issues].
  rewrite !map_map. reflexivity.
Qed.

(** The penalty of [calculate_confidence_score] for critical issues never
    applies to what [verify_chain] reports, for any chain: every issue is
    one of four fixed texts, none of which contains "error", so that the
    fourth factor is always 1.0. The issues do not depend on the
    arithmetic of the confidences. In [solve] the chain moreover has at
    least as many steps as its plan, which is not empty, has sub-problems,
    so that the plan-completion factor is 1.0 as well. *)
Theorem critical_issue_penalty_is_dead :
  (forall (py_sum : list Q -> Q) (chain : ReasoningChain) (issue : string),
      In issue (issues (fst (VerifierAgent64.verify_chain py_sum chain))) ->
      In issue ["Step produced no result"; "Tool output is NaN or infinite";
                "Not all sub-problems were addressed";
                "No valid final answer determined"]%string
      /\ Py.contains "error" (Py.lower issue) = false)
  /\ (forall (py_sum : list Q -> Q) (chain : ReasoningChain),
         filter (fun issue => Py.contains "error" (Py.lower issue))
                (issues (fst (VerifierAgent64.verify_chain py_sum chain))) = [])
  /\ (forall (sys : AgenticReasoningSystem.System) (problem_text : string)
             (topic : option string) (options : option (list string)) (elapsed : Q),
         let r := fst (AgenticReasoningSystem.solve sys problem_text topic options elapsed) in
         let concluded :=
           ReasonerAgent.execute_plan (AgenticReasoningSystem.reasoner sys) problem_text
                                      (Planner.create_plan problem_text topic) options in
         (forall py_sum : list Q -> Q,
             issues (verification r)
             = issues (fst (VerifierAgent64.verify_chain py_sum concluded)))
         /\ filter (fun issue => Py.contains "error" (Py.lower issue))
                   (issues (verification r)) = []
         /\ sub_problems (plan (reasoning_chain r)) <> []
         /\ (List.length (sub_problems (plan (reasoning_chain r)))
             <= List.length (steps (reasoning_chain r)))%nat).
Proof.
  assert (H1 : forall (py_sum : list Q -> Q) (chain : ReasoningChain) (issue : string),
             In issue (issues (fst (VerifierAgent64.verify_chain py_sum chain))) ->
             In issue ["Step produced no result"; "Tool output is NaN or infinite";
                       "Not all sub-problems were addressed";
                       "No valid final answer determined"]%string
             /\ Py.contains "error" (Py.lower issue) = false).
  { intros py_sum chain issue Hin. rewrite verify_chain_issues_agree in Hin.
    pose proof (verify_chain_issues chain issue Hin) as H.
    split; [exact H|]. simpl in H.
    destruct H as [<-|[<-|[<-|[<-|[]]]]]; vm_compute; reflexivity. }
  assert (H2 : forall (py_sum : list Q -> Q) (chain : ReasoningChain),
             filter (fun issue => Py.contains "error" (Py.lower issue))
                    (issues (fst (VerifierAgent64.verify_chain py_sum chain))) = []).
  { intros py_sum chain. apply filter_nil. intros issue Hin. now apply H1 in Hin. }
  split; [exact H1|]. split; [exact H2|].
  intros sys problem_text topic options elapsed. cbv zeta.
  destruct (solve_chain sys problem_text topic options elapsed) as [-> ->].
  split; [intros py_sum; symmetry; apply verify_chain_issues_agree|].
  split; [rewrite <- (verify_chain_issues_agree (fun _ => 0)); apply H2|].
  set (ag := AgenticReasoningSystem.reasoner sys).
  set (the_plan := Planner.create_plan problem_text topic).
  pose proof (execute_plan_length ag problem_text the_plan options) as Hlen.
  pose proof (execute_plan_plan ag problem_text the_plan options) as Hplan.
  pose proof (create_plan_four problem_text topic) as Hfour. fold the_plan in Hfour.
  cbv zeta in Hlen.
  unfold VerifierAgent.verify_chain. cbn [snd plan steps]. unfold plan_of.
  rewrite Hplan, length_map. split.
  - intros E. rewrite E in Hfour. discriminate.
  - lia.
Qed.

(** ** The planner *)

(** A topic that, in lower case and with underscores for spaces, is the
    name of a problem type selects that type, whatever the problem says. *)
Theorem classify_by_topic (problem_text topic : string) (t : ProblemType) :
  Planner.spaces_to_underscores (Py.lower topic) = Planner.type_value t ->
  Planner.classify_problem problem_text (Some topic) = t.
Proof.
  intros H. unfold Planner.classify_problem.
  assert (Ht : Py.truthy topic = true).
  { destruct topic; [|reflexivity]. destruct t; discriminate H. }
  rewrite Ht, H. destruct t; vm_compute; reflexivity.
Qed.

Lemma classify_by_topic_witness :
  Planner.classify_problem "What comes next?" (Some "Lateral Thinking"%string)
  = LATERAL_THINKING.
Proof.
  apply (classify_by_topic "What comes next?" "Lateral Thinking" LATERAL_THINKING).
  vm_compute. reflexivity.
Defined.

(** Without a topic the planner picks a type whose keyword score is the
    highest, the earliest such type in the order of the enumeration, and
    falls back on LOGICAL when no keyword of any type occurs. *)
Theorem classify_by_keywords (problem_text : string) :
  let score := Planner.score (Py.lower problem_text) in
  let t := Planner.classify_problem problem_text None in
  (forall t', score t' = 0%nat) /\ t = LOGICAL
  \/ (0 < score t)%nat
     /\ (forall t', (score t' <= score t)%nat)
     /\ (forall t', score t' = score t -> (type_index t <= type_index t')%nat).
Proof.
  cbv zeta. unfold Planner.classify_problem.
  cbn [Planner.all_types tl Planner.argmax_first].
  set (score := Planner.score (Py.lower problem_text)).
  destruct (Nat.ltb_spec (score SPATIAL_REASONING) (score MATHEMATICAL)); cbv iota;
    match goal with
    | |- context [(score ?x <? score LOGICAL)%nat] =>
        destruct (Nat.ltb_spec (score x) (score LOGICAL)); cbv iota
    end;
    match goal with
    | |- context [(score ?x <? score SEQUENCE)%nat] =>
        destruct (Nat.ltb_spec (score x) (score SEQUENCE)); cbv iota
    end;
    match goal with
    | |- context [(score ?x <? score OPTIMIZATION)%nat] =>
        destruct (Nat.ltb_spec (score x) (score OPTIMIZATION)); cbv iota
    end;
    match goal with
    | |- context [(score ?x <? score LATERAL_THINKING)%nat] =>
        destruct (Nat.ltb_spec (score x) (score LATERAL_THINKING)); cbv iota
    end;
    match goal with
    | |- context [(score ?x <? score CLASSIC_RIDDLE)%nat] =>
        destruct (Nat.ltb_spec (score x) (score CLASSIC_RIDDLE)); cbv iota
    end;
    match goal with
    | |- context [(0 <? score ?x)%nat] =>
        destruct (Nat.ltb_spec 0 (score x)); cbv iota
    end;
    first [ right; split; [assumption|]; split; intros []; cbn [type_index]; lia
          | left; split; [intros []; lia | reflexivity] ].
Qed.

(** ** The cache, batches and statistics *)

Lemma cache_lookup_store_other (key other : string) (r : SolutionResult)
      (cache : list (string * SolutionResult)) :
  other <> key ->
  AgenticReasoningSystem.cache_lookup other (AgenticReasoningSystem.cache_store key r cache)
  = AgenticReasoningSystem.cache_lookup other cache.
Proof.
  intros Hne. induction cache as [|[k old] rest IH]; simpl.
  - destruct (String.eqb key other) eqn:E; [|reflexivity].
    apply String.eqb_eq in E. congruence.
  - destruct (String.eqb k key) eqn:E; simpl.
    + apply String.eqb_eq in E. subst k.
      destruct (String.eqb key other) eqn:E'; [|reflexivity].
      apply String.eqb_eq in E'. congruence.
    + now rewrite IH.
Qed.

Lemma cache_store_keys_in (key k : string) (r : SolutionResult)
      (cache : list (string * SolutionResult)) :
  In k (map fst (AgenticReasoningSystem.cache_store key r cache))
  <-> k = key \/ In k (map fst cache).
Proof.
  induction cache as [|[k' old] rest IH]; simpl.
  - intuition.
  - destruct (String.eqb k' key) eqn:E; simpl.
    + apply String.eqb_eq in E. subst k'. intuition.
    + rewrite IH. intuition.
Qed.

Lemma cache_store_nodup (key : string) (r : SolutionResult)
      (cache : list (string * SolutionResult)) :
  NoDup (map fst cache) -> NoDup (map fst (AgenticReasoningSystem.cache_store key r cache)).
Proof.
  induction cache as [|[k old] rest IH]; simpl; intros H.
  - constructor; [intros []|constructor].
  - inversion H as [|? ? Hnot Hrest]; subst.
    destruct (String.eqb k key) eqn:E; simpl.
    + constructor; assumption.
    + constructor; [|now apply IH].
      rewrite cache_store_keys_in. intros [->|Hin]; [|contradiction].
      rewrite String.eqb_refl in E. discriminate.
Qed.

Lemma cache_store_entries (key : string) (r x : SolutionResult) (k : string)
      (cache : list (string * SolutionResult)) :
  In (k, x) (AgenticReasoningSystem.cache_store key r cache) ->
  x = r \/ In (k, x) cache.
Proof.
  induction cache as [|[k' old] rest IH]; simpl.
  - intros [[= _ <-]|[]]. now left.
  - destruct (String.eqb k' key); simpl.
    + intros [[= _ <-]|H]; auto.
    + intros [H|H]; auto. destruct (IH H); auto.
Qed.

Lemma cache_store_length (key : string) (r : SolutionResult)
      (cache : list (string * SolutionResult)) :
  (List.length (AgenticReasoningSystem.cache_store key r cache) <= S (List.length cache))%nat.
Proof.
  induction cache as [|[k old] rest IH]; simpl; [lia|].
  destruct (String.eqb k key); simpl; lia.
Qed.

Lemma cache_store_grows (key : string) (r : SolutionResult)
      (cache : list (string * SolutionResult)) :
  (1 <= List.length (AgenticReasoningSystem.cache_store key r cache))%nat
  /\ (List.length cache <= List.length (AgenticReasoningSystem.cache_store key r cache))%nat.
Proof.
  induction cache as [|[k old] rest IH]; simpl; [lia|].
  destruct (String.eqb k key); simpl; lia.
Qed.

Lemma solve_state (sys : AgenticReasoningSystem.System) (problem_text : string)
      (topic : option string) (options : option (list string)) (elapsed : Q) :
  let out := AgenticReasoningSystem.solve sys problem_text topic options elapsed in
  AgenticReasoningSystem.reasoner (snd out) = AgenticReasoningSystem.reasoner sys
  /\ AgenticReasoningSystem.solution_cache (snd out)
     = AgenticReasoningSystem.cache_store problem_text (fst out)
         (AgenticReasoningSystem.solution_cache sys).
Proof.
  cbv zeta. unfold AgenticReasoningSystem.solve.
  destruct (VerifierAgent.verify_chain _) as [v c]. split; reflexivity.
Qed.

Lemma solve_result_independent (sys sys' : AgenticReasoningSystem.System)
      (problem_text : string) (topic : option string) (options : option (list string))
      (elapsed : Q) :
  AgenticReasoningSystem.reasoner sys' = AgenticReasoningSystem.reasoner sys ->
  fst (AgenticReasoningSystem.solve sys' problem_text topic options elapsed)
  = fst (AgenticReasoningSystem.solve sys problem_text topic options elapsed).
Proof.
  intros H. unfold AgenticReasoningSystem.solve. rewrite H.
  destruct (VerifierAgent.verify_chain _) as [v c]. reflexivity.
Qed.

(** A call of [solve] overwrites the cache entry of its own problem only:
    the entry of every other problem is as before, the new entry is the
    result returned, and no problem text comes to occur twice. *)
Theorem solve_keeps_other_entries (sys : AgenticReasoningSystem.System)
        (problem_text other : string) (topic : option string)
        (options : option (list string)) (elapsed : Q) :
  let out := AgenticReasoningSystem.solve sys problem_text topic options elapsed in
  (other <> problem_text ->
   AgenticReasoningSystem.cache_lookup other (AgenticReasoningSystem.solution_cache (snd out))
   = AgenticReasoningSystem.cache_lookup other (AgenticReasoningSystem.solution_cache sys))
  /\ AgenticReasoningSystem.cache_lookup problem_text
       (AgenticReasoningSystem.solution_cache (snd out)) = Some (fst out)
  /\ (NoDup (map fst (AgenticReasoningSystem.solution_cache sys)) ->
      NoDup (map fst (AgenticReasoningSystem.solution_cache (snd out)))).
Proof.
  cbv zeta.
  destruct (solve_state sys problem_text topic options elapsed) as [_ ->].
  split; [|split].
  - intros H. now apply cache_lookup_store_other.
  - apply cache_lookup_store.
  - apply cache_store_nodup.
Qed.

(** [solve_batch] returns one result per entry, in the order of the
    entries, and each result is the one [solve] gives for that entry on
    the system as it was before the batch: earlier entries of the batch
    have no influence. An entry without the key ['problem'] is solved as
    the empty problem. *)
Theorem solve_batch_results (elapsed : nat -> Q) (sys : AgenticReasoningSystem.System)
        (problems : list Batch.problem_data) :
  fst (Batch.solve_batch elapsed sys problems)
  = map (fun ip : nat * Batch.problem_data =>
           fst (AgenticReasoningSystem.solve
                  sys (text_of (Batch.pd_problem (snd ip))) (Batch.pd_topic (snd ip))
                  (Batch.pd_options (snd ip)) (elapsed (fst ip))))
        (combine (seq 0 (List.length problems)) problems)
  /\ List.length (fst (Batch.solve_batch elapsed sys problems)) = List.length problems
  /\ AgenticReasoningSystem.reasoner (snd (Batch.solve_batch elapsed sys problems))
     = AgenticReasoningSystem.reasoner sys.
Proof.
  unfold Batch.solve_batch.
  assert (H : forall problems i sys',
             AgenticReasoningSystem.reasoner sys' = AgenticReasoningSystem.reasoner sys ->
             fst (Batch.solve_batch_from i elapsed sys' problems)
             = map (fun ip : nat * Batch.problem_data =>
                      fst (AgenticReasoningSystem.solve
                             sys (text_of (Batch.pd_problem (snd ip)))
                             (Batch.pd_topic (snd ip)) (Batch.pd_options (snd ip))
                             (elapsed (fst ip))))
                   (combine (seq i (List.length problems)) problems)
             /\ AgenticReasoningSystem.reasoner
                  (snd (Batch.solve_batch_from i elapsed sys' problems))
                = AgenticReasoningSystem.reasoner sys).
  { clear problems. induction problems as [|pd rest IH]; intros i sys' Hr.
    - split; [reflexivity | exact Hr].
    - cbn [Batch.solve_batch_from].
      pose proof (solve_state sys' (text_of (Batch.pd_problem pd)) (Batch.pd_topic pd)
                              (Batch.pd_options pd) (elapsed i)) as Hst.
      pose proof (solve_result_independent sys sys' (text_of (Batch.pd_problem pd))
                    (Batch.pd_topic pd) (Batch.pd_options pd) (elapsed i) Hr) as Hres.
      cbv zeta in Hst.
      destruct (AgenticReasoningSystem.solve sys' _ _ _ _) as [r sys''].
      cbn [fst snd] in *. destruct Hst as [Hst _].
      destruct (IH (S i) sys'') as [IH1 IH2]; [congruence|].
      destruct (Batch.solve_batch_from (S i) elapsed sys'' rest) as [results sys3].
      cbn [fst snd] in *. split; [|exact IH2].
      cbn [List.length seq combine map fst snd]. now rewrite Hres, IH1. }
  destruct (H problems O sys eq_refl) as [H1 H2].
  split; [exact H1|]. split; [|exact H2].
  rewrite H1, length_map, length_combine, length_seq. lia.
Qed.

Lemma bands_partition (l : list SolutionResult) :
  (Batch.count_if (fun r => Qgtb (s_confidence r) (8 # 10)) l
   + Batch.count_if (fun r => Qle_bool (6 # 10) (s_confidence r)
                              && Qle_bool (s_confidence r) (8 # 10)) l
   + Batch.count_if (fun r => Qltb (s_confidence r) (6 # 10)) l)%nat
  = List.length l.
Proof.
  unfold Batch.count_if. induction l as [|r l IH]; [reflexivity|].
  cbn [filter List.length]. unfold Qgtb, Qltb in *.
  destruct (Qle_bool (s_confidence r) (8 # 10)) eqn:Hhi;
    destruct (Qle_bool (6 # 10) (s_confidence r)) eqn:Hlo;
    cbn [negb andb List.length]; try lia.
  exfalso.
  assert (H1 : ~ s_confidence r <= 8 # 10)
    by (intros H; apply Qle_bool_iff in H; congruence).
  assert (H2 : ~ 6 # 10 <= s_confidence r)
    by (intros H; apply Qle_bool_iff in H; congruence).
  apply Qnot_le_lt in H1, H2. lra.
Qed.

(** [get_statistics] returns the empty dictionary exactly when nothing has
    been solved. Otherwise the total counts the cached results, and the
    three confidence bands (above 0.8, from 0.6 to 0.8, below 0.6) share
    them out: every result is counted in exactly one band. *)
Theorem statistics_bands_partition (sys : AgenticReasoningSystem.System) :
  match Batch.get_statistics sys with
  | None => AgenticReasoningSystem.solution_cache sys = []
  | Some s =>
      Batch.total_problems s = List.length (AgenticReasoningSystem.solution_cache sys)
      /\ (0 < Batch.total_problems s)%nat
      /\ (Batch.high_confidence_count s + Batch.medium_confidence_count s
          + Batch.low_confidence_count s)%nat = Batch.total_problems s
  end.
Proof.
  unfold Batch.get_statistics.
  destruct (AgenticReasoningSystem.solution_cache sys) as [|e rest] eqn:E; [reflexivity|].
  cbn [Batch.total_problems Batch.high_confidence_count Batch.medium_confidence_count
       Batch.low_confidence_count].
  rewrite bands_partition, length_map. cbn [List.length]. repeat split; lia.
Qed.

(** What a batch run does to the cache. *)
Lemma batch_cache_invariant (elapsed : nat -> Q) (problems : list Batch.problem_data) :
  forall (i : nat) (sys : AgenticReasoningSystem.System) (P : SolutionResult -> Prop),
    (forall sys' p t o e, P (fst (AgenticReasoningSystem.solve sys' p t o e))) ->
    (forall k r, In (k, r) (AgenticReasoningSystem.solution_cache sys) -> P r) ->
    let sys' := snd (Batch.solve_batch_from i elapsed sys problems) in
    (forall k r, In (k, r) (AgenticReasoningSystem.solution_cache sys') -> P r)
    /\ (List.length (AgenticReasoningSystem.solution_cache sys')
        <= List.length (AgenticReasoningSystem.solution_cache sys) + List.length problems)%nat
    /\ (NoDup (map fst (AgenticReasoningSystem.solution_cache sys)) ->
        NoDup (map fst (AgenticReasoningSystem.solution_cache sys')))
    /\ (List.length (AgenticReasoningSystem.solution_cache sys)
        <= List.length (AgenticReasoningSystem.solution_cache sys'))%nat
    /\ (problems <> [] -> (1 <= List.length (AgenticReasoningSystem.solution_cache sys'))%nat).
Proof.
  induction problems as [|pd rest IH]; intros i sys P Hsolve Hcache; cbv zeta.
  - cbn [Batch.solve_batch_from snd List.length]. repeat split; auto; try lia.
    intros H. now contradiction H.
  - cbn [Batch.solve_batch_from].
    pose proof (solve_state sys (text_of (Batch.pd_problem pd)) (Batch.pd_topic pd)
                            (Batch.pd_options pd) (elapsed i)) as Hst.
    pose proof (Hsolve sys (text_of (Batch.pd_problem pd)) (Batch.pd_topic pd)
                       (Batch.pd_options pd) (elapsed i)) as Hr.
    cbv zeta in Hst.
    destruct (AgenticReasoningSystem.solve sys _ _ _ _) as [r sys1].
    cbn [fst snd] in *. destruct Hst as [_ Hc].
    specialize (IH (S i) sys1 P Hsolve). cbv zeta in IH.
    destruct (Batch.solve_batch_from (S i) elapsed sys1 rest) as [results sys2].
    cbn [fst snd] in *.
    destruct IH as (IH1 & IH2 & IH3 & IH4 & _).
    { intros k x Hin. rewrite Hc in Hin. apply cache_store_entries in Hin.
      destruct Hin as [->|Hin]; eauto. }
    pose proof (cache_store_length (text_of (Batch.pd_problem pd)) r
                  (AgenticReasoningSystem.solution_cache sys)) as Hle.
    pose proof (cache_store_grows (text_of (Batch.pd_problem pd)) r
                  (AgenticReasoningSystem.solution_cache sys)) as [Hone Hge].
    rewrite Hc in IH2, IH4.
    split; [exact IH1|]. split; [cbn [List.length]; lia|]. split.
    + intros Hnd. apply IH3. rewrite Hc. now apply cache_store_nodup.
    + split; [lia|]. intros _. lia.
Qed.

(** After a batch of at least one problem, run on a system whose cache was
    empty, [get_statistics] returns its figures: the total is at least one
    and at most the number of entries of the batch, it is the number of
    cached results, and no problem text is cached twice. *)
Theorem statistics_after_batch (elapsed : nat -> Q) (ag : Reasoner)
        (last : option ReasoningChain) (problems : list Batch.problem_data) :
  problems <> [] ->
  let sys := snd (Batch.solve_batch elapsed (AgenticReasoningSystem.mkSystem ag last [])
                                    problems) in
  exists s : Batch.statistics,
    Batch.get_statistics sys = Some s
    /\ (1 <= Batch.total_problems s <= List.length problems)%nat
    /\ Batch.total_problems s = List.length (AgenticReasoningSystem.solution_cache sys)
    /\ NoDup (map fst (AgenticReasoningSystem.solution_cache sys)).
Proof.
  intros Hne. cbv zeta. unfold Batch.solve_batch.
  destruct (batch_cache_invariant elapsed problems O
              (AgenticReasoningSystem.mkSystem ag last []) (fun _ => True))
    as (_ & Hlen & Hnd & _ & Hone).
  { intros. exact I. }
  { intros. exact I. }
  specialize (Hone Hne).
  cbn [AgenticReasoningSystem.solution_cache List.length Nat.add] in Hlen, Hnd.
  unfold Batch.get_statistics.
  destruct (AgenticReasoningSystem.solution_cache _) as [|e rest] eqn:E;
    [cbn [List.length] in Hone; lia|].
  set (cache := e :: rest) in *.
  eexists. split; [reflexivity|].
  cbv beta iota delta [Batch.total_problems].
  rewrite length_map. split; [lia|]. split; [reflexivity|]. apply Hnd. constructor.
Qed.

Lemma statistics_after_batch_witness :
  let sys := snd (Batch.solve_batch
                    (fun _ => 1 # 2)
                    (AgenticReasoningSystem.mkSystem plain_reasoner None [])
                    [Batch.mkProblemData (Some two_machines) None None;
                     Batch.mkProblemData (Some two_machines) None None]) in
  exists s : Batch.statistics,
    Batch.get_statistics sys = Some s
    /\ (1 <= Batch.total_problems s <= 2)%nat
    /\ Batch.total_problems s = List.length (AgenticReasoningSystem.solution_cache sys)
    /\ NoDup (map fst (AgenticReasoningSystem.solution_cache sys)).
Proof.
  apply (statistics_after_batch
           (fun _ => 1 # 2) plain_reasoner None
           [Batch.mkProblemData (Some two_machines) None None;
            Batch.mkProblemData (Some two_machines) None None]).
  discriminate.
Defined.

(** ** Constraint check of the self-corrector *)

(** The two keys of the report of [verify_against_constraints] agree: the
    answer is reported as satisfying the constraints exactly when the list
    of violations is empty. There are at most two violations, and an
    answer without a digit is never reported as violating anything. *)
Theorem constraint_report_is_consistent (answer_text problem_text : string) :
  let r := AnswerConstraints.verify_against_constraints answer_text problem_text in
  (AnswerConstraints.satisfies_constraints r = true
   <-> AnswerConstraints.violations r = [])
  /\ (List.length (AnswerConstraints.violations r) <= 2)%nat
  /\ (AnswerConstraints.findall_digits answer_text = [] ->
      AnswerConstraints.satisfies_constraints r = true).
Proof.
  cbv zeta. unfold AnswerConstraints.verify_against_constraints.
  destruct (AnswerConstraints.findall_digits answer_text) as [|a rest].
  - destruct (Py.contains "at least" (Py.lower problem_text));
      destruct (Py.contains "at most" (Py.lower problem_text));
      destruct (AnswerConstraints.findall_at_least (Py.lower problem_text));
      destruct (AnswerConstraints.findall_at_most (Py.lower problem_text));
      cbn; repeat split; auto; lia.
  - destruct (Py.contains "at least" (Py.lower problem_text));
      destruct (Py.contains "at most" (Py.lower problem_text));
      destruct (AnswerConstraints.findall_at_least (Py.lower problem_text));
      destruct (AnswerConstraints.findall_at_most (Py.lower problem_text));
      repeat match goal with
             | |- context [(?x <? ?y)%Z] => destruct (x <? y)%Z
             end;
      cbn; repeat split; auto; try lia; try discriminate.
Qed.

(** Only the first number of the answer is compared with the bounds: two
    answers whose first runs of digits have the same value get the same
    report, whatever else they contain. *)
Theorem constraint_check_reads_first_number (answer_text other_answer problem_text : string) :
  option_map AnswerConstraints.int_of_digits
             (hd_error (AnswerConstraints.findall_digits answer_text))
  = option_map AnswerConstraints.int_of_digits
               (hd_error (AnswerConstraints.findall_digits other_answer)) ->
  AnswerConstraints.verify_against_constraints answer_text problem_text
  = AnswerConstraints.verify_against_constraints other_answer problem_text.
Proof.
  unfold AnswerConstraints.verify_against_constraints.
  destruct (AnswerConstraints.findall_digits answer_text) as [|a rest];
    destruct (AnswerConstraints.findall_digits other_answer) as [|b rest'];
    cbn [hd_error option_map]; intros H; try discriminate.
  - destruct (Py.contains "at least" (Py.lower problem_text));
      destruct (Py.contains "at most" (Py.lower problem_text));
      destruct (AnswerConstraints.findall_at_least (Py.lower problem_text));
      destruct (AnswerConstraints.findall_at_most (Py.lower problem_text));
      reflexivity.
  - injection H as H. rewrite H. reflexivity.
Qed.

Lemma constraint_check_reads_first_number_witness :
  AnswerConstraints.verify_against_constraints "7 of 3 boxes" "Pick at least 10 boxes."
  = AnswerConstraints.verify_against_constraints "about 07, or 12" "Pick at least 10 boxes.".
Proof.
  apply (constraint_check_reads_first_number
           "7 of 3 boxes" "about 07, or 12" "Pick at least 10 boxes.").
  vm_compute. reflexivity.
Defined.

(** ** Route optimization *)


(** ** Sequences *)

(** In a plan of type SEQUENCE, a step whose text mentions "analyze" or
    "differences" and not "identify" never runs to its end: its handler
    reads a name that is not bound, so the step is recorded with the
    error as its thought, confidence 0.1, and no result, tool or output,
    whatever the problem and whatever was recorded before. The second
    step of every plan the planner makes for a sequence is such a step. *)
Theorem sequence_analysis_step_always_fails
        (float_str : Q -> string) (ag : Reasoner) (recorded : list ReasoningStep)
        (number : nat) (sub_problem full_problem : string) (plan : ReasoningPlan)
        (options : option (list string)) :
  problem_type plan = SEQUENCE ->
  Py.contains "identify" (Py.lower sub_problem) = false ->
  Py.contains "analyze" (Py.lower sub_problem)
  || Py.contains "differences" (Py.lower sub_problem) = true ->
  ReasonerAgent.execute_sub_problem
    (SequenceHandler.with_sequence_handler float_str ag)
    recorded number sub_problem full_problem plan options
  = mkStep number sub_problem
           "Error executing step: name 'step_number' is not defined"
           None None None false (1 # 10).
Proof.
  intros Ht Hid Han.
  unfold ReasonerAgent.execute_sub_problem, ReasonerAgent.dispatch. rewrite Ht.
  unfold SequenceHandler.with_sequence_handler. cbn [handle_sequence_step].
  unfold SequenceHandler.handle_sequence_step. rewrite Hid, Han.
  reflexivity.
Qed.

Lemma sequence_analysis_step_always_fails_witness :
  ReasonerAgent.execute_sub_problem
    (SequenceHandler.with_sequence_handler (fun _ => "0.0"%string) plain_reasoner)
    [] 2 (nth 1 (Planner.decompose_problem SEQUENCE) EmptyString) "2, 4, 6, 8, ?"
    (Planner.create_plan "2, 4, 6, 8, ?" (Some "Sequence solving"%string)) None
  = mkStep 2 (nth 1 (Planner.decompose_problem SEQUENCE) EmptyString)
           "Error executing step: name 'step_number' is not defined"
           None None None false (1 # 10).
Proof.
  apply (sequence_analysis_step_always_fails
           (fun _ => "0.0"%string) plain_reasoner [] 2
           (nth 1 (Planner.decompose_problem SEQUENCE) EmptyString) "2, 4, 6, 8, ?"
           (Planner.create_plan "2, 4, 6, 8, ?" (Some "Sequence solving"%string)) None).
  - vm_compute. reflexivity.
  - vm_compute. reflexivity.
  - vm_compute. reflexivity.
Defined.

(** ** Steps of mathematical plans and of plans without a handler of their own *)

Ltac split_cases :=
  repeat (cbv beta iota zeta;
          match goal with
          | |- context [match ?x with _ => _ end] =>
              lazymatch x with
              | context [match _ with _ => _ end] => fail
              | _ => destruct x eqn:?
              end
          end).

(** What [_handle_mathematical_step] leaves of a step: its number and its
    action are kept; when the handler raises, the step is as it was. *)
Lemma handle_mathematical_step_frame (ag : Reasoner) (step : ReasoningStep)
      (problem_text sub_problem : string) :
  match ReasonerAgent.handle_mathematical_step ag step problem_text sub_problem with
  | Completed st =>
      step_number st = step_number step /\ action st = action step
      /\ (tool_used st = tool_used step
          \/ In (tool_used st)
                (map Some ["enhanced_work_rate"; "production_optimizer"; "switch_identifier";
                           "work_rate_calculator"; "pipeline_scheduler"; "gear_calculator";
                           "constraint_solver"; "calculator"]%string))
      /\ (verified st = verified step
          \/ verified st = true /\ result st = Some "verified"%string)
  | Raised st _ => st = step
  end.
Proof.
  unfold ReasonerAgent.handle_mathematical_step, ReasonerAgent.solved.
  destruct step as [n a t tu to r v c].
  split_cases; cbn; try reflexivity;
    (split; [reflexivity|]; split; [reflexivity|]; split; [|auto]);
    first [left; reflexivity | right; cbn; tauto].
Qed.

(** A step of a plan of type MATHEMATICAL keeps the number and the text of
    its sub-problem. It ends with confidence 0.8, or with confidence 0.1
    and then without result, output or tool. The tool it names is never
    the worst-case analyzer, and it is marked verified only with the
    result "verified". *)
Theorem mathematical_step_record (ag : Reasoner) (recorded : list ReasoningStep)
        (number : nat) (sub_problem full_problem : string) (plan : ReasoningPlan)
        (options : option (list string)) :
  problem_type plan = MATHEMATICAL ->
  let st := ReasonerAgent.execute_sub_problem ag recorded number sub_problem full_problem
                                              plan options in
  step_number st = number
  /\ action st = sub_problem
  /\ (confidence st = 8 # 10
      \/ confidence st = 1 # 10
         /\ result st = None /\ tool_output st = None /\ tool_used st = None)
  /\ tool_used st <> Some "worst_case_analyzer"%string
  /\ (verified st = true -> result st = Some "verified"%string).
Proof.
  intros Ht. cbv zeta.
  unfold ReasonerAgent.execute_sub_problem, ReasonerAgent.dispatch. rewrite Ht.
  pose proof (handle_mathematical_step_frame
                ag (ReasonerAgent.initial_step ag number sub_problem full_problem plan)
                full_problem sub_problem) as H.
  destruct (ReasonerAgent.handle_mathematical_step _ _ _ _) as [st|st msg].
  - destruct H as (Hn & Ha & Htool & Hv). destruct st as [n a t tu to r v c].
    cbn in *. subst n a. split; [reflexivity|]. split; [reflexivity|].
    split; [now left|]. split.
    + destruct Htool as [->|Hin]; [discriminate|].
      intros ->. cbn in Hin. intuition discriminate.
    + destruct Hv as [->|[_ Hr]]; [discriminate|]. intros _. exact Hr.
  - subst st. cbn. split; [reflexivity|]. split; [reflexivity|].
    split; [right; repeat split|]. split; discriminate.
Qed.

Lemma mathematical_step_record_witness :
  let st := ReasonerAgent.execute_sub_problem plain_reasoner [] 2
              "Set up equations or formulas" buttons
              (Planner.create_plan buttons (Some "mathematical"%string)) None in
  step_number st = 2%nat
  /\ action st = "Set up equations or formulas"%string
  /\ (confidence st = 8 # 10
      \/ confidence st = 1 # 10
         /\ result st = None /\ tool_output st = None /\ tool_used st = None)
  /\ tool_used st <> Some "worst_case_analyzer"%string
  /\ (verified st = true -> result st = Some "verified"%string).
Proof.
  apply (mathematical_step_record plain_reasoner [] 2 "Set up equations or formulas" buttons
           (Planner.create_plan buttons (Some "mathematical"%string)) None).
  vm_compute. reflexivity.
Defined.

Lemma best_overlap_is_an_option (analysis : string) (opts : list string) :
  forall (seen : list string) (acc : option string * nat),
    (forall o, fst acc = Some o -> In o (seen ++ opts)%list) ->
    forall o,
      fst (fold_left (fun (acc : option string * nat) opt =>
                        let overlap := ReasonerAgent.word_overlap (Py.lower opt)
                                                                  (Py.lower analysis) in
                        if (snd acc <? overlap)%nat then (Some opt, overlap) else acc)
                     opts acc) = Some o ->
      In o (seen ++ opts)%list.
Proof.
  induction opts as [|opt rest IH]; intros seen acc Hacc o; cbn [fold_left].
  - apply Hacc.
  - intros H.
    replace (seen ++ opt :: rest)%list with ((seen ++ [opt]) ++ rest)%list
      by (rewrite <- app_assoc; reflexivity).
    revert H. apply IH. cbv zeta. intros o'.
    rewrite <- app_assoc. cbn [List.app].
    destruct (snd acc <? _)%nat; cbn [fst].
    + intros [= <-]. apply in_or_app. right. now left.
    + apply Hacc.
Qed.

(** A step of a plan whose type has no handler of its own (lateral
    thinking, classic riddles) never fails: it ends with confidence 0.8
    and always has a result, which is one of the answer options when
    there are options, recorded as the step's output too, and the text
    "processed" when there are none. Its number and action are those of
    the sub-problem. *)
Theorem general_step_always_answers (ag : Reasoner) (recorded : list ReasoningStep)
        (number : nat) (sub_problem full_problem : string) (plan : ReasoningPlan)
        (options : option (list string)) :
  problem_type plan = LATERAL_THINKING \/ problem_type plan = CLASSIC_RIDDLE ->
  let st := ReasonerAgent.execute_sub_problem ag recorded number sub_problem full_problem
                                              plan options in
  step_number st = number
  /\ action st = sub_problem
  /\ confidence st = 8 # 10
  /\ match olist options with
     | [] => result st = Some "processed"%string /\ tool_output st = None
     | opts => exists opt, In opt opts
                           /\ result st = Some opt /\ tool_output st = Some (VStr opt)
     end.
Proof.
  intros Ht. cbv zeta.
  assert (Hd : ReasonerAgent.dispatch
                 ag recorded
                 (ReasonerAgent.initial_step ag number sub_problem full_problem plan)
                 full_problem sub_problem plan options
               = ReasonerAgent.handle_general_step
                   ag (ReasonerAgent.initial_step ag number sub_problem full_problem plan)
                   full_problem sub_problem options).
  { unfold ReasonerAgent.dispatch. destruct Ht as [-> | ->]; reflexivity. }
  unfold ReasonerAgent.execute_sub_problem. rewrite Hd. clear Hd.
  unfold ReasonerAgent.initial_step.
  set (t0 := ReasonerAgent.enhanced_thought ag sub_problem full_problem plan).
  clearbody t0. unfold ReasonerAgent.handle_general_step.
  destruct (olist options) as [|o1 rest] eqn:Hopts.
  { destruct (oracle ag); cbn; repeat split; reflexivity. }
  destruct (oracle ag) as [o|].
  2: { cbn. repeat split; try reflexivity. exists o1. cbn. tauto. }
  destruct (interpret_answer_options o full_problem (o1 :: rest)) as [analysis|msg].
  2: { cbn. repeat split; try reflexivity. exists o1. cbn. tauto. }
  cbv zeta.
  set (best := fold_left _ (o1 :: rest) (None, O)).
  pose proof (best_overlap_is_an_option analysis (o1 :: rest) [] (None, O)) as Hbest.
  cbn [List.app] in Hbest. specialize (Hbest ltac:(cbn; discriminate)).
  fold best in Hbest.
  destruct (struthy (fst best) && (0 <? snd best)%nat) eqn:Hb.
  { apply andb_prop in Hb. destruct Hb as [Hb _].
    destruct (fst best) as [b|] eqn:Hfb; [|discriminate].
    cbn. repeat split; try reflexivity. exists b. split; [now apply Hbest|]. tauto. }
  destruct (find _ (ReasonerAgent.enumerate_from 1 (o1 :: rest))) as [[i opt]|] eqn:Hfind.
  - apply find_some in Hfind. destruct Hfind as [Hin _].
    apply In_enumerate_from in Hin.
    cbn. repeat split; try reflexivity. exists opt. split; [exact Hin|]. tauto.
  - cbn. repeat split; try reflexivity. exists o1. cbn. tauto.
Qed.

Lemma general_step_always_answers_witness :
  let st := ReasonerAgent.execute_sub_problem plain_reasoner [] 1
              "Identify literal interpretation" "What has keys but opens no lock?"
              (Planner.create_plan "What has keys but opens no lock?"
                                   (Some "Classic riddles"%string))
              (Some ["A piano"; "A map"]%string) in
  step_number st = 1%nat
  /\ action st = "Identify literal interpretation"%string
  /\ confidence st = 8 # 10
  /\ exists opt, In opt ["A piano"; "A map"]%string
                 /\ result st = Some opt /\ tool_output st = Some (VStr opt).
Proof.
  apply (general_step_always_answers
           plain_reasoner [] 1 "Identify literal interpretation"
           "What has keys but opens no lock?"
           (Planner.create_plan "What has keys but opens no lock?"
                                (Some "Classic riddles"%string))
           (Some ["A piano"; "A map"]%string)).
  right. vm_compute. reflexivity.
Defined.

Lemma handle_general_step_frame (ag : Reasoner) (step : ReasoningStep)
      (problem_text sub_problem : string) (options : option (list string)) :
  match ReasonerAgent.handle_general_step ag step problem_text sub_problem options with
  | Completed st | Raised st _ => step_number st = step_number step /\ action st = action step
  end.
Proof.
  unfold ReasonerAgent.handle_general_step. destruct step as [n a t tu to r v c].
  destruct (olist options) as [|o1 rest]; destruct (oracle ag) as [o|];
    try (cbn; split; reflexivity).
  destruct (interpret_answer_options o problem_text (o1 :: rest)) as [analysis|msg];
    [|cbn; split; reflexivity].
  cbv zeta. destruct (struthy _ && _); [cbn; split; reflexivity|].
  destruct (find _ _) as [[i opt]|]; cbn; split; reflexivity.
Qed.

Lemma execute_sub_problem_frame (ag : Reasoner) (recorded : list ReasoningStep)
      (number : nat) (sub_problem full_problem : string) (plan : ReasoningPlan)
      (options : option (list string)) :
  problem_type plan = MATHEMATICAL \/ problem_type plan = LATERAL_THINKING
  \/ problem_type plan = CLASSIC_RIDDLE ->
  let st := ReasonerAgent.execute_sub_problem ag recorded number sub_problem full_problem
                                              plan options in
  step_number st = number /\ action st = sub_problem.
Proof.
  intros Ht. cbv zeta. unfold ReasonerAgent.execute_sub_problem, ReasonerAgent.dispatch.
  pose proof (handle_mathematical_step_frame
                ag (ReasonerAgent.initial_step ag number sub_problem full_problem plan)
                full_problem sub_problem) as Hm.
  pose proof (handle_general_step_frame
                ag (ReasonerAgent.initial_step ag number sub_problem full_problem plan)
                full_problem sub_problem options) as Hg.
  destruct Ht as [-> | [-> | ->]].
  - destruct (ReasonerAgent.handle_mathematical_step _ _ _ _) as [st|st msg].
    + destruct Hm as (Hn & Ha & _). destruct st. cbn in *. now subst.
    + subst st. cbn. split; reflexivity.
  - destruct (ReasonerAgent.handle_general_step _ _ _ _ _) as [st|st msg];
      destruct Hg as [Hn Ha]; destruct st; cbn in *; now subst.
  - destruct (ReasonerAgent.handle_general_step _ _ _ _ _) as [st|st msg];
      destruct Hg as [Hn Ha]; destruct st; cbn in *; now subst.
Qed.

(** In the chain of a plan of type MATHEMATICAL, LATERAL_THINKING or
    CLASSIC_RIDDLE the steps are numbered 1, 2, 3, ... without gap or
    repetition, the self-correction step included, and the steps before
    it carry the plan's sub-problems as their actions, in order. *)
Theorem step_numbers_are_contiguous (ag : Reasoner) (full_problem : string)
        (the_plan : ReasoningPlan) (options : option (list string)) :
  problem_type the_plan = MATHEMATICAL \/ problem_type the_plan = LATERAL_THINKING
  \/ problem_type the_plan = CLASSIC_RIDDLE ->
  let chain := ReasonerAgent.execute_plan ag full_problem the_plan options in
  map step_number (steps chain) = seq 1 (List.length (steps chain))
  /\ map action (firstn (List.length (sub_problems the_plan)) (steps chain))
     = sub_problems the_plan.
Proof.
  intros Ht. cbv zeta.
  pose proof (execute_plan_steps ag full_problem the_plan options) as Hsteps.
  cbv zeta in Hsteps.
  destruct (executed_chain_steps ag full_problem the_plan options) as [Hlen Hnth].
  set (executed := steps (executed_chain ag full_problem the_plan options)) in *.
  assert (Hnum : map step_number executed = seq 1 (List.length executed)
                 /\ map action executed = sub_problems the_plan).
  { split; apply nth_error_ext; intros i.
    - destruct (nth_error (sub_problems the_plan) i) as [sp|] eqn:E.
      + rewrite nth_error_map, (Hnth i sp E). cbn [option_map].
        destruct (execute_sub_problem_frame ag (firstn i executed) (S i) sp full_problem
                                            the_plan options Ht) as [-> _].
        assert (i < List.length executed)%nat
          by (rewrite Hlen; apply nth_error_Some; congruence).
        symmetry. rewrite nth_error_nth' with (d := O) by (rewrite length_seq; lia).
        rewrite seq_nth by lia. reflexivity.
      + apply nth_error_None in E. rewrite <- Hlen in E.
        rewrite (proj2 (nth_error_None _ _)) by (rewrite length_map; lia).
        symmetry. apply nth_error_None. rewrite length_seq. lia.
    - destruct (nth_error (sub_problems the_plan) i) as [sp|] eqn:E.
      + rewrite nth_error_map, (Hnth i sp E). cbn [option_map].
        destruct (execute_sub_problem_frame ag (firstn i executed) (S i) sp full_problem
                                            the_plan options Ht) as [_ ->].
        reflexivity.
      + apply nth_error_None in E. rewrite <- Hlen in E.
        apply nth_error_None. rewrite length_map. lia. }
  destruct Hnum as [Hn Ha]. rewrite Hsteps. split.
  - rewrite map_app, length_app, seq_app, Hn. f_equal.
    destruct (String.eqb _ _); cbn; [reflexivity|].
    rewrite Hlen. f_equal. lia.
  - rewrite <- Hlen, firstn_app, Nat.sub_diag, firstn_all. cbn [firstn].
    rewrite app_nil_r. exact Ha.
Qed.

Lemma step_numbers_are_contiguous_witness :
  let chain := ReasonerAgent.execute_plan plain_reasoner buttons
                 (Planner.create_plan buttons (Some "mathematical"%string)) None in
  map step_number (steps chain) = seq 1 (List.length (steps chain))
  /\ map action (firstn (List.length (sub_problems
                                        (Planner.create_plan
                                           buttons (Some "mathematical"%string))))
                        (steps chain))
     = sub_problems (Planner.create_plan buttons (Some "mathematical"%string)).
Proof.
  apply (step_numbers_are_contiguous plain_reasoner buttons
           (Planner.create_plan buttons (Some "mathematical"%string)) None).
  left. vm_compute. reflexivity.
Defined.

(** ** Constraint validation of the verifier *)

(** The stripped text lies inside every text that ends with the original
    one, stripped on the right. *)
Lemma strip_inside (x b : string) :
  exists u v, Py.rstrip (x ++ b) = (u ++ Py.strip b ++ v)%string.
Proof.
  unfold Py.strip. destruct (lstrip_suffix b) as [w Hw].
  destruct (Py.rstrip (Py.lstrip b)) as [|c r] eqn:E.
  - destruct (rstrip_prefix (x ++ b)) as [t Ht].
    exists (Py.rstrip (x ++ b)), EmptyString. cbn. now rewrite append_nil_r.
  - exists (x ++ w)%string, EmptyString.
    rewrite Hw at 1. rewrite <- append_assoc, rstrip_app by (rewrite E; discriminate).
    rewrite E. cbn. now rewrite append_nil_r.
Qed.

Lemma after_literal_prefix (lit s : string) :
  AnswerConstraints.after_literal lit s = None <-> String.prefix lit s = false.
Proof.
  revert s. induction lit as [|a lit IH]; intros s.
  - cbn. rewrite prefix_nil. split; discriminate.
  - destruct s as [|b s]; cbn; [split; reflexivity|].
    destruct (Ascii.eqb_spec a b) as [->|Hne].
    + destruct (ascii_dec b b); [apply IH|congruence].
    + destruct (ascii_dec a b); [congruence|split; reflexivity].
Qed.

Lemma after_literal_app (lit s : string) :
  AnswerConstraints.after_literal lit (lit ++ s) = Some s.
Proof.
  induction lit as [|a lit IH]; cbn; [reflexivity|]. now rewrite Ascii.eqb_refl.
Qed.

(** A literal that starts a text [x ++ r] starts [x], or [x] is a proper
    start of the literal, the rest of which starts [r]. *)
Lemma prefix_straddle (p x r : string) :
  String.prefix p (x ++ r) = true ->
  String.prefix p x = true
  \/ exists q, p = (x ++ q)%string /\ String.prefix q r = true.
Proof.
  revert x. induction p as [|a p IH]; intros x; [left; apply prefix_nil|].
  destruct x as [|b x].
  - intros H. right. exists (String a p). split; [reflexivity|exact H].
  - cbn. destruct (ascii_dec a b) as [->|]; [|discriminate].
    intros H. destruct (IH x H) as [Hp|(q & -> & Hq)]; [now left|].
    right. exists q. split; [reflexivity|exact Hq].
Qed.

(** Neither "must" nor "cannot" can start before a "must not" and end
    inside it. *)
Lemma no_match_before (x b : string) :
  x <> EmptyString ->
  Py.contains "must" x = false -> Py.contains "cannot" x = false ->
  String.prefix "must" (x ++ "must not" ++ b) = false
  /\ String.prefix "cannot" (x ++ "must not" ++ b) = false.
Proof.
  intros Hx Hm Hc.
  assert (Pm : String.prefix "must" x = false).
  { destruct x; cbn [Py.contains] in Hm; now apply orb_false_iff in Hm. }
  assert (Pc : String.prefix "cannot" x = false).
  { destruct x; cbn [Py.contains] in Hc; now apply orb_false_iff in Hc. }
  split.
  - destruct (String.prefix "must" (x ++ "must not" ++ b)) eqn:E; [|reflexivity].
    apply prefix_straddle in E. destruct E as [E|(q & Hq & E)]; [congruence|].
    exfalso. clear - Hx Hq E Pm.
    destruct x as [|c1 x]; [now apply Hx|]. clear Hx.
    cbn [append] in Hq. injection Hq as <- Hq.
    destruct x as [|c2 x]; cbn [append] in Hq;
      [subst q; cbn in E; discriminate|injection Hq as <- Hq].
    destruct x as [|c3 x]; cbn [append] in Hq;
      [subst q; cbn in E; discriminate|injection Hq as <- Hq].
    destruct x as [|c4 x]; cbn [append] in Hq;
      [subst q; cbn in E; discriminate|injection Hq as <- Hq].
    destruct x; [cbn in Pm; discriminate|discriminate].
  - destruct (String.prefix "cannot" (x ++ "must not" ++ b)) eqn:E; [|reflexivity].
    apply prefix_straddle in E. destruct E as [E|(q & Hq & E)]; [congruence|].
    exfalso. clear - Hx Hq E Pc.
    destruct x as [|c1 x]; [now apply Hx|]. clear Hx.
    cbn [append] in Hq. injection Hq as <- Hq.
    destruct x as [|c2 x]; cbn [append] in Hq;
      [subst q; cbn in E; discriminate|injection Hq as <- Hq].
    destruct x as [|c3 x]; cbn [append] in Hq;
      [subst q; cbn in E; discriminate|injection Hq as <- Hq].
    destruct x as [|c4 x]; cbn [append] in Hq;
      [subst q; cbn in E; discriminate|injection Hq as <- Hq].
    destruct x as [|c5 x]; cbn [append] in Hq;
      [subst q; cbn in E; discriminate|injection Hq as <- Hq].
    destruct x as [|c6 x]; cbn [append] in Hq;
      [subst q; cbn in E; discriminate|injection Hq as <- Hq].
    destruct x; [cbn in Pc; discriminate|discriminate].
Qed.

Lemma prefix_longer (p q s : string) :
  String.prefix p s = false -> String.prefix (p ++ q) s = false.
Proof.
  revert s. induction p as [|a p IH]; intros s.
  - rewrite prefix_nil. discriminate.
  - destruct s as [|b s]; cbn; [reflexivity|].
    destruct (ascii_dec a b); [apply IH|reflexivity].
Qed.

Lemma contains_cons (p : string) (c : ascii) (s : string) :
  Py.contains p (String c s) = false ->
  String.prefix p (String c s) = false /\ Py.contains p s = false.
Proof. cbn [Py.contains]. intros H. now apply orb_false_iff in H. Qed.

Lemma contains_prefix (p s : string) :
  Py.contains p s = false -> String.prefix p s = false.
Proof.
  destruct s; cbn [Py.contains]; intros H; now apply orb_false_iff in H.
Qed.

Lemma contains_longer (p q s : string) :
  Py.contains p s = false -> Py.contains (p ++ q) s = false.
Proof.
  intros H. destruct (Py.contains (p ++ q) s) eqn:E; [|reflexivity].
  apply contains_decompose in E. destruct E as (a & b & ->).
  rewrite <- H. symmetry. apply contains_decompose. exists a, (q ++ b)%string.
  now rewrite append_assoc.
Qed.

Lemma match_any_none (pats : list string) (s : string) :
  (forall p, In p pats -> String.prefix p s = false) ->
  ConstraintCheck.match_any pats s = None.
Proof.
  induction pats as [|p r IH]; intros H; [reflexivity|].
  cbn [ConstraintCheck.match_any].
  rewrite (proj2 (after_literal_prefix p s)) by (apply H; now left).
  apply IH. intros q Hq. apply H. now right.
Qed.

Lemma upto_match_cons (pats : list string) (c : ascii) (t : string) :
  ConstraintCheck.match_any pats (String c t) = None ->
  ConstraintCheck.upto_match pats (String c t)
  = (String c (fst (ConstraintCheck.upto_match pats t)),
     snd (ConstraintCheck.upto_match pats t)).
Proof.
  intros H. cbn [ConstraintCheck.upto_match]. rewrite H.
  now destruct (ConstraintCheck.upto_match pats t).
Qed.

(** A text in which no literal of the alternation occurs is not split. *)
Lemma upto_match_none (pats : list string) (s : string) :
  (forall p, In p pats -> Py.contains p s = false) ->
  ConstraintCheck.upto_match pats s = (s, None).
Proof.
  induction s as [|c t IH]; intros H.
  - cbn [ConstraintCheck.upto_match].
    rewrite match_any_none; [reflexivity|].
    intros p Hp. apply contains_prefix. now apply H.
  - rewrite upto_match_cons.
    + rewrite IH; [reflexivity|]. intros p Hp. now apply (contains_cons p c t), H.
    + apply match_any_none. intros p Hp. now apply (contains_cons p c t), H.
Qed.

(** The two splits of a text whose first "must" is that of a "must not",
    with no "cannot" before it. *)
Lemma upto_must_not (a b : string) :
  Py.contains "must" a = false -> Py.contains "cannot" a = false ->
  ConstraintCheck.upto_match ["must"]%string (a ++ "must not" ++ b)
  = (a, Some (" not" ++ b)%string)
  /\ ConstraintCheck.upto_match ["cannot"; "must not"]%string (a ++ "must not" ++ b)
     = (a, Some b).
Proof.
  induction a as [|c a IH]; intros Hm Hc.
  - split; reflexivity.
  - destruct (contains_cons _ _ _ Hm) as [_ Hm'].
    destruct (contains_cons _ _ _ Hc) as [_ Hc'].
    destruct (IH Hm' Hc') as [IH1 IH2].
    destruct (no_match_before (String c a) b ltac:(discriminate) Hm Hc) as [Pm Pc].
    change (String c a ++ "must not" ++ b)%string
      with (String c (a ++ "must not" ++ b)) in *.
    split.
    + rewrite upto_match_cons, IH1; [reflexivity|].
      apply match_any_none. intros p [<-|[]]. exact Pm.
    + rewrite upto_match_cons, IH2; [reflexivity|].
      apply match_any_none. intros p [<-|[<-|[]]]; [exact Pc|].
      apply (prefix_longer "must" " not"). exact Pm.
Qed.

(** A constraint that says "must not", and has no other "must" and no
    "cannot", is violated by every answer: an answer that avoids the
    forbidden text is then required to contain "not" followed by that
    text. [validate_against_constraints] reports such a constraint as
    violated, whatever the answer. *)
Theorem must_not_is_never_satisfied (answer_text constraint a b : string)
        (constraints : list string) :
  Py.lower constraint = (a ++ "must not" ++ b)%string ->
  Py.contains "must" a = false -> Py.contains "cannot" a = false ->
  Py.contains "must" b = false -> Py.contains "cannot" b = false ->
  In constraint constraints ->
  ConstraintCheck.check_constraint answer_text constraint = false
  /\ fst (ConstraintCheck.validate_against_constraints answer_text constraints) = false
  /\ In ("Violates constraint: " ++ constraint)%string
        (snd (ConstraintCheck.validate_against_constraints answer_text constraints)).
Proof.
  intros Hl Hma Hca Hmb Hcb Hin.
  assert (Hcheck : ConstraintCheck.check_constraint answer_text constraint = false).
  { unfold ConstraintCheck.check_constraint. rewrite Hl. cbv zeta.
    destruct (upto_must_not a b Hma Hca) as [Hmust Hneg].
    unfold ConstraintCheck.second_part. rewrite Hmust, Hneg. cbn [fst snd].
    rewrite (upto_match_none ["cannot"; "must not"]%string b).
    2: { intros p [<-|[<-|[]]]; [exact Hcb|].
         apply (contains_longer "must" " not"). exact Hmb. }
    assert (Hrest : ConstraintCheck.upto_match ["must"]%string (" not" ++ b)
                    = ((" not" ++ b)%string, None)).
    { change (" not" ++ b)%string
        with (String " " (String "n" (String "o" (String "t" b)))).
      rewrite !upto_match_cons by reflexivity.
      rewrite (upto_match_none ["must"]%string b); [reflexivity|].
      intros p [<-|[]]. exact Hmb. }
    rewrite Hrest. cbn [fst].
    replace (Py.contains "must not" (a ++ "must not" ++ b)) with true
      by (symmetry; apply contains_decompose; now exists a, b).
    replace (Py.contains "must" (a ++ "must not" ++ b)) with true
      by (symmetry; apply contains_decompose; now exists a, (" not" ++ b)%string).
    rewrite orb_true_r. cbn [andb].
    destruct (Py.contains (Py.strip b) (Py.lower answer_text)) eqn:Hforbidden;
      [reflexivity|].
    destruct (Py.contains (Py.strip (" not" ++ b)) (Py.lower answer_text)) eqn:Hrequired;
      [|reflexivity].
    exfalso.
    assert (Hs : Py.strip (" not" ++ b) = Py.rstrip ("not" ++ b)) by reflexivity.
    rewrite Hs in Hrequired.
    destruct (strip_inside "not" b) as (u & v & Huv).
    rewrite (contains_inside (Py.strip b) u (Py.rstrip ("not" ++ b)) v
                             (Py.lower answer_text) Huv Hrequired) in Hforbidden.
    discriminate. }
  split; [exact Hcheck|].
  unfold ConstraintCheck.validate_against_constraints. cbv zeta. cbn [fst snd].
  assert (Hv : In ("Violates constraint: " ++ constraint)%string
                  (map (fun c => ("Violates constraint: " ++ c)%string)
                       (filter (fun c => negb (ConstraintCheck.check_constraint
                                                 answer_text c))
                               constraints))).
  { apply in_map_iff. exists constraint. split; [reflexivity|].
    apply filter_In. split; [exact Hin|]. now rewrite Hcheck. }
  split; [|exact Hv].
  destruct (map _ _); [destruct Hv|reflexivity].
Qed.

Lemma must_not_is_never_satisfied_witness :
  ConstraintCheck.check_constraint "Blue" "The answer must not be red" = false
  /\ fst (ConstraintCheck.validate_against_constraints
            "Blue" ["It is a colour"; "The answer must not be red"]%string) = false
  /\ In ("Violates constraint: " ++ "The answer must not be red")%string
        (snd (ConstraintCheck.validate_against_constraints
                "Blue" ["It is a colour"; "The answer must not be red"]%string)).
Proof.
  apply (must_not_is_never_satisfied
           "Blue" "The answer must not be red" "the answer " " be red"
           ["It is a colour"; "The answer must not be red"]%string).
  - vm_compute. reflexivity.
  - vm_compute. reflexivity.
  - vm_compute. reflexivity.
  - vm_compute. reflexivity.
  - vm_compute. reflexivity.
  - simpl. tauto.
Defined.
